(** * Continue-Witty monitoring subsystem: threshold detection, one-shot
      state machines and trigger coordination.

    A shallow embedding of
      - scripts/context-window-monitor.py   (ContextWindowMonitor)
      - scripts/credit-monitor.py           (CreditMonitor)
      - scripts/session-duration-monitor.py (SessionDurationMonitor)
      - scripts/monitoring-coordinator.py   (MonitoringCoordinator)
    with the package generator (scripts/enhanced-package-generator.py)
    kept as a collaborator whose only observable part is the dictionary it
    returns.

    Conventions of the embedding.
      - Python [str] is [string]; the subject texts are ASCII.
      - Python [float] is [Q]: arithmetic and comparisons are those of the
        exact rationals (no rounding).
      - Python [int] is [Z].
      - A [dict] that is returned, logged or nested is a [gmap string pyval];
        the monitor state documents, whose key sets are fixed by the
        defaults, are records.
      - [datetime.now()] is an argument [now] (microseconds) of the
        operation that reads the clock; [input()] pops one line off an
        explicit list of pending input lines and raises [EOFError] when the
        list is empty.
      - Every [_save_*] writes the in-memory document to a [*_file] field
        (the write is assumed to succeed). *)

From Stdlib Require Import Ascii String DecimalString QArith Qminmax Lia.
From Stdlib Require DecimalPos.
From stdpp Require Import base gmap strings list.

Set Default Proof Using "Type".
Set Warnings "-register-all".
Local Open Scope string_scope.

(** ** Python values *)

Inductive pyval : Type :=
| VNone
| VBool (b : bool)
| VInt (n : Z)
| VFloat (q : Q)
| VStr (s : string)
| VList (l : list pyval)
| VDict (d : gmap string pyval).

Abbreviation dict := (gmap string pyval).

(** Truth value of an object, as tested by [if x:]. *)
Definition truthy (v : pyval) : bool :=
  match v with
  | VNone => false
  | VBool b => b
  | VInt n => negb (n =? 0)%Z
  | VFloat q => negb (Qeq_bool q 0)
  | VStr s => negb (String.eqb s "")
  | VList l => match l with [] => false | _ => true end
  | VDict d => negb (bool_decide (d = ∅))
  end.

(** [d.get(k)] followed by a truth test; a missing key reads [None]. *)
Definition get_truthy (d : dict) (k : string) : bool :=
  match d !! k with Some v => truthy v | None => false end.

(** [d.update(e)]: the keys of [e] override those of [d]. *)
Definition dict_update (d e : dict) : dict := e ∪ d.

(** ** Characters and strings *)

Definition chars (s : string) : list ascii := list_ascii_of_string s.

Definition is_digit (c : ascii) : bool :=
  let n := nat_of_ascii c in (48 <=? n)%nat && (n <=? 57)%nat.

(** [str.isspace] on one ASCII character; it is also what [\s] matches. *)
Definition is_space (c : ascii) : bool :=
  let n := nat_of_ascii c in
  ((9 <=? n)%nat && (n <=? 13)%nat) || ((28 <=? n)%nat && (n <=? 32)%nat).

Definition lower_char (c : ascii) : ascii :=
  let n := nat_of_ascii c in
  if (65 <=? n)%nat && (n <=? 90)%nat then ascii_of_nat (n + 32) else c.

(** [s.lower()] *)
Definition lower (s : string) : string :=
  string_of_list_ascii (map lower_char (chars s)).

(** [s.isdigit()]: non-empty and made of digits only. *)
Definition isdigit (s : string) : bool :=
  match chars s with
  | [] => false
  | l => forallb is_digit l
  end.


(** [int(s)] for a string of decimal digits. *)
Definition int_of_digits (s : string) : Z :=
  fold_left (fun acc c => (10 * acc + (Z.of_nat (nat_of_ascii c) - 48))%Z)
            (chars s) 0%Z.

(** [s.strip()] *)
Fixpoint lstrip_chars (l : list ascii) : list ascii :=
  match l with
  | c :: l' => if is_space c then lstrip_chars l' else l
  | [] => []
  end.

Definition strip (s : string) : string :=
  string_of_list_ascii
    (rev (lstrip_chars (rev (lstrip_chars (chars s))))).

(** [needle in hay] *)
Fixpoint is_prefix_chars (p l : list ascii) : bool :=
  match p, l with
  | [], _ => true
  | a :: p', b :: l' => Ascii.eqb a b && is_prefix_chars p' l'
  | _ :: _, [] => false
  end.

Fixpoint contains_chars (p l : list ascii) : bool :=
  is_prefix_chars p l ||
  match l with
  | [] => false
  | _ :: l' => contains_chars p l'
  end.

Definition contains (needle hay : string) : bool :=
  contains_chars (chars needle) (chars hay).

(** [x in [a, b, ...]] for strings *)
Definition str_in (x : string) (l : list string) : bool :=
  existsb (String.eqb x) l.

(** ** Regular expressions

    The fragment of Python's [re] syntax that the monitors' patterns use,
    matched the way [re] does it: leftmost, alternatives tried in order,
    repetitions greedy, with backtracking.  All patterns are compiled with
    [re.IGNORECASE], so a literal matches either case.  Repetition is only
    ever applied to a single character class in the patterns at hand. *)

Inductive cclass : Type :=
| CLit (c : ascii)     (* a literal character *)
| CDigit               (* \d *)
| CSpace               (* \s *)
| CDot                 (* .  (anything but a newline) *)
| CSet (l : list ascii) (* [...] *).

Definition in_class (k : cclass) (c : ascii) : bool :=
  match k with
  | CLit a => Ascii.eqb (lower_char a) (lower_char c)
  | CDigit => is_digit c
  | CSpace => is_space c
  | CDot => negb (Ascii.eqb c "010"%char)
  | CSet l => existsb (fun a => Ascii.eqb (lower_char a) (lower_char c)) l
  end.

Inductive regex : Type :=
| REps
| RChr (k : cclass)
| RSeq (r1 r2 : regex)
| RAlt (r1 r2 : regex)
| ROpt (r : regex)           (* r?  *)
| RStar (k : cclass)         (* k*  *)
| RGroup (i : nat) (r : regex) (* the i-th capturing group *).

(** Captured groups: the most recent capture of a group comes first. *)
Definition captures := list (nat * list ascii).

Section Matcher.
Context {A : Type}.

(** [k*] followed by the continuation [kont]: the longest run first. *)
Fixpoint star_class (k : cclass) (s : list ascii)
         (kont : list ascii -> option A) : option A :=
  match s with
  | c :: s' =>
      if in_class k c then
        match star_class k s' kont with
        | Some x => Some x
        | None => kont s
        end
      else kont s
  | [] => kont []
  end.

(** Match [r] at the head of [s], then run the continuation on the rest
    of the subject and the captures so far. *)
Fixpoint rmatch (r : regex) (s : list ascii) (caps : captures)
         (kont : list ascii -> captures -> option A) : option A :=
  match r with
  | REps => kont s caps
  | RChr k =>
      match s with
      | c :: s' => if in_class k c then kont s' caps else None
      | [] => None
      end
  | RSeq r1 r2 =>
      rmatch r1 s caps (fun s1 caps1 => rmatch r2 s1 caps1 kont)
  | RAlt r1 r2 =>
      match rmatch r1 s caps kont with
      | Some x => Some x
      | None => rmatch r2 s caps kont
      end
  | ROpt r1 =>
      match rmatch r1 s caps kont with
      | Some x => Some x
      | None => kont s caps
      end
  | RStar k => star_class k s (fun s' => kont s' caps)
  | RGroup i r1 =>
      rmatch r1 s caps
        (fun s' caps' =>
           kont s' ((i, take (length s - length s') s) :: caps'))
  end.
End Matcher.

(** A successful match at the head of the subject: the captures and the
    number of characters consumed. *)
Definition match_here (r : regex) (s : list ascii) : option (captures * nat) :=
  rmatch r s [] (fun s' caps => Some (caps, length s - length s')).

(** [m.group(i)] *)
Fixpoint group (caps : captures) (i : nat) : option (list ascii) :=
  match caps with
  | [] => None
  | (j, t) :: caps' => if Nat.eqb i j then Some t else group caps' i
  end.

(** [re.search(r, s)]: the match at the leftmost position that has one. *)
Fixpoint re_search (r : regex) (s : list ascii) : option (captures * list ascii) :=
  match match_here r s with
  | Some (caps, n) => Some (caps, take n s)
  | None =>
      match s with
      | [] => None
      | _ :: s' => re_search r s'
      end
  end.

(** One entry of the list [re.findall] returns: the whole match when the
    pattern has no group, the group when it has one, the tuple of groups
    when it has several. *)
Inductive found : Type :=
| FStr (s : string)
| FTuple (l : list string).

Definition found_of (ngroups : nat) (caps : captures) (whole : list ascii) : found :=
  let grp i := string_of_list_ascii (default [] (group caps i)) in
  match ngroups with
  | O => FStr (string_of_list_ascii whole)
  | 1%nat => FStr (grp 1%nat)
  | n => FTuple (map grp (seq 1 n))
  end.


(** [re.findall]: successive non-overlapping matches, left to right.
    [skip] counts the characters of the current match still to be passed
    over before the search resumes.  After a match the search resumes
    where the match ended; none of the monitors' patterns can match the
    empty string, so the rule [re] has for empty matches plays no part. *)
Fixpoint findall_from (r : regex) (ngroups : nat) (skip : nat)
         (s : list ascii) : list found :=
  match s with
  | [] =>
      match skip, match_here r [] with
      | O, Some (caps, _) => [found_of ngroups caps []]
      | _, _ => []
      end
  | _ :: s' =>
      match skip with
      | S k => findall_from r ngroups k s'
      | O =>
          match match_here r s with
          | Some (caps, n) =>
              found_of ngroups caps (take n s)
                :: findall_from r ngroups (n - 1) s'
          | None => findall_from r ngroups 0 s'
          end
      end
  end.

(** A pattern: its source text, its syntax tree and its number of groups. *)
Record pattern := Pattern {
  pat_source : string;
  pat_regex : regex;
  pat_groups : nat
}.

Definition findall (p : pattern) (text : string) : list found :=
  findall_from (pat_regex p) (pat_groups p) 0 (chars text).

Definition search (p : pattern) (text : string) : option (captures * list ascii) :=
  re_search (pat_regex p) (chars text).

(** Building blocks for writing patterns down. *)
Definition lit (s : string) : regex :=
  fold_right (fun c r => RSeq (RChr (CLit c)) r) REps (chars s).
Definition plus (k : cclass) : regex := RSeq (RChr k) (RStar k).
Fixpoint alt (l : list regex) : regex :=
  match l with
  | [] => REps
  | [r] => r
  | r :: l' => RAlt r (alt l')
  end.
Fixpoint cat (l : list regex) : regex :=
  match l with
  | [] => REps
  | [r] => r
  | r :: l' => RSeq r (cat l')
  end.

Definition digits : regex := plus CDigit.
Definition ws : regex := RStar CSpace.   (* \s* *)
Definition ws1 : regex := plus CSpace.   (* \s+ *)

(** ** Numbers and their renderings *)

(** Clock readings and durations: microseconds, as [datetime] counts them. *)
Definition timestamp := Z.

Definition string_of_Z (z : Z) : string :=
  NilZero.string_of_int (Z.to_int z).

(** Nearest integer, ties to even. *)
Definition round_half_even (q : Q) : Z :=
  let n := Qnum q in
  let d := Zpos (Qden q) in
  let f := (n / d)%Z in
  let r := (2 * (n mod d))%Z in
  if (r <? d)%Z then f
  else if (d <? r)%Z then (f + 1)%Z
  else if Z.even f then f else (f + 1)%Z.

(** [f"{q:.1f}"] *)
Definition format_1f (q : Q) : string :=
  let t := round_half_even (q * 10)%Q in
  let a := Z.abs t in
  (if (t <? 0)%Z then "-" else "")
    +:+ string_of_Z (a / 10) +:+ "." +:+ string_of_Z (a mod 10).

(** [f"{u * 100:.1f}%"] *)
Definition format_percentage (u : Q) : string := format_1f (u * 100)%Q +:+ "%".

(** ** Outcomes of operations that may raise *)

Inductive outcome (A : Type) : Type :=
| Returned (a : A)
| Raised (exn : string).
Arguments Returned {A} a.
Arguments Raised {A} exn.

(** [input()]: the next pending line, or [EOFError]. *)
Definition input (stdin : list string) : outcome string * list string :=
  match stdin with
  | line :: rest => (Returned line, rest)
  | [] => (Raised "EOFError", [])
  end.

(** ** The package generator (collaborator)

    [create_enhanced_package] catches every exception and returns one of
    two dictionaries: the description of the snapshot it wrote, or
    [{"success": False, "error": ...}].  What it writes, how it numbers
    snapshots and whether it asks for a title are left to the
    instance: it acts on a store [World] and on the pending input. *)

Inductive PackageType : Type := LIGHT | FULL | COMPLEX.

Definition PackageType_value (t : PackageType) : string :=
  match t with LIGHT => "light" | FULL => "full" | COMPLEX => "complex" end.

Inductive package_result : Type :=
| PackageCreated (snapshot_id : string) (snapshot_number : Z) (title : string)
                 (files_created : list string) (total_size : Z)
                 (location : string)
| PackageFailed (error_msg : string).

(** The dictionary [create_enhanced_package] returns. *)
Definition package_dict (t : PackageType) (r : package_result) : dict :=
  match r with
  | PackageCreated sid num title files size loc =>
      {[ "success" := VBool true;
         "snapshot_id" := VStr sid;
         "snapshot_number" := VInt num;
         "title" := VStr title;
         "package_type" := VStr (PackageType_value t);
         "files_created" := VList (map VStr files);
         "total_size" := VInt size;
         "location" := VStr loc;
         "conversation_export" := VBool (str_in "conversation-context.md" files);
         "version" := VStr "2.7.0" ]}
  | PackageFailed msg =>
      {[ "success" := VBool false; "error" := VStr msg ]}
  end.

Record IO (World : Type) : Type := MkIO {
  stdin : list string;
  world : World
}.
Arguments MkIO {World} _ _.
Arguments stdin {World} _.
Arguments world {World} _.

Record EnhancedPackageGenerator (World : Type) : Type := {
  (** [create_enhanced_package(package_type, trigger_reason, auto_created,
      conversation_exchanges)] *)
  create_enhanced_package :
    PackageType -> string -> bool -> option Z -> IO World ->
    package_result * IO World;
  (** rewriting [snapshots_dir / snapshot_id / "metadata.json"] with extra
      fields; failures are caught and only printed *)
  update_metadata : string -> dict -> World -> World;
  (** writing [emergency-code-yellow-session.md] into the snapshot *)
  write_emergency_file : string -> World -> World
}.
Arguments create_enhanced_package {World} _ _ _ _ _ _.
Arguments update_metadata {World} _ _ _ _.
Arguments write_emergency_file {World} _ _ _.

(** [config.get(key, True)] followed by a truth test. *)
Definition config_enabled (config : dict) (key : string) : bool :=
  match config !! key with Some v => truthy v | None => true end.

(** [_load_config]: the defaults, overridden by the user's document when
    there is a readable one. *)
Definition load_with_defaults (defaults : dict) (saved : option dict) : dict :=
  match saved with
  | Some user => dict_update defaults user
  | None => defaults
  end.

(** * Context window monitor (scripts/context-window-monitor.py) *)

Module ContextMonitor.

(** The monitoring state document. *)
Record state : Type := MkState {
  last_check : option timestamp;
  warning_triggered : bool;
  base_context_created : bool;
  base_context_snapshot : pyval;
  base_context_timestamp : option timestamp;
  critical_triggered : bool;
  estimated_context_usage : Q;
  conversation_exchanges_since_base : Z
}.

Definition default_state : state :=
  {| last_check := None;
     warning_triggered := false;
     base_context_created := false;
     base_context_snapshot := VNone;
     base_context_timestamp := None;
     critical_triggered := false;
     estimated_context_usage := 0%Q;
     conversation_exchanges_since_base := 0 |}.

Definition set_last_check (v : option timestamp) (s : state) : state :=
  MkState v (warning_triggered s) (base_context_created s)
          (base_context_snapshot s) (base_context_timestamp s)
          (critical_triggered s) (estimated_context_usage s)
          (conversation_exchanges_since_base s).
Definition set_warning_triggered (v : bool) (s : state) : state :=
  MkState (last_check s) v (base_context_created s)
          (base_context_snapshot s) (base_context_timestamp s)
          (critical_triggered s) (estimated_context_usage s)
          (conversation_exchanges_since_base s).
Definition set_critical_triggered (v : bool) (s : state) : state :=
  MkState (last_check s) (warning_triggered s) (base_context_created s)
          (base_context_snapshot s) (base_context_timestamp s)
          v (estimated_context_usage s)
          (conversation_exchanges_since_base s).
Definition set_estimated_context_usage (v : Q) (s : state) : state :=
  MkState (last_check s) (warning_triggered s) (base_context_created s)
          (base_context_snapshot s) (base_context_timestamp s)
          (critical_triggered s) v
          (conversation_exchanges_since_base s).
Definition set_conversation_exchanges_since_base (v : Z) (s : state) : state :=
  MkState (last_check s) (warning_triggered s) (base_context_created s)
          (base_context_snapshot s) (base_context_timestamp s)
          (critical_triggered s) (estimated_context_usage s) v.
Definition set_base_context (snapshot : pyval) (t : timestamp) (s : state) : state :=
  MkState (last_check s) (warning_triggered s) true
          snapshot (Some t)
          (critical_triggered s) (estimated_context_usage s)
          (conversation_exchanges_since_base s).

(** [self.context_indicators], in the order of the source. *)
Definition tokens_or_words : regex :=
  alt [RSeq (lit "token") (ROpt (RChr (CLit "s")));
       RSeq (lit "word") (ROpt (RChr (CLit "s")))].

Definition context_indicators : list pattern :=
  [ Pattern "(\d+)\s*(?:tokens?|words?)\s*(?:used|remaining|left)"
      (cat [RGroup 1 digits; ws; tokens_or_words; ws;
            alt [lit "used"; lit "remaining"; lit "left"]]) 1;
    Pattern "context\s*(?:window|size|limit)\s*:\s*(\d+)"
      (cat [lit "context"; ws; alt [lit "window"; lit "size"; lit "limit"];
            ws; lit ":"; ws; RGroup 1 digits]) 1;
    Pattern "(\d+)\s*(?:/|of)\s*(\d+)\s*(?:tokens?|context)"
      (cat [RGroup 1 digits; ws; alt [lit "/"; lit "of"]; ws;
            RGroup 2 digits; ws;
            alt [RSeq (lit "token") (ROpt (RChr (CLit "s"))); lit "context"]]) 2;
    Pattern "(\d+)%\s*(?:context|usage|capacity|used)"
      (cat [RGroup 1 digits; lit "%"; ws;
            alt [lit "context"; lit "usage"; lit "capacity"; lit "used"]]) 1;
    Pattern "context\s*:\s*(\d+)%"
      (cat [lit "context"; ws; lit ":"; ws; RGroup 1 digits; lit "%"]) 1;
    Pattern "compacting|summarizing|truncating"
      (alt [lit "compacting"; lit "summarizing"; lit "truncating"]) 0;
    Pattern "context\s*(?:window\s*)?(?:full|limit|exceeded)"
      (cat [lit "context"; ws; ROpt (RSeq (lit "window") ws);
            alt [lit "full"; lit "limit"; lit "exceeded"]]) 0;
    Pattern "reducing\s*(?:context|conversation\s*history)"
      (cat [lit "reducing"; ws;
            alt [lit "context"; cat [lit "conversation"; ws; lit "history"]]]) 0
  ].

(** The body of [for match in matches]: the value the loop returns on
    this match, if it returns on it. *)
Definition percentage_of (s : string) : option Q :=
  let percentage := int_of_digits s in
  if (percentage <=? 100)%Z then Some (inject_Z percentage / 100)%Q else None.

Definition indicator_value (m : found) : option Q :=
  match m with
  | FTuple l =>
      match l with
      | [] => None
      | m0 :: rest =>
          if match rest with
             | [m1] => isdigit m1
             | _ => false
             end
          then
            let used := if isdigit m0 then int_of_digits m0 else 0%Z in
            let total := match rest with [m1] => int_of_digits m1 | _ => 0%Z end in
            if (0 <? total)%Z
            then Some (Qmin (inject_Z used / inject_Z total)%Q 1%Q)
            else None
          else if isdigit m0 then percentage_of m0
          else None
      end
  | FStr s => if isdigit s then percentage_of s else None
  end.

Fixpoint first_indicator (ms : list found) : option Q :=
  match ms with
  | [] => None
  | m :: ms' =>
      match indicator_value m with
      | Some q => Some q
      | None => first_indicator ms'
      end
  end.

(** Method 1: the first pattern, in order, one of whose matches yields a
    value. *)
Fixpoint explicit_indicator (ps : list pattern) (text : string) : option Q :=
  match ps with
  | [] => None
  | p :: ps' =>
      match first_indicator (findall p text) with
      | Some q => Some q
      | None => explicit_indicator ps' text
      end
  end.

Section Monitor.
Context {World : Type}.

Record ContextWindowMonitor : Type := MkMonitor {
  config : dict;
  monitor_state : state;
  state_file : option state;
  max_context_estimate : Z;
  warning_threshold : Q;
  critical_threshold : Q;
  generator : option (EnhancedPackageGenerator World)
}.

Definition default_config : dict :=
  {[ "context_monitoring" := VBool true;
     "warning_threshold" := VFloat (90 # 100);
     "critical_threshold" := VFloat (95 # 100);
     "auto_delta_backup" := VBool true;
     "version" := VStr "2.7.0" ]}.

(** [__init__]: [user_config] and [saved_state] are what the two
    documents hold when they can be read, [gen] is the generator when
    its module could be imported. *)
Definition init (user_config : option dict) (saved_state : option state)
           (gen : option (EnhancedPackageGenerator World))
  : ContextWindowMonitor :=
  {| config := load_with_defaults default_config user_config;
     monitor_state := default default_state saved_state;
     state_file := saved_state;
     max_context_estimate := 200000;
     warning_threshold := 90 # 100;
     critical_threshold := 95 # 100;
     generator := gen |}.

Definition with_state (s : state) (m : ContextWindowMonitor)
  : ContextWindowMonitor :=
  MkMonitor (config m) s (state_file m) (max_context_estimate m)
            (warning_threshold m) (critical_threshold m) (generator m).

(** [_save_state] *)
Definition _save_state (now : timestamp) (m : ContextWindowMonitor)
  : ContextWindowMonitor :=
  let s := set_last_check (Some now) (monitor_state m) in
  MkMonitor (config m) s (Some s) (max_context_estimate m)
            (warning_threshold m) (critical_threshold m) (generator m).

(** Method 2: the estimate from the length of the text. *)
Definition length_estimate (m : ContextWindowMonitor) (text : string) : Q :=
  let char_count := Z.of_nat (String.length text) in
  let estimated_tokens := (inject_Z char_count / 4)%Q in
  (estimated_tokens / inject_Z (max_context_estimate m))%Q.

(** Method 3: the estimate from the number of exchanges. *)
Definition exchange_estimate (s : state) : Q :=
  let exchanges := conversation_exchanges_since_base s in
  let base_usage := estimated_context_usage s in
  let exchange_increment := (inject_Z exchanges * (15 # 1000))%Q in
  (base_usage + exchange_increment)%Q.

Definition estimate_context_usage (m : ContextWindowMonitor)
           (conversation_text : string) : Q :=
  match explicit_indicator context_indicators conversation_text with
  | Some q => q
  | None =>
      let final_estimate :=
        Qmax (length_estimate m conversation_text)
             (exchange_estimate (monitor_state m)) in
      Qmin final_estimate 1%Q
  end.

(** The dictionary [check_context_thresholds] returns.  [message] keeps
    the kind of the message; its text is a rendering of
    [current_percentage]. *)
Inductive threshold_message : Type :=
| CriticalDeltaMessage
| CriticalFullMessage
| WarningMessage.

Record check_result : Type := MkCheck {
  current_usage : Q;
  current_percentage : string;
  warning_threshold_crossed : bool;
  critical_threshold_crossed : bool;
  action_required : option string;
  message : option threshold_message;
  backup_type : option string
}.

Definition check_context_thresholds (now : timestamp)
           (m : ContextWindowMonitor) (conversation_text : string)
  : check_result * ContextWindowMonitor :=
  let current_usage := estimate_context_usage m conversation_text in
  let s := set_estimated_context_usage current_usage (monitor_state m) in
  let pct := format_percentage current_usage in
  if Qle_bool (critical_threshold m) current_usage
     && negb (critical_triggered s)
  then
    let result :=
      if base_context_created s
      then MkCheck current_usage pct false true (Some "critical_backup")
                   (Some CriticalDeltaMessage) (Some "delta_session")
      else MkCheck current_usage pct false true (Some "critical_backup")
                   (Some CriticalFullMessage) (Some "full_backup") in
    (result, _save_state now (with_state (set_critical_triggered true s) m))
  else if Qle_bool (warning_threshold m) current_usage
          && negb (warning_triggered s)
  then
    (MkCheck current_usage pct true false (Some "warning_backup")
             (Some WarningMessage) (Some "base_context"),
     _save_state now (with_state (set_warning_triggered true s) m))
  else
    (MkCheck current_usage pct false false None None None,
     _save_state now (with_state s m)).

Definition generator_not_available : dict :=
  {[ "error" := VStr "Enhanced package generator not available" ]}.

Definition skipped (reason : string) : dict :=
  {[ "skipped" := VBool true; "reason" := VStr reason ]}.

Definition py_time (t : option timestamp) : pyval :=
  match t with Some z => VInt z | None => VNone end.

(** [_create_base_context] *)
Definition _create_base_context (gen : EnhancedPackageGenerator World)
           (now : timestamp) (m : ContextWindowMonitor) (io : IO World)
  : dict * ContextWindowMonitor * IO World :=
  let '(r, io) :=
    create_enhanced_package gen FULL "context-warning-10pct" false None io in
  let result := package_dict FULL r in
  if get_truthy result "success" then
    let snapshot := default VNone (result !! "snapshot_id") in
    let s := set_conversation_exchanges_since_base 0
               (set_base_context snapshot now (monitor_state m)) in
    let m := _save_state now (with_state s m) in
    (dict_update result
       {[ "backup_type" := VStr "base_context";
          "base_context_snapshot" := snapshot ]}, m, io)
  else (result, m, io).

(** [_create_delta_session] *)
Definition _create_delta_session (gen : EnhancedPackageGenerator World)
           (m : ContextWindowMonitor) (io : IO World)
  : dict * ContextWindowMonitor * IO World :=
  let s := monitor_state m in
  let delta_exchanges := Z.max (conversation_exchanges_since_base s) 3 in
  let '(r, io) :=
    create_enhanced_package gen COMPLEX "context-critical-5pct-delta" true
                            (Some delta_exchanges) io in
  let result := package_dict COMPLEX r in
  if get_truthy result "success" then
    match result !! "snapshot_id" with
    | Some (VStr snapshot_id) =>
        let metadata : dict :=
          {[ "title" := VStr ("Delta Session (" +:+ string_of_Z delta_exchanges
                                +:+ " exchanges)");
             "backup_type" := VStr "delta_session";
             "base_context_snapshot" := base_context_snapshot s;
             "base_context_timestamp" := py_time (base_context_timestamp s);
             "delta_exchanges" := VInt delta_exchanges;
             "context_usage_at_trigger" :=
               VStr (format_percentage (estimated_context_usage s)) ]} in
        let io := MkIO (stdin io)
                       (update_metadata gen snapshot_id metadata (world io)) in
        (dict_update result
           {[ "backup_type" := VStr "delta_session";
              "base_context_snapshot" := base_context_snapshot s;
              "delta_exchanges" := VInt delta_exchanges ]}, m, io)
    | _ =>
        (* [result["snapshot_id"]] raised; the handler reports it *)
        ({[ "error" := VStr "Delta session creation failed: 'snapshot_id'" ]},
         m, io)
    end
  else (result, m, io).

(** [_create_full_critical_backup] *)
Definition _create_full_critical_backup (gen : EnhancedPackageGenerator World)
           (m : ContextWindowMonitor) (io : IO World)
  : dict * ContextWindowMonitor * IO World :=
  let '(r, io) :=
    create_enhanced_package gen COMPLEX "context-critical-5pct-full" true
                            None io in
  let result := package_dict COMPLEX r in
  if get_truthy result "success" then
    (dict_update result
       {[ "backup_type" := VStr "full_critical";
          "context_usage_at_trigger" :=
            VStr (format_percentage
                    (estimated_context_usage (monitor_state m))) ]}, m, io)
  else (result, m, io).

(** [input(...).strip().lower()] *)
Definition read_choice (io : IO World) : outcome string * IO World :=
  match input (stdin io) with
  | (Returned line, rest) => (Returned (lower (strip line)), MkIO rest (world io))
  | (Raised e, rest) => (Raised e, MkIO rest (world io))
  end.

(** [handle_warning_trigger] *)
Definition handle_warning_trigger (now : timestamp)
           (m : ContextWindowMonitor) (auto_response : option string)
           (io : IO World)
  : outcome dict * ContextWindowMonitor * IO World :=
  match generator m with
  | None => (Returned generator_not_available, m, io)
  | Some gen =>
      let '(choice, io) :=
        match auto_response with
        | Some r => if String.eqb r "" then read_choice io
                    else (Returned (lower r), io)
        | None => read_choice io
        end in
      match choice with
      | Raised e => (Raised e, m, io)
      | Returned choice =>
          if str_in choice ["y"; "yes"] then
            let '(d, m, io) := _create_base_context gen now m io in
            (Returned d, m, io)
          else if str_in choice ["n"; "no"] then
            (Returned (skipped "User declined base context backup"), m, io)
          else
            (Returned (skipped "Invalid input, defaulted to no"), m, io)
      end
  end.

(** [handle_critical_trigger] *)
Definition handle_critical_trigger (m : ContextWindowMonitor) (io : IO World)
  : dict * ContextWindowMonitor * IO World :=
  match generator m with
  | None => (generator_not_available, m, io)
  | Some gen =>
      if base_context_created (monitor_state m)
      then _create_delta_session gen m io
      else _create_full_critical_backup gen m io
  end.

(** [increment_exchange_count] *)
Definition increment_exchange_count (now : timestamp)
           (m : ContextWindowMonitor) : ContextWindowMonitor :=
  let s := monitor_state m in
  _save_state now
    (with_state
       (set_conversation_exchanges_since_base
          (conversation_exchanges_since_base s + 1)%Z s) m).

(** [reset_monitoring] *)
Definition reset_monitoring (now : timestamp) (m : ContextWindowMonitor)
  : ContextWindowMonitor :=
  _save_state now (with_state default_state m).

(** [monitor_conversation]: [Returned None] when no threshold was
    crossed. *)
Definition monitor_conversation (now : timestamp)
           (m : ContextWindowMonitor) (conversation_text : string)
           (io : IO World)
  : outcome (option dict) * ContextWindowMonitor * IO World :=
  if negb (config_enabled (config m) "context_monitoring")
  then (Returned None, m, io)
  else
    let m := increment_exchange_count now m in
    let '(threshold_result, m) :=
      check_context_thresholds now m conversation_text in
    if critical_threshold_crossed threshold_result then
      let '(d, m, io) := handle_critical_trigger m io in
      (Returned (Some d), m, io)
    else if warning_threshold_crossed threshold_result then
      match handle_warning_trigger now m None io with
      | (Returned d, m, io) => (Returned (Some d), m, io)
      | (Raised e, m, io) => (Raised e, m, io)
      end
    else (Returned None, m, io).

(** [get_status] *)
Definition get_status (m : ContextWindowMonitor) : dict :=
  let s := monitor_state m in
  {[ "context_usage" := VStr (format_percentage (estimated_context_usage s));
     "warning_triggered" := VBool (warning_triggered s);
     "critical_triggered" := VBool (critical_triggered s);
     "base_context_created" := VBool (base_context_created s);
     "base_context_snapshot" := base_context_snapshot s;
     "exchanges_since_base" := VInt (conversation_exchanges_since_base s);
     "monitoring_active" :=
       default (VBool true) (config m !! "context_monitoring") ]}.
End Monitor.
Arguments ContextWindowMonitor World : clear implicits.

End ContextMonitor.

(** * Credit monitor (scripts/credit-monitor.py) *)

Module CreditMonitor.

Definition am_pm : regex := RSeq (RChr (CSet ["a"; "p"]%char)) (lit "m").
Definition credits : regex := RSeq (lit "credit") (ROpt (RChr (CLit "s"))).

(** [self.credit_patterns], in the order of the source. *)
Definition credit_patterns : list pattern :=
  [ Pattern "credits?\s+running\s+low"
      (cat [credits; ws1; lit "running"; ws1; lit "low"]) 0;
    Pattern "usage\s+limit\s+(reached|approaching)"
      (cat [lit "usage"; ws1; lit "limit"; ws1;
            RGroup 1 (alt [lit "reached"; lit "approaching"])]) 1;
    Pattern "approaching\s+usage\s+limit"
      (cat [lit "approaching"; ws1; lit "usage"; ws1; lit "limit"]) 0;
    Pattern "resume\s+at\s+\d+[ap]m"
      (cat [lit "resume"; ws1; lit "at"; ws1; digits; am_pm]) 0;
    Pattern "resets?\s+at\s+\d+[ap]m"
      (cat [lit "reset"; ROpt (RChr (CLit "s")); ws1; lit "at"; ws1;
            digits; am_pm]) 0;
    Pattern "upgrade\s+.*more\s+credit"
      (cat [lit "upgrade"; ws1; RStar CDot; lit "more"; ws1; lit "credit"]) 0;
    Pattern "session\s+will\s+pause"
      (cat [lit "session"; ws1; lit "will"; ws1; lit "pause"]) 0;
    Pattern "daily\s+limit\s+reached"
      (cat [lit "daily"; ws1; lit "limit"; ws1; lit "reached"]) 0;
    Pattern "credits?\s+.*refresh"
      (cat [credits; ws1; RStar CDot; lit "refresh"]) 0
  ].

(** [time_patterns] of [_extract_resume_time] *)
Definition time_patterns : list pattern :=
  [ Pattern "resume\s+at\s+(\d+[ap]m)"
      (cat [lit "resume"; ws1; lit "at"; ws1; RGroup 1 (RSeq digits am_pm)]) 1;
    Pattern "available\s+at\s+(\d+[ap]m)"
      (cat [lit "available"; ws1; lit "at"; ws1; RGroup 1 (RSeq digits am_pm)]) 1;
    Pattern "refresh\s+at\s+(\d+[ap]m)"
      (cat [lit "refresh"; ws1; lit "at"; ws1; RGroup 1 (RSeq digits am_pm)]) 1
  ].

(** [_extract_resume_time] *)
Fixpoint first_group1 (ps : list pattern) (message : string) : option string :=
  match ps with
  | [] => None
  | p :: ps' =>
      match search p message with
      | Some (caps, _) =>
          Some (string_of_list_ascii (default [] (group caps 1)))
      | None => first_group1 ps' message
      end
  end.

Definition _extract_resume_time (message : string) : option string :=
  first_group1 time_patterns message.

(** [_classify_warning_type] *)
Definition _classify_warning_type (message : string) : string :=
  if contains "daily limit" message || contains "24 hour" message
  then "daily_limit"
  else if contains "upgrade" message then "upgrade_suggestion"
  else if contains "running low" message then "low_credits"
  else if contains "pause" message then "session_pause"
  else "general_limit".

(** The dictionary [detect_credit_warning] returns on a detection. *)
Record warning_info : Type := MkWarning {
  patterns_matched : list string;
  resume_time : option string;
  warning_type : string;
  original_message : string;
  confidence : Q
}.

Inductive detection : Type :=
| NotDetected                (* {"credit_warning_detected": False} *)
| Detected (w : warning_info) (* {"credit_warning_detected": True, ...} *).

Definition py_opt_str (o : option string) : pyval :=
  match o with Some s => VStr s | None => VNone end.

Definition warning_info_dict (w : warning_info) : dict :=
  {[ "credit_warning_detected" := VBool true;
     "patterns_matched" := VList (map VStr (patterns_matched w));
     "resume_time" := py_opt_str (resume_time w);
     "warning_type" := VStr (warning_type w);
     "original_message" := VStr (original_message w);
     "confidence" := VFloat (confidence w) ]}.

Definition detection_dict (d : detection) : dict :=
  match d with
  | NotDetected => {[ "credit_warning_detected" := VBool false ]}
  | Detected w => warning_info_dict w
  end.

Definition matching_patterns (ps : list pattern) (text : string) : list string :=
  map pat_source
      (filter (fun p => is_Some (search p text)) ps).

(** [detect_credit_warning] *)
Definition detect_credit_warning (message : string) : detection :=
  let message_lower := lower message in
  let detected_patterns := matching_patterns credit_patterns message_lower in
  match detected_patterns with
  | [] => NotDetected
  | _ =>
      let resume_time := _extract_resume_time message in
      let warning_type := _classify_warning_type message_lower in
      Detected
        {| patterns_matched := detected_patterns;
           resume_time := resume_time;
           warning_type := warning_type;
           original_message := message;
           confidence :=
             (inject_Z (Z.of_nat (length detected_patterns))
              / inject_Z (Z.of_nat (length credit_patterns)))%Q |}
  end.

Section Monitor.
Context {World : Type}.

Record CreditMonitor : Type := MkMonitor {
  config : dict;
  generator : option (EnhancedPackageGenerator World)
}.

Definition default_config : dict :=
  {[ "credit_auto_trigger" := VBool true;
     "credit_prompt_style" := VStr "friendly";
     "credit_backup_default" := VStr "quick_save";
     "version" := VStr "2.5.0" ]}.

Definition init (user_config : option dict)
           (gen : option (EnhancedPackageGenerator World)) : CreditMonitor :=
  {| config := load_with_defaults default_config user_config;
     generator := gen |}.

Definition generator_not_available : dict :=
  {[ "error" := VStr "Enhanced package generator not available" ]}.

Definition skipped (reason : string) : dict :=
  {[ "skipped" := VBool true; "reason" := VStr reason ]}.

(** [_generate_threshold_title] *)
Definition _generate_threshold_title (warning_type : string)
           (resume_time : option string) : string :=
  let time_part :=
    match resume_time with
    | Some t => if String.eqb t "" then "" else " (resume " +:+ t +:+ ")"
    | None => ""
    end in
  "Threshold backup" +:+ time_part.

(** [_execute_threshold_backup] *)
Definition _execute_threshold_backup (gen : EnhancedPackageGenerator World)
           (package_type : string) (w : warning_info) (io : IO World)
  : dict * IO World :=
  let pkg_type :=
    if String.eqb package_type "light" then LIGHT
    else if String.eqb package_type "full" then FULL
    else if String.eqb package_type "complex" then COMPLEX
    else FULL in
  let title := _generate_threshold_title (warning_type w) (resume_time w) in
  let trigger_reason := "threshold-" +:+ warning_type w in
  let '(r, io) := create_enhanced_package gen pkg_type trigger_reason true None io in
  let result := package_dict pkg_type r in
  let io :=
    match result !! "snapshot_id" with
    | Some (VStr snapshot_id) =>
        if String.eqb snapshot_id "" then io
        else
          MkIO (stdin io)
               (update_metadata gen snapshot_id
                  {[ "title" := VStr title;
                     "threshold_trigger" := VBool true;
                     "warning_info" := VDict (warning_info_dict w) ]}
                  (world io))
    | _ => io
    end in
  (dict_update result
     {[ "threshold_triggered" := VBool true;
        "backup_title" := VStr title;
        "warning_info" := VDict (warning_info_dict w) ]}, io).

(** [_show_backup_options]: asks until the answer is 1, 2 or 3. *)
Fixpoint _show_backup_options (gen : EnhancedPackageGenerator World)
         (w : warning_info) (lines : list string) (wd : World)
  : outcome dict * IO World :=
  match lines with
  | [] => (Raised "EOFError", MkIO [] wd)
  | line :: rest =>
      let choice := strip line in
      if String.eqb choice "1" then
        let '(d, io) := _execute_threshold_backup gen "light" w (MkIO rest wd) in
        (Returned d, io)
      else if String.eqb choice "2" then
        let '(d, io) := _execute_threshold_backup gen "full" w (MkIO rest wd) in
        (Returned d, io)
      else if String.eqb choice "3" then
        let '(d, io) := _execute_threshold_backup gen "complex" w (MkIO rest wd) in
        (Returned d, io)
      else _show_backup_options gen w rest wd
  end.

(** The [while True] loop of [trigger_backup_prompt]: asks until the
    answer is yes or no. *)
Fixpoint ask_backup (gen : EnhancedPackageGenerator World)
         (w : warning_info) (lines : list string) (wd : World)
  : outcome dict * IO World :=
  match lines with
  | [] => (Raised "EOFError", MkIO [] wd)
  | line :: rest =>
      let choice := lower (strip line) in
      if str_in choice ["y"; "yes"] then _show_backup_options gen w rest wd
      else if str_in choice ["n"; "no"] then
        (Returned (skipped "User chose to skip backup"), MkIO rest wd)
      else ask_backup gen w rest wd
  end.

(** [trigger_backup_prompt] *)
Definition trigger_backup_prompt (m : CreditMonitor) (w : warning_info)
           (io : IO World) : outcome dict * IO World :=
  if negb (config_enabled (config m) "credit_auto_trigger")
  then (Returned (skipped "Credit auto-trigger disabled"), io)
  else
    match generator m with
    | None => (Returned generator_not_available, io)
    | Some gen => ask_backup gen w (stdin io) (world io)
    end.

(** [monitor_session]: [Returned None] when the message holds no
    warning. *)
Definition monitor_session (m : CreditMonitor) (message : string)
           (io : IO World) : outcome (option dict) * IO World :=
  match detect_credit_warning message with
  | Detected w =>
      match trigger_backup_prompt m w io with
      | (Returned d, io) => (Returned (Some d), io)
      | (Raised e, io) => (Raised e, io)
      end
  | NotDetected => (Returned None, io)
  end.
End Monitor.
Arguments CreditMonitor World : clear implicits.

End CreditMonitor.

(** * Session duration monitor (scripts/session-duration-monitor.py) *)

Module SessionMonitor.

(** The session state document. *)
Record state : Type := MkState {
  session_start : option timestamp;
  last_activity : option timestamp;
  code_yellow_triggered : bool;
  code_orange_triggered : bool;
  session_id : option string;
  total_exchanges : Z;
  emergency_backups_created : Z
}.

Definition default_state : state :=
  {| session_start := None;
     last_activity := None;
     code_yellow_triggered := false;
     code_orange_triggered := false;
     session_id := None;
     total_exchanges := 0;
     emergency_backups_created := 0 |}.

Definition set_code_yellow_triggered (v : bool) (s : state) : state :=
  MkState (session_start s) (last_activity s) v (code_orange_triggered s)
          (session_id s) (total_exchanges s) (emergency_backups_created s).
Definition set_code_orange_triggered (v : bool) (s : state) : state :=
  MkState (session_start s) (last_activity s) (code_yellow_triggered s) v
          (session_id s) (total_exchanges s) (emergency_backups_created s).
Definition set_activity (t : timestamp) (n : Z) (s : state) : state :=
  MkState (session_start s) (Some t) (code_yellow_triggered s)
          (code_orange_triggered s) (session_id s) n
          (emergency_backups_created s).
Definition set_emergency_backups_created (n : Z) (s : state) : state :=
  MkState (session_start s) (last_activity s) (code_yellow_triggered s)
          (code_orange_triggered s) (session_id s) (total_exchanges s) n.

(** [timedelta.total_seconds() / 3600.0] for a difference in microseconds *)
Definition hours_of (delta : Z) : Q := (inject_Z delta / 1000000 / 3600)%Q.

Section Monitor.
Context {World : Type}.

Record SessionDurationMonitor : Type := MkMonitor {
  config : dict;
  session_state : state;
  session_file : option state;
  session_limit : Q;
  code_yellow_threshold : Q;
  code_orange_threshold : Q;
  (** a monitoring thread has been started and not been told to stop *)
  monitoring_thread : bool;
  stop_monitoring : bool;
  generator : option (EnhancedPackageGenerator World)
}.

Definition default_config : dict :=
  {[ "session_monitoring" := VBool true;
     "session_limit_hours" := VFloat 5;
     "code_yellow_threshold_hours" := VFloat (45 # 10);
     "code_orange_threshold_hours" := VFloat (475 # 100);
     "auto_code_yellow" := VBool true;
     "session_buffer_minutes" := VInt 30;
     "version" := VStr "2.7.0" ]}.

(** [__init__]: the three limits read from the configuration by
    [_load_config] are overwritten by the constants assigned after it. *)
Definition init (user_config : option dict) (saved_state : option state)
           (gen : option (EnhancedPackageGenerator World))
  : SessionDurationMonitor :=
  {| config := load_with_defaults default_config user_config;
     session_state := default default_state saved_state;
     session_file := saved_state;
     session_limit := 5;
     code_yellow_threshold := 45 # 10;
     code_orange_threshold := 475 # 100;
     monitoring_thread := false;
     stop_monitoring := false;
     generator := gen |}.

Definition with_state (s : state) (m : SessionDurationMonitor)
  : SessionDurationMonitor :=
  MkMonitor (config m) s (session_file m) (session_limit m)
            (code_yellow_threshold m) (code_orange_threshold m)
            (monitoring_thread m) (stop_monitoring m) (generator m).

(** [_save_session_state] *)
Definition _save_session_state (m : SessionDurationMonitor)
  : SessionDurationMonitor :=
  MkMonitor (config m) (session_state m) (Some (session_state m))
            (session_limit m)
            (code_yellow_threshold m) (code_orange_threshold m)
            (monitoring_thread m) (stop_monitoring m) (generator m).

(** [start_monitoring_thread] *)
Definition start_monitoring_thread (m : SessionDurationMonitor)
  : SessionDurationMonitor :=
  if monitoring_thread m then m
  else MkMonitor (config m) (session_state m) (session_file m)
                 (session_limit m)
                 (code_yellow_threshold m) (code_orange_threshold m)
                 true false (generator m).

(** [stop_monitoring_thread] *)
Definition stop_monitoring_thread (m : SessionDurationMonitor)
  : SessionDurationMonitor :=
  MkMonitor (config m) (session_state m) (session_file m)
            (session_limit m)
            (code_yellow_threshold m) (code_orange_threshold m)
            false true (generator m).

(** [start_session]; a missing [session_id] is replaced by one made of
    the clock reading. *)
Definition start_session (now : timestamp) (m : SessionDurationMonitor)
           (sid : option string) : dict * SessionDurationMonitor :=
  let sid :=
    match sid with
    | Some s => if String.eqb s "" then "session-" +:+ string_of_Z now else s
    | None => "session-" +:+ string_of_Z now
    end in
  let s := {| session_start := Some now;
              last_activity := Some now;
              code_yellow_triggered := false;
              code_orange_triggered := false;
              session_id := Some sid;
              total_exchanges := 0;
              emergency_backups_created := 0 |} in
  let m := _save_session_state (with_state s m) in
  let m := if config_enabled (config m) "session_monitoring"
           then start_monitoring_thread m else m in
  ({[ "session_id" := VStr sid;
      "session_start" := VInt now;
      "monitoring_active" := VBool true ]}, m).

(** [get_session_duration] *)
Definition get_session_duration (now : timestamp)
           (m : SessionDurationMonitor) : Q :=
  match session_start (session_state m) with
  | None => 0%Q
  | Some start_time => hours_of (now - start_time)
  end.

(** [get_time_remaining] *)
Definition get_time_remaining (now : timestamp)
           (m : SessionDurationMonitor) : Q :=
  Qmax 0 (session_limit m - get_session_duration now m)%Q.

(** [update_activity] *)
Definition update_activity (now : timestamp) (m : SessionDurationMonitor)
  : SessionDurationMonitor :=
  let s := session_state m in
  _save_session_state
    (with_state (set_activity now (total_exchanges s + 1)%Z s) m).

(** The dictionary [check_session_thresholds] returns; [message] keeps
    the kind of the message. *)
Inductive threshold_message : Type :=
| LimitExceededMessage
| CodeOrangeMessage
| CodeYellowMessage.

Record check_result : Type := MkCheck {
  session_duration_hours : Q;
  time_remaining_hours : Q;
  time_remaining_minutes : Q;
  code_orange_crossed : bool;
  code_yellow_crossed : bool;
  session_limit_exceeded : bool;
  action_required : option string;
  message : option threshold_message
}.

(** [check_session_thresholds] *)
Definition check_session_thresholds (now : timestamp)
           (m : SessionDurationMonitor)
  : check_result * SessionDurationMonitor :=
  let duration := get_session_duration now m in
  let time_remaining := get_time_remaining now m in
  let s := session_state m in
  if Qle_bool (session_limit m) duration then
    (MkCheck duration time_remaining (time_remaining * 60)%Q
             false false true (Some "emergency_backup")
             (Some LimitExceededMessage), m)
  else if Qle_bool (code_orange_threshold m) duration
          && negb (code_orange_triggered s) then
    (MkCheck duration time_remaining (time_remaining * 60)%Q
             true false false (Some "code_orange")
             (Some CodeOrangeMessage),
     _save_session_state (with_state (set_code_orange_triggered true s) m))
  else if Qle_bool (code_yellow_threshold m) duration
          && negb (code_yellow_triggered s) then
    (MkCheck duration time_remaining (time_remaining * 60)%Q
             false true false (Some "code_yellow")
             (Some CodeYellowMessage),
     _save_session_state (with_state (set_code_yellow_triggered true s) m))
  else
    (MkCheck duration time_remaining (time_remaining * 60)%Q
             false false false None None, m).

Definition generator_not_available : dict :=
  {[ "error" := VStr "Enhanced package generator not available" ]}.

Definition py_opt_str (o : option string) : pyval :=
  match o with Some s => VStr s | None => VNone end.

(** [trigger_code_yellow] *)
Definition trigger_code_yellow (now : timestamp)
           (m : SessionDurationMonitor) (io : IO World)
  : dict * SessionDurationMonitor * IO World :=
  match generator m with
  | None => (generator_not_available, m, io)
  | Some gen =>
      let backup_title :=
        "Code Yellow (Session "
          +:+ format_1f (get_session_duration now m) +:+ "h)" in
      let '(r, io) :=
        create_enhanced_package gen COMPLEX "code-yellow-session-limit" true
                                (Some 10%Z) io in
      let result := package_dict COMPLEX r in
      if get_truthy result "success" then
        match result !! "snapshot_id" with
        | Some (VStr snapshot_id) =>
            let s := session_state m in
            let metadata : dict :=
              {[ "title" := VStr backup_title;
                 "code_yellow_trigger" := VBool true;
                 "session_duration_hours" :=
                   VFloat (get_session_duration now m);
                 "time_remaining_minutes" :=
                   VFloat (get_time_remaining now m * 60)%Q;
                 "session_id" := py_opt_str (session_id s);
                 "total_exchanges" := VInt (total_exchanges s);
                 "emergency_type" := VStr "session_reset_prevention" ]} in
            let w := update_metadata gen snapshot_id metadata (world io) in
            let w := write_emergency_file gen snapshot_id w in
            let m := _save_session_state
                       (with_state
                          (set_emergency_backups_created
                             (emergency_backups_created s + 1)%Z s) m) in
            (dict_update result
               {[ "code_yellow_triggered" := VBool true;
                  "backup_title" := VStr backup_title;
                  "session_duration" := VFloat (get_session_duration now m);
                  "time_remaining" := VFloat (get_time_remaining now m) ]},
             m, MkIO (stdin io) w)
        | _ =>
            (* [result["snapshot_id"]] raised; the handler reports it *)
            ({[ "error" := VStr "Code Yellow backup failed: 'snapshot_id'" ]},
             m, io)
        end
      else (result, m, io)
  end.

(** One turn of [_monitoring_loop], between two sleeps. *)
Definition monitoring_step (now : timestamp) (m : SessionDurationMonitor)
           (io : IO World) : SessionDurationMonitor * IO World :=
  if config_enabled (config m) "session_monitoring" then
    let '(threshold_result, m) := check_session_thresholds now m in
    if code_yellow_crossed threshold_result then
      if config_enabled (config m) "auto_code_yellow" then
        let '(_, m, io) := trigger_code_yellow now m io in (m, io)
      else (m, io)
    else (m, io)
  else (m, io).

(** [reset_session] *)
Definition reset_session (m : SessionDurationMonitor)
  : SessionDurationMonitor :=
  _save_session_state (with_state default_state (stop_monitoring_thread m)).
End Monitor.
Arguments SessionDurationMonitor World : clear implicits.

End SessionMonitor.

(** * Monitoring coordinator (scripts/monitoring-coordinator.py) *)

Module Coordinator.

(** One entry of [triggers_history]. *)
Record trigger_event : Type := MkEvent {
  event_timestamp : timestamp;
  event_type : string;
  event_result : dict;
  event_success : pyval
}.

(** The coordinator state document. *)
Record state : Type := MkState {
  coordinator_started : option timestamp;
  session_id : option string;
  total_triggers_fired : Z;
  triggers_history : list trigger_event;
  last_coordination_check : option timestamp
}.

Definition default_state : state :=
  {| coordinator_started := None;
     session_id := None;
     total_triggers_fired := 0;
     triggers_history := [];
     last_coordination_check := None |}.

(** [l[-n:]] for a positive [n] *)
Definition last_n {A : Type} (n : nat) (l : list A) : list A :=
  drop (length l - n) l.

Section Coordinator.
Context {World : Type}.

Record MonitoringCoordinator : Type := MkCoordinator {
  config : dict;
  coordinator_state : state;
  coordinator_state_file : option state;
  session_monitor : option (SessionMonitor.SessionDurationMonitor World);
  credit_monitor : option (CreditMonitor.CreditMonitor World);
  context_monitor : option (ContextMonitor.ContextWindowMonitor World);
  (** a coordination thread has been started and not been told to stop *)
  coordination_thread : bool;
  stop_coordination : bool
}.

Definition default_config : dict :=
  {[ "unified_monitoring" := VBool true;
     "session_monitoring" := VBool true;
     "credit_monitoring" := VBool true;
     "context_monitoring" := VBool true;
     "auto_start_session" := VBool true;
     "coordination_check_interval" := VInt 30;
     "version" := VStr "2.7.0" ]}.

(** The documents a coordinator finds when it is constructed. *)
Record documents : Type := MkDocuments {
  user_config : option dict;
  saved_coordinator_state : option state;
  saved_session_state : option SessionMonitor.state;
  saved_context_state : option ContextMonitor.state
}.

(** [__init__]: [imported] tells whether the three monitor modules could
    be loaded (they are loaded together or not at all), [gen] is the
    generator when its module could be loaded. *)
Definition init (docs : documents) (imported : bool)
           (gen : option (EnhancedPackageGenerator World))
  : MonitoringCoordinator :=
  {| config := load_with_defaults default_config (user_config docs);
     coordinator_state :=
       default default_state (saved_coordinator_state docs);
     coordinator_state_file := saved_coordinator_state docs;
     session_monitor :=
       if imported
       then Some (SessionMonitor.init (user_config docs)
                                      (saved_session_state docs) gen)
       else None;
     credit_monitor :=
       if imported then Some (CreditMonitor.init (user_config docs) gen)
       else None;
     context_monitor :=
       if imported
       then Some (ContextMonitor.init (user_config docs)
                                      (saved_context_state docs) gen)
       else None;
     coordination_thread := false;
     stop_coordination := false |}.

Definition with_state (s : state) (c : MonitoringCoordinator)
  : MonitoringCoordinator :=
  MkCoordinator (config c) s (coordinator_state_file c)
                (session_monitor c) (credit_monitor c) (context_monitor c)
                (coordination_thread c) (stop_coordination c).

Definition with_session_monitor
           (m : option (SessionMonitor.SessionDurationMonitor World))
           (c : MonitoringCoordinator) : MonitoringCoordinator :=
  MkCoordinator (config c) (coordinator_state c) (coordinator_state_file c)
                m (credit_monitor c) (context_monitor c)
                (coordination_thread c) (stop_coordination c).

Definition with_context_monitor
           (m : option (ContextMonitor.ContextWindowMonitor World))
           (c : MonitoringCoordinator) : MonitoringCoordinator :=
  MkCoordinator (config c) (coordinator_state c) (coordinator_state_file c)
                (session_monitor c) (credit_monitor c) m
                (coordination_thread c) (stop_coordination c).

(** [_save_coordinator_state] *)
Definition _save_coordinator_state (c : MonitoringCoordinator)
  : MonitoringCoordinator :=
  MkCoordinator (config c) (coordinator_state c)
                (Some (coordinator_state c))
                (session_monitor c) (credit_monitor c) (context_monitor c)
                (coordination_thread c) (stop_coordination c).

(** [start_coordination_thread] *)
Definition start_coordination_thread (c : MonitoringCoordinator)
  : MonitoringCoordinator :=
  if coordination_thread c then c
  else MkCoordinator (config c) (coordinator_state c)
                     (coordinator_state_file c)
                     (session_monitor c) (credit_monitor c)
                     (context_monitor c) true false.

(** [stop_coordination_thread] *)
Definition stop_coordination_thread (c : MonitoringCoordinator)
  : MonitoringCoordinator :=
  MkCoordinator (config c) (coordinator_state c) (coordinator_state_file c)
                (session_monitor c) (credit_monitor c) (context_monitor c)
                false true.

(** [_log_trigger] *)
Definition _log_trigger (now : timestamp) (trigger_type : string)
           (trigger_result : dict) (c : MonitoringCoordinator)
  : MonitoringCoordinator :=
  let trigger_event :=
    {| event_timestamp := now;
       event_type := trigger_type;
       event_result := trigger_result;
       event_success :=
         default (VBool false) (trigger_result !! "success") |} in
  let s := coordinator_state c in
  let history := (triggers_history s ++ [trigger_event])%list in
  let history :=
    if (10 <? length history)%nat then last_n 10 history else history in
  _save_coordinator_state
    (with_state
       (MkState (coordinator_started s) (session_id s)
                (total_triggers_fired s + 1)%Z history
                (last_coordination_check s)) c).

(** [start_unified_monitoring]; a missing [session_id] is replaced by
    one made of the clock reading. *)
Definition start_unified_monitoring (now : timestamp)
           (sid : option string) (c : MonitoringCoordinator)
  : dict * MonitoringCoordinator :=
  let sid :=
    match sid with
    | Some s => if String.eqb s "" then "unified-" +:+ string_of_Z now else s
    | None => "unified-" +:+ string_of_Z now
    end in
  (* 1. session duration monitoring *)
  let '(started, c) :=
    match session_monitor c with
    | Some sm =>
        if config_enabled (config c) "session_monitoring" then
          let '(_, sm) := SessionMonitor.start_session now sm (Some sid) in
          (["session_duration"], with_session_monitor (Some sm) c)
        else ([], c)
    | None => ([], c)
    end in
  (* 2. credit monitoring: passive, probed with a test message *)
  let started :=
    match credit_monitor c with
    | Some cm =>
        if config_enabled (config c) "credit_monitoring" then
          let test_result :=
            CreditMonitor.detect_credit_warning "test message" in
          (started ++ ["credit_limit"])%list
        else started
    | None => started
    end in
  (* 3. context window monitoring: passive, probed through its status *)
  let started :=
    match context_monitor c with
    | Some xm =>
        if config_enabled (config c) "context_monitoring" then
          let context_status := ContextMonitor.get_status xm in
          (started ++ ["context_window"])%list
        else started
    | None => started
    end in
  (* 4. coordination thread *)
  let '(started, c) :=
    if config_enabled (config c) "unified_monitoring"
    then ((started ++ ["coordination"])%list, start_coordination_thread c)
    else (started, c) in
  let s := coordinator_state c in
  let c := _save_coordinator_state
             (with_state
                (MkState (Some now) (Some sid) 0 []
                         (last_coordination_check s)) c) in
  ({[ "session_id" := VStr sid;
      "monitors_started" := VList (map VStr started);
      "errors" := VList [] ]}, c).

(** Step 1 of [update_activity]: the session monitor records the
    activity. *)
Definition record_session_activity (now : timestamp)
           (c : MonitoringCoordinator) : MonitoringCoordinator :=
  match session_monitor c with
  | Some sm =>
      with_session_monitor (Some (SessionMonitor.update_activity now sm)) c
  | None => c
  end.

(** Step 3 of [update_activity]: the conversation text goes through the
    context window monitor.  An exception raised under the monitor is
    caught and printed. *)
Definition check_context_window (now : timestamp)
           (conversation_text : string) (c : MonitoringCoordinator)
           (io : IO World)
  : option dict * MonitoringCoordinator * IO World :=
  match context_monitor c with
  | Some xm =>
      if negb (String.eqb conversation_text "") then
        match ContextMonitor.monitor_conversation
                now xm conversation_text io with
        | (Returned (Some context_result), xm, io) =>
            let c := with_context_monitor (Some xm) c in
            if truthy (VDict context_result) then
              (Some context_result,
               _log_trigger now "context_window" context_result c, io)
            else (None, c, io)
        | (Returned None, xm, io) =>
            (None, with_context_monitor (Some xm) c, io)
        | (Raised _, xm, io) =>
            (None, with_context_monitor (Some xm) c, io)
        end
      else (None, c, io)
  | None => (None, c, io)
  end.

(** [update_activity]: [None] when no monitor fired.  Step 2, the credit
    monitor, comes between the two steps above; an exception raised under
    it is caught and printed, and the operation carries on. *)
Definition update_activity (now : timestamp) (conversation_text : string)
           (claude_message : string) (c : MonitoringCoordinator)
           (io : IO World)
  : option dict * MonitoringCoordinator * IO World :=
  let c := record_session_activity now c in
  match credit_monitor c with
  | Some cm =>
      if negb (String.eqb claude_message "") then
        match CreditMonitor.monitor_session cm claude_message io with
        | (Returned (Some credit_result), io) =>
            if truthy (VDict credit_result) then
              (Some credit_result,
               _log_trigger now "credit_warning" credit_result c, io)
            else check_context_window now conversation_text c io
        | (Returned None, io) =>
            check_context_window now conversation_text c io
        | (Raised _, io) =>
            check_context_window now conversation_text c io
        end
      else check_context_window now conversation_text c io
  | None => check_context_window now conversation_text c io
  end.

(** One turn of [_coordination_loop], between two sleeps. *)
Definition coordination_step (now : timestamp) (c : MonitoringCoordinator)
           (io : IO World) : MonitoringCoordinator * IO World :=
  let '(c, io) :=
    match session_monitor c with
    | Some sm =>
        let '(threshold_result, sm) :=
          SessionMonitor.check_session_thresholds now sm in
        if SessionMonitor.code_yellow_crossed threshold_result then
          let '(result, sm, io) :=
            SessionMonitor.trigger_code_yellow now sm io in
          (_log_trigger now "code_yellow" result
                        (with_session_monitor (Some sm) c), io)
        else (with_session_monitor (Some sm) c, io)
    | None => (c, io)
    end in
  let s := coordinator_state c in
  (_save_coordinator_state
     (with_state
        (MkState (coordinator_started s) (session_id s)
                 (total_triggers_fired s) (triggers_history s)
                 (Some now)) c), io).

(** [stop_unified_monitoring] *)
Definition stop_unified_monitoring (c : MonitoringCoordinator)
  : MonitoringCoordinator :=
  let c := stop_coordination_thread c in
  match session_monitor c with
  | Some sm =>
      with_session_monitor
        (Some (SessionMonitor.stop_monitoring_thread sm)) c
  | None => c
  end.

(** [reset_all_monitoring] *)
Definition reset_all_monitoring (now : timestamp)
           (c : MonitoringCoordinator) : MonitoringCoordinator :=
  let c := stop_unified_monitoring c in
  let c :=
    match session_monitor c with
    | Some sm => with_session_monitor (Some (SessionMonitor.reset_session sm)) c
    | None => c
    end in
  let c :=
    match context_monitor c with
    | Some xm =>
        with_context_monitor (Some (ContextMonitor.reset_monitoring now xm)) c
    | None => c
    end in
  _save_coordinator_state (with_state default_state c).

(** [get_unified_status]: the coordinator's own part of the report; the
    operation reads the monitors and changes nothing. *)
Definition get_unified_status (c : MonitoringCoordinator) : dict :=
  let s := coordinator_state c in
  {[ "started" := match coordinator_started s with
                  | Some t => VInt t | None => VNone end;
     "session_id" := match session_id s with
                     | Some i => VStr i | None => VNone end;
     "total_triggers" := VInt (total_triggers_fired s);
     "last_check" := match last_coordination_check s with
                     | Some t => VInt t | None => VNone end ]}.
End Coordinator.
Arguments MonitoringCoordinator World : clear implicits.

End Coordinator.

(** * Runs of evaluations

    The one-shot thresholds of the two stateful monitors, seen through one
    interface: an evaluation of a threshold runs the check of the monitor
    that owns it and reads off the signal and whether the crossing was
    reported. *)

Module Thresholds.

Inductive threshold : Type :=
| ContextWarning
| ContextCritical
| DurationYellow
| DurationOrange.

Section Runs.
Context {World : Type}.

Record monitors : Type := MkMonitors {
  context : ContextMonitor.ContextWindowMonitor World;
  session : SessionMonitor.SessionDurationMonitor World
}.

(** What one evaluation is fed: the clock reading and, for the context
    monitor, the conversation text. *)
Record stimulus : Type := MkStimulus {
  at_time : timestamp;
  text : string
}.

Record observation : Type := MkObservation {
  signal : Q;
  crossed : bool
}.

(** The value of a threshold. *)
Definition value (th : threshold) (ms : monitors) : Q :=
  match th with
  | ContextWarning => ContextMonitor.warning_threshold (context ms)
  | ContextCritical => ContextMonitor.critical_threshold (context ms)
  | DurationYellow => SessionMonitor.code_yellow_threshold (session ms)
  | DurationOrange => SessionMonitor.code_orange_threshold (session ms)
  end.

(** The thresholds that are checked before [th] in the same monitor. *)
Definition checked_before (th : threshold) (ms : monitors) : list Q :=
  match th with
  | ContextWarning => [ContextMonitor.critical_threshold (context ms)]
  | ContextCritical => []
  | DurationYellow => [SessionMonitor.session_limit (session ms);
                       SessionMonitor.code_orange_threshold (session ms)]
  | DurationOrange => [SessionMonitor.session_limit (session ms)]
  end.

(** The one-shot flag of a threshold, in memory and in the saved
    document. *)
Definition flag (th : threshold) (ms : monitors) : bool :=
  match th with
  | ContextWarning =>
      ContextMonitor.warning_triggered
        (ContextMonitor.monitor_state (context ms))
  | ContextCritical =>
      ContextMonitor.critical_triggered
        (ContextMonitor.monitor_state (context ms))
  | DurationYellow =>
      SessionMonitor.code_yellow_triggered
        (SessionMonitor.session_state (session ms))
  | DurationOrange =>
      SessionMonitor.code_orange_triggered
        (SessionMonitor.session_state (session ms))
  end.

Definition saved_flag (th : threshold) (ms : monitors) : option bool :=
  match th with
  | ContextWarning =>
      ContextMonitor.warning_triggered
        <$> ContextMonitor.state_file (context ms)
  | ContextCritical =>
      ContextMonitor.critical_triggered
        <$> ContextMonitor.state_file (context ms)
  | DurationYellow =>
      SessionMonitor.code_yellow_triggered
        <$> SessionMonitor.session_file (session ms)
  | DurationOrange =>
      SessionMonitor.code_orange_triggered
        <$> SessionMonitor.session_file (session ms)
  end.

(** One evaluation of the monitor that owns [th]. *)
Definition evaluate (th : threshold) (x : stimulus) (ms : monitors)
  : observation * monitors :=
  match th with
  | ContextWarning =>
      let '(r, m) := ContextMonitor.check_context_thresholds
                       (at_time x) (context ms) (text x) in
      (MkObservation (ContextMonitor.current_usage r)
                     (ContextMonitor.warning_threshold_crossed r),
       MkMonitors m (session ms))
  | ContextCritical =>
      let '(r, m) := ContextMonitor.check_context_thresholds
                       (at_time x) (context ms) (text x) in
      (MkObservation (ContextMonitor.current_usage r)
                     (ContextMonitor.critical_threshold_crossed r),
       MkMonitors m (session ms))
  | DurationYellow =>
      let '(r, m) := SessionMonitor.check_session_thresholds
                       (at_time x) (session ms) in
      (MkObservation (SessionMonitor.session_duration_hours r)
                     (SessionMonitor.code_yellow_crossed r),
       MkMonitors (context ms) m)
  | DurationOrange =>
      let '(r, m) := SessionMonitor.check_session_thresholds
                       (at_time x) (session ms) in
      (MkObservation (SessionMonitor.session_duration_hours r)
                     (SessionMonitor.code_orange_crossed r),
       MkMonitors (context ms) m)
  end.

(** Repeated evaluations, each on the state the previous one left. *)
Fixpoint evaluations (th : threshold) (xs : list stimulus) (ms : monitors)
  : list observation * monitors :=
  match xs with
  | [] => ([], ms)
  | x :: xs' =>
      let '(o, ms1) := evaluate th x ms in
      let '(os, ms2) := evaluations th xs' ms1 in
      (o :: os, ms2)
  end.

(** The signal is at or above the threshold and below those checked
    before it. *)
Definition in_band (th : threshold) (ms : monitors) (o : observation)
  : Prop :=
  (value th ms <= signal o)%Q /\
  Forall (fun up => (signal o < up)%Q) (checked_before th ms).

(** Repeated duration checks. *)
Fixpoint session_checks (nows : list timestamp)
         (m : SessionMonitor.SessionDurationMonitor World)
  : list SessionMonitor.check_result
    * SessionMonitor.SessionDurationMonitor World :=
  match nows with
  | [] => ([], m)
  | now :: nows' =>
      let '(r, m1) := SessionMonitor.check_session_thresholds now m in
      let '(rs, m2) := session_checks nows' m1 in
      (r :: rs, m2)
  end.
End Runs.
Arguments monitors World : clear implicits.

End Thresholds.

(** * The coordinator's operations, as one type *)

Module Operations.

Inductive operation : Type :=
| StartUnifiedMonitoring (session_id : option string)
| UpdateActivity (conversation_text claude_message : string)
| LogTrigger (trigger_type : string) (trigger_result : dict)
| CoordinationStep
| StartCoordinationThread
| StopCoordinationThread
| GetUnifiedStatus
| StopUnifiedMonitoring
| ResetAllMonitoring.

(** The operations that start a run afresh or clear it. *)
Definition restarts (op : operation) : bool :=
  match op with
  | StartUnifiedMonitoring _ | ResetAllMonitoring => true
  | _ => false
  end.

Section Run.
Context {World : Type}.

Definition run (now : timestamp) (op : operation)
           (c : Coordinator.MonitoringCoordinator World) (io : IO World)
  : Coordinator.MonitoringCoordinator World * IO World :=
  match op with
  | StartUnifiedMonitoring sid =>
      (snd (Coordinator.start_unified_monitoring now sid c), io)
  | UpdateActivity conversation_text claude_message =>
      let '(_, c, io) :=
        Coordinator.update_activity now conversation_text claude_message c io in
      (c, io)
  | LogTrigger trigger_type trigger_result =>
      (Coordinator._log_trigger now trigger_type trigger_result c, io)
  | CoordinationStep => Coordinator.coordination_step now c io
  | StartCoordinationThread => (Coordinator.start_coordination_thread c, io)
  | StopCoordinationThread => (Coordinator.stop_coordination_thread c, io)
  | GetUnifiedStatus => (c, io)
  | StopUnifiedMonitoring => (Coordinator.stop_unified_monitoring c, io)
  | ResetAllMonitoring => (Coordinator.reset_all_monitoring now c, io)
  end.

Definition fired (c : Coordinator.MonitoringCoordinator World) : Z :=
  Coordinator.total_triggers_fired (Coordinator.coordinator_state c).

(** The saved document does not run ahead of the one in memory. *)
Definition saved_not_ahead (c : Coordinator.MonitoringCoordinator World)
  : Prop :=
  match Coordinator.coordinator_state_file c with
  | Some f => (Coordinator.total_triggers_fired f <= fired c)%Z
  | None => True
  end.

(** The saved counter did not go down from [c] to [c']. *)
Definition saved_not_lowered (c c' : Coordinator.MonitoringCoordinator World)
  : Prop :=
  match Coordinator.coordinator_state_file c,
        Coordinator.coordinator_state_file c' with
  | Some f, Some f' =>
      (Coordinator.total_triggers_fired f
       <= Coordinator.total_triggers_fired f')%Z
  | Some _, None => False
  | None, _ => True
  end.

(** Logging a list of triggers, oldest first. *)
Definition log_all (events : list (timestamp * string * dict))
           (c : Coordinator.MonitoringCoordinator World)
  : Coordinator.MonitoringCoordinator World :=
  fold_left
    (fun c '(now, trigger_type, trigger_result) =>
       Coordinator._log_trigger now trigger_type trigger_result c)
    events c.

(** The history entry [_log_trigger] makes of a trigger. *)
Definition event_of (e : timestamp * string * dict)
  : Coordinator.trigger_event :=
  let '(now, trigger_type, trigger_result) := e in
  Coordinator.MkEvent now trigger_type trigger_result
    (default (VBool false) (trigger_result !! "success")).
End Run.

End Operations.

(** * A generator to run the monitors against

    An in-memory generator: its store is the number of snapshots written
    so far, it takes no title from the input and always succeeds. *)

Module Sample.

Local Open Scope Z_scope.

Definition snapshot_name (n : Z) : string := "snapshot-" +:+ string_of_Z n.

Definition generator : EnhancedPackageGenerator Z :=
  {| create_enhanced_package :=
       fun t trigger_reason auto_created conversation_exchanges io =>
         let n := (world io + 1)%Z in
         (PackageCreated (snapshot_name n) n trigger_reason
                         ["HANDOFF-INSTRUCTIONS.md"; "session-summary.md";
                          "metadata.json"]
                         1024 ("snapshots/" +:+ snapshot_name n),
          MkIO (stdin io) n);
     update_metadata := fun _ _ w => w;
     write_emergency_file := fun _ w => w |}.

Definition no_documents : Coordinator.documents :=
  Coordinator.MkDocuments None None None None.

(** A coordinator built on a fresh installation. *)
Definition coordinator : Coordinator.MonitoringCoordinator Z :=
  Coordinator.init no_documents true (Some generator).

Definition hour : Z := 3600000000.
Definition minute : Z := 60000000.

(** A context monitor on a fresh installation. *)
Definition context_monitor : ContextMonitor.ContextWindowMonitor Z :=
  ContextMonitor.init None None (Some generator).

(** A session monitor whose session was started at time 0. *)
Definition started_session : SessionMonitor.SessionDurationMonitor Z :=
  (SessionMonitor.start_session
     0 (SessionMonitor.init None None (Some generator)) (Some "work")).2.

Definition both : Thresholds.monitors Z :=
  Thresholds.MkMonitors context_monitor started_session.

(** Clock readings 4h40m, 4h41m and 4h42m after the start. *)
Definition late_checks : list Thresholds.stimulus :=
  [ Thresholds.MkStimulus (4 * hour + 40 * minute) "";
    Thresholds.MkStimulus (4 * hour + 41 * minute) "";
    Thresholds.MkStimulus (4 * hour + 42 * minute) "" ].

(** The second test message of the credit monitor's command line. *)
Definition daily_usage_message : string :=
  "Daily usage limit reached. Consider upgrading for more credits.".


Definition some_warning : CreditMonitor.warning_info :=
  match CreditMonitor.detect_credit_warning daily_usage_message with
  | CreditMonitor.Detected w => w
  | CreditMonitor.NotDetected =>
      CreditMonitor.MkWarning [] None "general_limit" "" 0
  end.

(** The coordinator after one activity update whose conversation text
    reports 96% of the context used: the critical trigger fires and is
    logged. *)
Definition coordinator_after_trigger : Coordinator.MonitoringCoordinator Z :=
  (Operations.run 3 (Operations.UpdateActivity "96% context" "")
                  coordinator (MkIO [] 0)).1.

(** A context monitor whose critical trigger has fired. *)
Definition fired_context_monitor : ContextMonitor.ContextWindowMonitor Z :=
  (ContextMonitor.check_context_thresholds 3 context_monitor "96% context").2.


(** Yes to the backup, then the full package. *)
Definition answers : IO Z := MkIO ["y"; "2"] 0.


(** Fifteen triggers, logged at times 1 to 15. *)
Definition fifteen_triggers : list (timestamp * string * dict) :=
  map (fun n => (Z.of_nat n, "code_yellow",
                 ({[ "success" := VBool true;
                     "snapshot_number" := VInt (Z.of_nat n) ]} : dict)))
      (seq 1 15).

End Sample.

(** * The package generator (scripts/enhanced-package-generator.py)

    The generator's naming and numbering of snapshots and the list of
    files it writes.  The site it works on is the listing of
    [snapshots_dir]; reading the listing and writing the files succeed, so
    the handler that turns an exception into
    [{"success": False, "error": ...}] is not entered.  What the rendered
    files weigh is left to the site. *)

Module PackageGenerator.

Record site : Type := MkSite {
  (** the names of the subdirectories of [snapshots_dir] *)
  snapshot_dirs : list string;
  (** [str(snapshots_dir)] *)
  snapshots_path : string;
  (** [datetime.now().strftime("%H:%M")] *)
  time_of_day : string;
  (** the total size of the files of one package *)
  package_bytes : PackageType -> Z
}.

(** The longest run of digits at the head. *)
Fixpoint leading_digits (l : list ascii) : list ascii :=
  match l with
  | c :: l' => if is_digit c then c :: leading_digits l' else []
  | [] => []
  end.

(** [name.startswith("snapshot-")] *)
Definition is_snapshot_name (name : string) : bool :=
  is_prefix_chars (chars "snapshot-") (chars name).

(** [re.match(r"snapshot-(\d+)", name)] followed by [int(match.group(1))],
    for a name that starts with "snapshot-". *)
Definition snapshot_number_of (name : string) : option Z :=
  if is_snapshot_name name then
    match leading_digits (drop 9 (chars name)) with
    | [] => None
    | ds => Some (int_of_digits (string_of_list_ascii ds))
    end
  else None.

(** [max(numbers)] for a non-empty list *)
Definition maximum (n : Z) (numbers : list Z) : Z := fold_left Z.max numbers n.

(** [_get_next_snapshot_number] *)
Definition _get_next_snapshot_number (dirs : list string) : Z :=
  let existing_snapshots := List.filter is_snapshot_name dirs in
  match existing_snapshots with
  | [] => 1
  | _ =>
      match omap snapshot_number_of existing_snapshots with
      | [] => 1
      | n :: numbers => maximum n numbers + 1
      end
  end%Z.

(** [_prompt_user_title] *)
Definition _prompt_user_title (config : dict) (lines : list string)
  : option string * list string :=
  if negb (config_enabled config "user_title_prompting") then (None, lines)
  else
    match input lines with
    | (Returned line, rest) =>
        let title := strip line in
        (if String.eqb title "" then None else Some title, rest)
    | (Raised _, rest) => (None, rest)
    end.

(** [package_type.value.title()] *)
Definition PackageType_title (t : PackageType) : string :=
  match t with LIGHT => "Light" | FULL => "Full" | COMPLEX => "Complex" end.

(** [s.startswith(p)] *)
Definition startswith (p s : string) : bool :=
  is_prefix_chars (chars p) (chars s).

(** [_generate_auto_title] *)
Definition _generate_auto_title (t : PackageType) (trigger_reason : string)
           (timestamp : string) : string :=
  if negb (String.eqb trigger_reason "") && startswith "threshold" trigger_reason
  then "Threshold backup (" +:+ timestamp +:+ ")"
  else if negb (String.eqb trigger_reason "")
          && String.eqb trigger_reason "manual"
  then "Manual " +:+ PackageType_value t +:+ " backup (" +:+ timestamp +:+ ")"
  else PackageType_title t +:+ " backup (" +:+ timestamp +:+ ")".

(** [.lower().replace(' ', '-').replace('(', '').replace(')', '')] *)
Definition slug_char (c : ascii) : list ascii :=
  if Ascii.eqb c " " then ["-"%char]
  else if Ascii.eqb c "(" then []
  else if Ascii.eqb c ")" then []
  else [c].

Definition slug (title : string) : string :=
  string_of_list_ascii (flat_map slug_char (chars (lower title))).

(** The name of the snapshot directory. *)
Definition snapshot_id_of (snapshot_num : Z) (final_title : string) : string :=
  "snapshot-" +:+ string_of_Z snapshot_num +:+ "-" +:+ slug final_title.

(** [files_created], in the order the files are written. *)
Definition files_created_for (config : dict) (t : PackageType) : list string :=
  (["HANDOFF-INSTRUCTIONS.md"; "session-summary.md"]
   ++ match t with
      | LIGHT => []
      | FULL | COMPLEX =>
          ["technical-findings.md"; "project-state.md"]
          ++ (if config_enabled config "conversation_export"
              then ["conversation-context.md"] else [])
      end
   ++ match t with
      | COMPLEX => ["package-metadata-v2.7.json"]
      | _ => []
      end
   ++ ["metadata.json"])%list.

(** [snapshot_dir.mkdir(exist_ok=True)] *)
Definition mkdir (name : string) (dirs : list string) : list string :=
  if str_in name dirs then dirs else (dirs ++ [name])%list.

(** [create_enhanced_package] *)
Definition create_enhanced_package (config : dict) (t : PackageType)
           (trigger_reason : string) (auto_created : bool)
           (conversation_exchanges : option Z) (io : IO site)
  : package_result * IO site :=
  let st := world io in
  let snapshot_num := _get_next_snapshot_number (snapshot_dirs st) in
  let '(user_title, lines) :=
    if negb auto_created then _prompt_user_title config (stdin io)
    else (None, stdin io) in
  let auto_title := _generate_auto_title t trigger_reason (time_of_day st) in
  let final_title := default auto_title user_title in
  let snapshot_id := snapshot_id_of snapshot_num final_title in
  let st' := MkSite (mkdir snapshot_id (snapshot_dirs st)) (snapshots_path st)
                    (time_of_day st) (package_bytes st) in
  (PackageCreated snapshot_id snapshot_num final_title
                  (files_created_for config t) (package_bytes st t)
                  (snapshots_path st +:+ "/" +:+ snapshot_id),
   MkIO lines st').

Definition default_config : dict :=
  {[ "version" := VStr "2.7.0";
     "user_title_prompting" := VBool true;
     "snapshot_versioning" := VBool true;
     "enhanced_metadata" := VBool true;
     "interactive_workflows" := VBool true;
     "credit_monitoring" := VBool true;
     "conversation_export" := VBool true;
     "conversation_exchanges" := VInt 5 ]}.

(** The generator the monitors hold.  The extra fields the monitors write
    into a snapshot's metadata and the emergency file change no
    directory name. *)
Definition generator (user_config : option dict)
  : EnhancedPackageGenerator site :=
  Build_EnhancedPackageGenerator site
    (create_enhanced_package (load_with_defaults default_config user_config))
    (fun _ _ st => st)
    (fun _ st => st).

(** A run of package requests, each on the site the previous one left. *)
Record request : Type := MkRequest {
  package_type : PackageType;
  trigger_reason : string;
  auto_created : bool;
  conversation_exchanges : option Z
}.

Fixpoint create_all (config : dict) (requests : list request) (io : IO site)
  : list package_result * IO site :=
  match requests with
  | [] => ([], io)
  | r :: requests' =>
      let '(result, io1) :=
        create_enhanced_package config (package_type r) (trigger_reason r)
                                (auto_created r) (conversation_exchanges r)
                                io in
      let '(results, io2) := create_all config requests' io1 in
      (result :: results, io2)
  end.

Definition snapshot_number (r : package_result) : option Z :=
  match r with
  | PackageCreated _ n _ _ _ _ => Some n
  | PackageFailed _ => None
  end.

Definition snapshot_id (r : package_result) : option string :=
  match r with
  | PackageCreated sid _ _ _ _ _ => Some sid
  | PackageFailed _ => None
  end.

End PackageGenerator.

(** * Runs of monitor operations *)

Module Runs.

(** The operations of the session monitor that a running session sees. *)
Inductive session_operation : Type :=
| Check            (* check_session_thresholds *)
| Poll             (* one turn of _monitoring_loop *)
| Activity         (* update_activity *)
| CodeYellow       (* trigger_code_yellow *).

Section Runs.
Context {World : Type}.

Definition session_step (now : timestamp) (op : session_operation)
           (m : SessionMonitor.SessionDurationMonitor World) (io : IO World)
  : SessionMonitor.SessionDurationMonitor World * IO World :=
  match op with
  | Check => ((SessionMonitor.check_session_thresholds now m).2, io)
  | Poll => SessionMonitor.monitoring_step now m io
  | Activity => (SessionMonitor.update_activity now m, io)
  | CodeYellow =>
      let '(_, m, io) := SessionMonitor.trigger_code_yellow now m io in (m, io)
  end.

Fixpoint session_run (ops : list (timestamp * session_operation))
         (m : SessionMonitor.SessionDurationMonitor World) (io : IO World)
  : SessionMonitor.SessionDurationMonitor World * IO World :=
  match ops with
  | [] => (m, io)
  | (now, op) :: ops' =>
      let '(m1, io1) := session_step now op m io in
      session_run ops' m1 io1
  end.

(** Successive calls of [monitor_conversation], whatever each returns or
    raises. *)
Fixpoint conversation_run (texts : list (timestamp * string))
         (m : ContextMonitor.ContextWindowMonitor World) (io : IO World)
  : ContextMonitor.ContextWindowMonitor World * IO World :=
  match texts with
  | [] => (m, io)
  | (now, conversation_text) :: texts' =>
      let '(_, m1, io1) :=
        ContextMonitor.monitor_conversation now m conversation_text io in
      conversation_run texts' m1 io1
  end.

(** Successive coordinator operations. *)
Fixpoint coordinator_run (ops : list (timestamp * Operations.operation))
         (c : Coordinator.MonitoringCoordinator World) (io : IO World)
  : Coordinator.MonitoringCoordinator World * IO World :=
  match ops with
  | [] => (c, io)
  | (now, op) :: ops' =>
      let '(c1, io1) := Operations.run now op c io in
      coordinator_run ops' c1 io1
  end.
End Runs.

End Runs.

(** * Properties *)

Local Open Scope Z_scope.

(** Comparisons between closed numbers. *)
Ltac decide_numbers :=
  vm_compute; first [reflexivity | discriminate | intro; discriminate].

(** ** Context thresholds: one crossing per evaluation *)

Section ContextThresholds.
Context {World : Type}.
Implicit Types (m : ContextMonitor.ContextWindowMonitor World).

Import ContextMonitor.

(** The three ways an evaluation can go. *)
Inductive check_case now m text : Prop :=
| CaseCritical
    (Hu : (critical_threshold m <= estimate_context_usage m text)%Q)
    (Hflag : critical_triggered (monitor_state m) = false)
    (Hc : critical_threshold_crossed (check_context_thresholds now m text).1 = true)
    (Hw : warning_threshold_crossed (check_context_thresholds now m text).1 = false)
    (Hs : monitor_state (check_context_thresholds now m text).2
          = set_last_check (Some now)
              (set_critical_triggered true
                 (set_estimated_context_usage
                    (estimate_context_usage m text) (monitor_state m))))
| CaseWarning
    (Hnc : ~ (critical_threshold m <= estimate_context_usage m text)%Q
           \/ critical_triggered (monitor_state m) = true)
    (Hu : (warning_threshold m <= estimate_context_usage m text)%Q)
    (Hflag : warning_triggered (monitor_state m) = false)
    (Hc : critical_threshold_crossed (check_context_thresholds now m text).1 = false)
    (Hw : warning_threshold_crossed (check_context_thresholds now m text).1 = true)
    (Hs : monitor_state (check_context_thresholds now m text).2
          = set_last_check (Some now)
              (set_warning_triggered true
                 (set_estimated_context_usage
                    (estimate_context_usage m text) (monitor_state m))))
| CaseNone
    (Hnc : ~ (critical_threshold m <= estimate_context_usage m text)%Q
           \/ critical_triggered (monitor_state m) = true)
    (Hnw : ~ (warning_threshold m <= estimate_context_usage m text)%Q
           \/ warning_triggered (monitor_state m) = true)
    (Hc : critical_threshold_crossed (check_context_thresholds now m text).1 = false)
    (Hw : warning_threshold_crossed (check_context_thresholds now m text).1 = false)
    (Hs : monitor_state (check_context_thresholds now m text).2
          = set_last_check (Some now)
              (set_estimated_context_usage
                 (estimate_context_usage m text) (monitor_state m))).

Lemma Qle_bool_false (x y : Q) : Qle_bool x y = false -> ~ (x <= y)%Q.
Proof. intros H Hle. apply Qle_bool_iff in Hle. congruence. Qed.

Lemma check_context_cases now m text : check_case now m text.
Proof.
  unfold check_context_thresholds.
  destruct (Qle_bool (critical_threshold m) (estimate_context_usage m text))
    eqn:Hcrit; cbn [andb].
  - destruct (critical_triggered (monitor_state m)) eqn:Hcf; cbn [negb].
    + destruct (Qle_bool (warning_threshold m) (estimate_context_usage m text))
        eqn:Hwarn; cbn [andb].
      * destruct (warning_triggered (monitor_state m)) eqn:Hwf; cbn [negb].
        -- apply CaseNone; unfold check_context_thresholds;
             rewrite ?Hcrit, ?Hwarn; cbn; rewrite ?Hcf, ?Hwf; cbn; auto.
        -- apply CaseWarning; unfold check_context_thresholds;
             rewrite ?Hcrit, ?Hwarn; cbn; rewrite ?Hcf, ?Hwf; cbn; auto.
           now apply Qle_bool_iff.
      * apply CaseNone; unfold check_context_thresholds;
          rewrite ?Hcrit, ?Hwarn; cbn; rewrite ?Hcf; cbn; auto.
        left. now apply Qle_bool_false.
    + apply CaseCritical; unfold check_context_thresholds;
        rewrite ?Hcrit; cbn; rewrite ?Hcf; cbn; auto.
      * now apply Qle_bool_iff.
      * now destruct (base_context_created _).
      * now destruct (base_context_created _).
  - apply Qle_bool_false in Hcrit as Hcrit'.
    destruct (Qle_bool (warning_threshold m) (estimate_context_usage m text))
      eqn:Hwarn; cbn [andb].
    + destruct (warning_triggered (monitor_state m)) eqn:Hwf; cbn [negb].
      * apply CaseNone; unfold check_context_thresholds;
          rewrite ?Hcrit, ?Hwarn; cbn; rewrite ?Hwf; cbn; auto.
      * apply CaseWarning; unfold check_context_thresholds;
          rewrite ?Hcrit, ?Hwarn; cbn; rewrite ?Hwf; cbn; auto.
        now apply Qle_bool_iff.
    + apply CaseNone; unfold check_context_thresholds;
        rewrite ?Hcrit, ?Hwarn; cbn; auto.
      left. now apply Qle_bool_false.
Qed.

Lemma check_context_usage now m text :
  current_usage (check_context_thresholds now m text).1
  = estimate_context_usage m text.
Proof.
  unfold check_context_thresholds.
  repeat match goal with
         | |- context [if ?b then _ else _] => destruct b
         end; reflexivity.
Qed.

Lemma check_context_saves now m text :
  state_file (check_context_thresholds now m text).2
  = Some (monitor_state (check_context_thresholds now m text).2).
Proof.
  unfold check_context_thresholds.
  repeat match goal with
         | |- context [if ?b then _ else _] => destruct b
         end; reflexivity.
Qed.

Lemma check_context_thresholds_kept now m text :
  warning_threshold (check_context_thresholds now m text).2 = warning_threshold m
  /\ critical_threshold (check_context_thresholds now m text).2
     = critical_threshold m.
Proof.
  unfold check_context_thresholds.
  repeat match goal with
         | |- context [if ?b then _ else _] => destruct b
         end; split; reflexivity.
Qed.

(** C9. One evaluation of the context thresholds never reports both
    crossings; when the usage is at or above the critical threshold and
    neither flag is set, it reports the critical crossing only and leaves
    the warning flag unset. *)
Theorem context_crossings_exclusive now m text :
  let r := (check_context_thresholds now m text).1 in
  let m' := (check_context_thresholds now m text).2 in
  warning_threshold_crossed r && critical_threshold_crossed r = false
  /\ ((critical_threshold m <= estimate_context_usage m text)%Q ->
      critical_triggered (monitor_state m) = false ->
      warning_triggered (monitor_state m) = false ->
      critical_threshold_crossed r = true
      /\ warning_threshold_crossed r = false
      /\ warning_triggered (monitor_state m') = false
      /\ critical_triggered (monitor_state m') = true).
Proof.
  cbn zeta. split.
  - destruct (check_context_cases now m text); rewrite Hc, Hw; reflexivity.
  - intros Hu Hcf Hwf.
    destruct (check_context_cases now m text) as [ | [Hn | Hn] | [Hn | Hn] ];
      try contradiction; try congruence.
    rewrite Hc, Hw, Hs. cbn. auto.
Qed.
End ContextThresholds.

(** C9 at work: a fresh monitor reads a text that reports 96% of the
    context used. *)
Lemma context_crossings_exclusive_witness :
  let r := (ContextMonitor.check_context_thresholds
              3 Sample.context_monitor "96% context").1 in
  let m' := (ContextMonitor.check_context_thresholds
               3 Sample.context_monitor "96% context").2 in
  ContextMonitor.critical_threshold_crossed r = true
  /\ ContextMonitor.warning_threshold_crossed r = false
  /\ ContextMonitor.warning_triggered (ContextMonitor.monitor_state m') = false
  /\ ContextMonitor.critical_triggered (ContextMonitor.monitor_state m') = true.
Proof.
  cbv zeta.
  destruct (context_crossings_exclusive 3 Sample.context_monitor "96% context")
    as [_ Hcritical].
  apply Hcritical; [decide_numbers | reflexivity | reflexivity].
Defined.

(** ** Duration thresholds *)

Section SessionThresholds.
Context {World : Type}.
Implicit Types (m : SessionMonitor.SessionDurationMonitor World).

Import SessionMonitor.

(** The four ways a duration check can go. *)
Inductive session_case now m : Prop :=
| CaseLimit
    (Hu : (session_limit m <= get_session_duration now m)%Q)
    (Hl : session_limit_exceeded (check_session_thresholds now m).1 = true)
    (Ho : code_orange_crossed (check_session_thresholds now m).1 = false)
    (Hy : code_yellow_crossed (check_session_thresholds now m).1 = false)
    (Hs : (check_session_thresholds now m).2 = m)
| CaseOrange
    (Hnl : ~ (session_limit m <= get_session_duration now m)%Q)
    (Hu : (code_orange_threshold m <= get_session_duration now m)%Q)
    (Hflag : code_orange_triggered (session_state m) = false)
    (Hl : session_limit_exceeded (check_session_thresholds now m).1 = false)
    (Ho : code_orange_crossed (check_session_thresholds now m).1 = true)
    (Hy : code_yellow_crossed (check_session_thresholds now m).1 = false)
    (Hs : (check_session_thresholds now m).2
          = _save_session_state
              (with_state (set_code_orange_triggered true (session_state m)) m))
| CaseYellow
    (Hnl : ~ (session_limit m <= get_session_duration now m)%Q)
    (Hno : ~ (code_orange_threshold m <= get_session_duration now m)%Q
           \/ code_orange_triggered (session_state m) = true)
    (Hu : (code_yellow_threshold m <= get_session_duration now m)%Q)
    (Hflag : code_yellow_triggered (session_state m) = false)
    (Hl : session_limit_exceeded (check_session_thresholds now m).1 = false)
    (Ho : code_orange_crossed (check_session_thresholds now m).1 = false)
    (Hy : code_yellow_crossed (check_session_thresholds now m).1 = true)
    (Hs : (check_session_thresholds now m).2
          = _save_session_state
              (with_state (set_code_yellow_triggered true (session_state m)) m))
| CaseQuiet
    (Hnl : ~ (session_limit m <= get_session_duration now m)%Q)
    (Hno : ~ (code_orange_threshold m <= get_session_duration now m)%Q
           \/ code_orange_triggered (session_state m) = true)
    (Hny : ~ (code_yellow_threshold m <= get_session_duration now m)%Q
           \/ code_yellow_triggered (session_state m) = true)
    (Hl : session_limit_exceeded (check_session_thresholds now m).1 = false)
    (Ho : code_orange_crossed (check_session_thresholds now m).1 = false)
    (Hy : code_yellow_crossed (check_session_thresholds now m).1 = false)
    (Hs : (check_session_thresholds now m).2 = m).

Lemma check_session_cases now m : session_case now m.
Proof.
  destruct (Qle_bool (session_limit m) (get_session_duration now m)) eqn:Hl.
  { apply CaseLimit; unfold check_session_thresholds; rewrite ?Hl; cbn; auto.
    now apply Qle_bool_iff. }
  apply Qle_bool_false in Hl as Hl'.
  destruct (Qle_bool (code_orange_threshold m) (get_session_duration now m))
    eqn:Ho;
    destruct (code_orange_triggered (session_state m)) eqn:Hof;
    destruct (Qle_bool (code_yellow_threshold m) (get_session_duration now m))
      eqn:Hy;
    destruct (code_yellow_triggered (session_state m)) eqn:Hyf;
    try apply Qle_bool_false in Ho as Ho';
    try apply Qle_bool_false in Hy as Hy';
    try apply Qle_bool_iff in Ho as Ho';
    try apply Qle_bool_iff in Hy as Hy';
    first
      [ apply CaseOrange; unfold check_session_thresholds;
        rewrite ?Hl, ?Ho, ?Hy; cbn; rewrite ?Hof, ?Hyf; cbn; now auto
      | apply CaseYellow; unfold check_session_thresholds;
        rewrite ?Hl, ?Ho, ?Hy; cbn; rewrite ?Hof, ?Hyf; cbn; now auto
      | apply CaseQuiet; unfold check_session_thresholds;
        rewrite ?Hl, ?Ho, ?Hy; cbn; rewrite ?Hof, ?Hyf; cbn; now auto ].
Qed.

Lemma check_session_duration now m :
  session_duration_hours (check_session_thresholds now m).1
  = get_session_duration now m.
Proof.
  unfold check_session_thresholds.
  repeat match goal with
         | |- context [if ?b then _ else _] => destruct b
         end; reflexivity.
Qed.

Lemma check_session_thresholds_kept now m :
  session_limit (check_session_thresholds now m).2 = session_limit m
  /\ code_orange_threshold (check_session_thresholds now m).2
     = code_orange_threshold m
  /\ code_yellow_threshold (check_session_thresholds now m).2
     = code_yellow_threshold m.
Proof.
  destruct (check_session_cases now m); rewrite Hs; auto.
Qed.

(** C10. Without a started session the duration reads exactly 0.0 and,
    whatever positive thresholds are configured, a duration check reports
    no crossing at all. *)
Theorem no_session_no_crossing now m
        (Hstart : session_start (session_state m) = None)
        (Hyellow : (0 < code_yellow_threshold m)%Q)
        (Horange : (0 < code_orange_threshold m)%Q)
        (Hlimit : (0 < session_limit m)%Q) :
  get_session_duration now m = 0%Q
  /\ code_yellow_crossed (check_session_thresholds now m).1 = false
  /\ code_orange_crossed (check_session_thresholds now m).1 = false
  /\ session_limit_exceeded (check_session_thresholds now m).1 = false.
Proof.
  assert (Hd : get_session_duration now m = 0%Q).
  { unfold get_session_duration. now rewrite Hstart. }
  split; [exact Hd|].
  destruct (check_session_cases now m) as [Hu| ? Hu | ? ? Hu | ];
    try rewrite Hd in Hu.
  - exfalso. exact (Qlt_not_le _ _ Hlimit Hu).
  - exfalso. exact (Qlt_not_le _ _ Horange Hu).
  - exfalso. exact (Qlt_not_le _ _ Hyellow Hu).
  - now rewrite Hl, Ho, Hy.
Qed.
End SessionThresholds.

(** C10 at work: a monitor built on a fresh installation, asked before any
    session was started. *)
Lemma no_session_no_crossing_witness :
  let m := SessionMonitor.init (World := Z) None None None in
  SessionMonitor.get_session_duration (5 * Sample.hour) m = 0%Q
  /\ SessionMonitor.code_yellow_crossed
       (SessionMonitor.check_session_thresholds (5 * Sample.hour) m).1 = false
  /\ SessionMonitor.code_orange_crossed
       (SessionMonitor.check_session_thresholds (5 * Sample.hour) m).1 = false
  /\ SessionMonitor.session_limit_exceeded
       (SessionMonitor.check_session_thresholds (5 * Sample.hour) m).1 = false.
Proof.
  apply (no_session_no_crossing (5 * Sample.hour)
           (SessionMonitor.init (World := Z) None None None));
    reflexivity.
Defined.

(** ** One-shot thresholds over repeated evaluations *)

Section OneShot.
Context {World : Type}.
Implicit Types (ms : Thresholds.monitors World) (th : Thresholds.threshold).

Import Thresholds.

Lemma evaluate_keeps_thresholds th x ms :
  value th (evaluate th x ms).2 = value th ms
  /\ checked_before th (evaluate th x ms).2 = checked_before th ms.
Proof.
  destruct th; cbn.
  1,2: destruct (check_context_thresholds_kept (at_time x) (context ms) (text x))
         as [Hw Hc];
       destruct (ContextMonitor.check_context_thresholds _ _ _); cbn in *;
       rewrite ?Hw, ?Hc; auto.
  all: destruct (check_session_thresholds_kept (at_time x) (session ms))
         as (Hl & Ho & Hy);
       destruct (SessionMonitor.check_session_thresholds _ _); cbn in *;
       rewrite ?Hl, ?Ho, ?Hy; auto.
Qed.
Lemma evaluate_context_warning x ms :
  evaluate ContextWarning x ms
  = let c := ContextMonitor.check_context_thresholds
               (at_time x) (context ms) (text x) in
    (MkObservation (ContextMonitor.current_usage c.1)
                   (ContextMonitor.warning_threshold_crossed c.1),
     MkMonitors c.2 (session ms)).
Proof. cbn. now destruct (ContextMonitor.check_context_thresholds _ _ _). Qed.

Lemma evaluate_context_critical x ms :
  evaluate ContextCritical x ms
  = let c := ContextMonitor.check_context_thresholds
               (at_time x) (context ms) (text x) in
    (MkObservation (ContextMonitor.current_usage c.1)
                   (ContextMonitor.critical_threshold_crossed c.1),
     MkMonitors c.2 (session ms)).
Proof. cbn. now destruct (ContextMonitor.check_context_thresholds _ _ _). Qed.

Lemma evaluate_duration_yellow x ms :
  evaluate DurationYellow x ms
  = let c := SessionMonitor.check_session_thresholds
               (at_time x) (session ms) in
    (MkObservation (SessionMonitor.session_duration_hours c.1)
                   (SessionMonitor.code_yellow_crossed c.1),
     MkMonitors (context ms) c.2).
Proof. cbn. now destruct (SessionMonitor.check_session_thresholds _ _). Qed.

Lemma evaluate_duration_orange x ms :
  evaluate DurationOrange x ms
  = let c := SessionMonitor.check_session_thresholds
               (at_time x) (session ms) in
    (MkObservation (SessionMonitor.session_duration_hours c.1)
                   (SessionMonitor.code_orange_crossed c.1),
     MkMonitors (context ms) c.2).
Proof. cbn. now destruct (SessionMonitor.check_session_thresholds _ _). Qed.

Ltac unfold_evaluate :=
  rewrite ?evaluate_context_warning, ?evaluate_context_critical,
    ?evaluate_duration_yellow, ?evaluate_duration_orange in *;
  cbn zeta in *; cbn [fst snd signal crossed context session] in *.

(** An evaluation in the band of a threshold whose flag is unset reports
    the crossing and sets the flag, in memory and in the saved document. *)
Lemma evaluate_unset th x ms :
  flag th ms = false ->
  in_band th ms (evaluate th x ms).1 ->
  crossed (evaluate th x ms).1 = true
  /\ flag th (evaluate th x ms).2 = true
  /\ saved_flag th (evaluate th x ms).2 = Some true.
Proof.
  intros Hflag [Hlow Hup].
  destruct th; unfold_evaluate;
    cbn [flag saved_flag value checked_before context session] in *.
  - rewrite check_context_saves.
    rewrite check_context_usage in Hlow, Hup.
    apply Forall_cons in Hup as [Hup _].
    destruct (check_context_cases (at_time x) (context ms) (text x))
      as [ | | ? [Hn | Hn] ].
    + exfalso. exact (Qlt_not_le _ _ Hup Hu).
    + rewrite Hw, Hs. cbn. auto.
    + contradiction.
    + congruence.
  - rewrite check_context_saves.
    rewrite check_context_usage in Hlow.
    destruct (check_context_cases (at_time x) (context ms) (text x))
      as [ | [Hn | Hn] | [Hn | Hn] ];
      try contradiction; try congruence.
    rewrite Hc, Hs. cbn. auto.
  - rewrite check_session_duration in Hlow, Hup.
    apply Forall_cons in Hup as [Hlim Hup].
    apply Forall_cons in Hup as [Hor _].
    destruct (check_session_cases (at_time x) (session ms))
      as [ | | | ? ? [Hn | Hn] ].
    + exfalso. exact (Qlt_not_le _ _ Hlim Hu).
    + exfalso. exact (Qlt_not_le _ _ Hor Hu).
    + rewrite Hy, Hs. cbn. auto.
    + contradiction.
    + congruence.
  - rewrite check_session_duration in Hlow, Hup.
    apply Forall_cons in Hup as [Hlim _].
    destruct (check_session_cases (at_time x) (session ms))
      as [ | | ? [Hn | Hn] | ? [Hn | Hn] ].
    + exfalso. exact (Qlt_not_le _ _ Hlim Hu).
    + rewrite Ho, Hs. cbn. auto.
    + contradiction.
    + congruence.
    + contradiction.
    + congruence.
Qed.

(** Once the flag is set, an evaluation reports no crossing for the
    threshold and leaves the flag set. *)
Lemma evaluate_set th x ms :
  flag th ms = true ->
  saved_flag th ms = Some true ->
  crossed (evaluate th x ms).1 = false
  /\ flag th (evaluate th x ms).2 = true
  /\ saved_flag th (evaluate th x ms).2 = Some true.
Proof.
  intros Hflag Hsaved.
  destruct th; unfold_evaluate;
    cbn [flag saved_flag context session] in *.
  1,2: rewrite check_context_saves;
       destruct (check_context_cases (at_time x) (context ms) (text x));
       try congruence; rewrite ?Hw, ?Hc, Hs; cbn; rewrite Hflag; auto.
  all: destruct (check_session_cases (at_time x) (session ms));
       try congruence; rewrite ?Hy, ?Ho, Hs; cbn; rewrite ?Hflag; auto.
Qed.

Lemma evaluations_set th xs : forall ms,
  flag th ms = true ->
  saved_flag th ms = Some true ->
  map crossed (evaluations th xs ms).1 = repeat false (length xs)
  /\ flag th (evaluations th xs ms).2 = true
  /\ saved_flag th (evaluations th xs ms).2 = Some true.
Proof.
  induction xs as [|x xs IH]; intros ms Hflag Hsaved; cbn; [auto|].
  destruct (evaluate_set th x ms Hflag Hsaved) as (Hc & Hf & Hsv).
  destruct (evaluate th x ms) as [o ms1]; cbn in *.
  destruct (IH ms1 Hf Hsv) as (IHc & IHf & IHs).
  destruct (evaluations th xs ms1) as [os ms2]; cbn in *.
  rewrite Hc, IHc. auto.
Qed.

Lemma session_checks_at_limit nows :
  forall (m : SessionMonitor.SessionDurationMonitor World),
  Forall (fun now => (SessionMonitor.session_limit m
                      <= SessionMonitor.get_session_duration now m)%Q) nows ->
  map SessionMonitor.session_limit_exceeded (session_checks nows m).1
  = repeat true (length nows)
  /\ (session_checks nows m).2 = m.
Proof.
  induction nows as [|now nows IH]; intros m Hall; cbn; [auto|].
  apply Forall_cons in Hall as [Hnow Hall].
  destruct (check_session_cases now m); try contradiction.
  destruct (SessionMonitor.check_session_thresholds now m) as [r m1];
    cbn in *; subst m1.
  destruct (IH m Hall) as [IHc IHm].
  destruct (session_checks nows m) as [rs m2]; cbn in *.
  rewrite Hl, IHc. auto.
Qed.

(** C2, as the code has it.  For each of the four flagged thresholds
    (context warning, context critical, code yellow, code orange): from a
    state whose flag is unset, a run of evaluations whose signal stays at
    or above the threshold and below the thresholds checked before it
    reports the crossing exactly once, at the first evaluation, which sets
    the flag in memory and in the saved document; every later evaluation
    reports no crossing for it and the flag stays set.  The session limit
    has no flag: every duration check at or above the limit reports
    [session_limit_exceeded] and leaves the monitor as it was. *)
Theorem thresholds_fire_once :
  (forall th ms x xs,
      flag th ms = false ->
      Forall (in_band th ms) (evaluations th (x :: xs) ms).1 ->
      map crossed (evaluations th (x :: xs) ms).1
      = true :: repeat false (length xs)
      /\ flag th (evaluate th x ms).2 = true
      /\ saved_flag th (evaluate th x ms).2 = Some true
      /\ flag th (evaluations th (x :: xs) ms).2 = true
      /\ saved_flag th (evaluations th (x :: xs) ms).2 = Some true)
  /\ (forall (m : SessionMonitor.SessionDurationMonitor World) nows,
         Forall (fun now => (SessionMonitor.session_limit m
                             <= SessionMonitor.get_session_duration now m)%Q)
                nows ->
         map SessionMonitor.session_limit_exceeded (session_checks nows m).1
         = repeat true (length nows)
         /\ (session_checks nows m).2 = m).
Proof.
  split; [|intros m nows; apply session_checks_at_limit].
  intros th ms x xs Hflag Hband. cbn in *.
  assert (Hfirst : in_band th ms (evaluate th x ms).1).
  { destruct (evaluate th x ms) as [o ms1]; cbn in *.
    destruct (evaluations th xs ms1); cbn in *.
    now apply Forall_cons in Hband as [? _]. }
  destruct (evaluate_unset th x ms Hflag Hfirst) as (Hc & Hf & Hsv).
  destruct (evaluate th x ms) as [o ms1]; cbn in *.
  destruct (evaluations_set th xs ms1 Hf Hsv) as (Hcs & Hfs & Hss).
  destruct (evaluations th xs ms1) as [os ms2]; cbn in *.
  rewrite Hc, Hcs. auto.
Qed.
End OneShot.

(** C2 at work: three duration checks between 4h40m and 4h42m report
    code yellow once; two checks past five hours both report the limit. *)
Lemma thresholds_fire_once_witness :
  (map Thresholds.crossed
       (Thresholds.evaluations Thresholds.DurationYellow
          Sample.late_checks Sample.both).1
   = [true; false; false]
   /\ Thresholds.saved_flag Thresholds.DurationYellow
        (Thresholds.evaluations Thresholds.DurationYellow
           Sample.late_checks Sample.both).2 = Some true)
  /\ map SessionMonitor.session_limit_exceeded
         (Thresholds.session_checks
            [5 * Sample.hour; 5 * Sample.hour + Sample.minute]
            Sample.started_session).1
     = [true; true].
Proof.
  destruct (@thresholds_fire_once Z) as [Hflagged Hlimit].
  split.
  - destruct (Hflagged Thresholds.DurationYellow Sample.both
                (Thresholds.MkStimulus
                   (4 * Sample.hour + 40 * Sample.minute) "")
                [ Thresholds.MkStimulus
                    (4 * Sample.hour + 41 * Sample.minute) "";
                  Thresholds.MkStimulus
                    (4 * Sample.hour + 42 * Sample.minute) "" ])
      as (Hreports & _ & _ & _ & Hsaved).
    + reflexivity.
    + repeat constructor; decide_numbers.
    + split; [exact Hreports | exact Hsaved].
  - destruct (Hlimit Sample.started_session
                [5 * Sample.hour; 5 * Sample.hour + Sample.minute])
      as [Hreports _].
    + repeat constructor; decide_numbers.
    + exact Hreports.
Defined.

(** C2 does not hold of the session limit: checked twice past five hours,
    the limit is reported both times, and the first check changes nothing
    in the monitor. *)
Lemma session_limit_reported_again :
  let now := 5 * Sample.hour + Sample.minute in
  let first := SessionMonitor.check_session_thresholds
                 now Sample.started_session in
  let second := SessionMonitor.check_session_thresholds now first.2 in
  SessionMonitor.session_limit_exceeded first.1 = true
  /\ first.2 = Sample.started_session
  /\ SessionMonitor.session_limit_exceeded second.1 = true.
Proof. vm_compute. auto. Qed.

(** ** The trigger history *)

Section TriggerHistory.
Context {World : Type}.
Implicit Types (c : Coordinator.MonitoringCoordinator World).

Import Coordinator Operations.

Definition history c : list trigger_event :=
  triggers_history (coordinator_state c).

Lemma last_n_short {A} (n : nat) (l : list A) :
  (length l <= n)%nat -> last_n n l = l.
Proof.
  intros H. unfold last_n.
  replace (length l - n)%nat with 0%nat by lia. reflexivity.
Qed.

Lemma last_n_length {A} (n : nat) (l : list A) :
  length (last_n n l) = Nat.min n (length l).
Proof. unfold last_n. rewrite length_drop. lia. Qed.

Lemma last_n_app {A} (n : nat) (l k : list A) :
  last_n n (last_n n l ++ k) = last_n n (l ++ k).
Proof.
  unfold last_n.
  rewrite !length_app, length_drop.
  rewrite <- (drop_app_le l k (length l - n)) by lia.
  rewrite drop_drop. f_equal. lia.
Qed.

Lemma log_trigger_history now trigger_type trigger_result c :
  history (_log_trigger now trigger_type trigger_result c)
  = last_n 10 (history c
               ++ [event_of (now, trigger_type, trigger_result)]).
Proof.
  unfold history, _log_trigger, _save_coordinator_state, with_state.
  cbn [coordinator_state triggers_history].
  match goal with
  | |- context [(10 <? ?n)%nat] => destruct (10 <? n)%nat eqn:Hlen
  end; [reflexivity|].
  apply Nat.ltb_ge in Hlen.
  symmetry. now apply last_n_short.
Qed.

Lemma log_trigger_bounded now trigger_type trigger_result c :
  (length (history (_log_trigger now trigger_type trigger_result c))
   <= 10)%nat.
Proof. rewrite log_trigger_history, last_n_length. lia. Qed.

Lemma log_all_history events : forall c,
  (length (history c) <= 10)%nat ->
  history (log_all events c)
  = last_n 10 (history c ++ map event_of events).
Proof.
  induction events as [|[[now trigger_type] trigger_result] events IH];
    intros c Hc; cbn [log_all fold_left map].
  - rewrite app_nil_r. symmetry. now apply last_n_short.
  - change (history (log_all events
                       (_log_trigger now trigger_type trigger_result c))
            = last_n 10 (history c
                         ++ event_of (now, trigger_type, trigger_result)
                            :: map event_of events)).
    rewrite IH by apply log_trigger_bounded.
    rewrite log_trigger_history, last_n_app, <- app_assoc.
    reflexivity.
Qed.

(** C4. Starting from an empty history, fifteen logged triggers leave
    exactly the ten most recent events, oldest first; and whatever the
    history was, it holds at most ten events after any log operation. *)
Theorem trigger_history_bounded c events
        (Hempty : history c = [])
        (Hfifteen : length events = 15%nat) :
  history (log_all events c) = map event_of (drop 5 events)
  /\ length (history (log_all events c)) = 10%nat
  /\ (forall k, (length (history (log_all (take k events) c)) <= 10)%nat)
  /\ (forall c' now trigger_type trigger_result,
        (length (history (_log_trigger now trigger_type trigger_result c'))
         <= 10)%nat).
Proof.
  assert (Hlast : history (log_all events c)
                  = map event_of (drop 5 events)).
  { rewrite log_all_history by (rewrite Hempty; cbn; lia).
    rewrite Hempty. cbn [app]. unfold last_n.
    rewrite length_map, Hfifteen. cbn [Nat.sub].
    change (map event_of (drop 5 events))
      with (event_of <$> drop 5 events).
    now rewrite fmap_drop. }
  split; [exact Hlast|]. split; [|split].
  - rewrite Hlast, length_map, length_drop, Hfifteen. reflexivity.
  - intros k. rewrite log_all_history by (rewrite Hempty; cbn; lia).
    rewrite last_n_length. lia.
  - intros. apply log_trigger_bounded.
Qed.
End TriggerHistory.

(** C4 at work: fifteen triggers logged by a fresh coordinator. *)
Lemma trigger_history_bounded_witness :
  history (Operations.log_all Sample.fifteen_triggers Sample.coordinator)
  = map Operations.event_of (drop 5 Sample.fifteen_triggers)
  /\ length (history (Operations.log_all Sample.fifteen_triggers
                                         Sample.coordinator)) = 10%nat.
Proof.
  destruct (trigger_history_bounded Sample.coordinator
              Sample.fifteen_triggers) as (Hlast & Hlen & _);
    [reflexivity | reflexivity | ].
  split; [exact Hlast | exact Hlen].
Defined.

(** ** The classifier's cascade *)

Section Cascade.
Import CreditMonitor.

Lemma detected_warning_type message w :
  detect_credit_warning message = Detected w ->
  warning_type w = _classify_warning_type (lower message)
  /\ original_message w = message.
Proof.
  unfold detect_credit_warning.
  destruct (matching_patterns credit_patterns (lower message));
    [discriminate|].
  intros [= <-]. split; reflexivity.
Qed.

(** C3, as the code has it.  The message "Daily usage limit reached.
    Consider upgrading for more credits." is detected (by the usage-limit
    pattern alone) and classified [general_limit]: lower-cased, it holds
    none of the cascade's keywords, "daily limit" and "upgrade" included.
    The cascade itself is the fixed one, first satisfied wins:
    daily_limit > upgrade_suggestion > low_credits > session_pause >
    general_limit, decided on the lower-cased message. *)
Theorem warning_type_cascade :
  detect_credit_warning Sample.daily_usage_message
  = Detected
      {| patterns_matched := ["usage\s+limit\s+(reached|approaching)"];
         resume_time := None;
         warning_type := "general_limit";
         original_message := Sample.daily_usage_message;
         confidence := 1 # 9 |}
  /\ (forall message w,
        detect_credit_warning message = Detected w ->
        warning_type w = _classify_warning_type (lower message))
  /\ (forall m,
        contains "daily limit" m = true \/ contains "24 hour" m = true ->
        _classify_warning_type m = "daily_limit")
  /\ (forall m,
        contains "daily limit" m = false -> contains "24 hour" m = false ->
        contains "upgrade" m = true ->
        _classify_warning_type m = "upgrade_suggestion")
  /\ (forall m,
        contains "daily limit" m = false -> contains "24 hour" m = false ->
        contains "upgrade" m = false ->
        contains "running low" m = true ->
        _classify_warning_type m = "low_credits")
  /\ (forall m,
        contains "daily limit" m = false -> contains "24 hour" m = false ->
        contains "upgrade" m = false ->
        contains "running low" m = false ->
        contains "pause" m = true ->
        _classify_warning_type m = "session_pause")
  /\ (forall m,
        contains "daily limit" m = false -> contains "24 hour" m = false ->
        contains "upgrade" m = false ->
        contains "running low" m = false ->
        contains "pause" m = false ->
        _classify_warning_type m = "general_limit").
Proof.
  split; [vm_compute; reflexivity|].
  split; [intros message w H; now apply detected_warning_type in H|].
  unfold _classify_warning_type.
  repeat split; intros m.
  - intros [-> | ->]; [reflexivity|].
    now destruct (contains "daily limit" m).
  - now intros -> -> ->.
  - now intros -> -> -> ->.
  - now intros -> -> -> -> ->.
  - now intros -> -> -> -> ->.
Qed.
End Cascade.

(** C3 at work: a message that holds both "daily limit" and "upgrade" is
    classified [daily_limit]. *)
Lemma warning_type_cascade_witness :
  CreditMonitor._classify_warning_type
    (lower "Daily limit reached. Please upgrade for more credits.")
  = "daily_limit".
Proof.
  destruct warning_type_cascade as (_ & _ & Hdaily & _).
  apply Hdaily. left. vm_compute. reflexivity.
Defined.

(** The message of C3 is not classified [daily_limit]: its lower-cased
    text holds neither "daily limit" nor "upgrade", and the warning type
    comes out as [general_limit]. *)
Lemma daily_usage_message_is_general_limit :
  contains "daily limit" (lower Sample.daily_usage_message) = false
  /\ contains "upgrade" (lower Sample.daily_usage_message) = false
  /\ CreditMonitor.warning_type Sample.some_warning = "general_limit"
  /\ CreditMonitor.detect_credit_warning Sample.daily_usage_message
     = CreditMonitor.Detected Sample.some_warning.
Proof. vm_compute. auto. Qed.

(** ** Monitors built without a generator *)

Section NoGenerator.
Context {World : Type}.


End NoGenerator.



(** ** The trigger counter *)

Section TriggerCounter.
Context {World : Type}.
Implicit Types (c : Coordinator.MonitoringCoordinator World).

Import Coordinator Operations.

(** From [c] to [c'] the counter did not go down, in memory or in the
    saved document, and the saved document still does not run ahead. *)
Definition counter_kept c c' : Prop :=
  fired c <= fired c'
  /\ (saved_not_ahead c -> saved_not_lowered c c' /\ saved_not_ahead c').

(** [c'] has the documents of [c]. *)
Definition same_documents c c' : Prop :=
  coordinator_state c' = coordinator_state c
  /\ coordinator_state_file c' = coordinator_state_file c.

(** [c'] has just saved its document. *)
Definition just_saved c' : Prop :=
  coordinator_state_file c' = Some (coordinator_state c').

Lemma same_documents_refl c : same_documents c c.
Proof. split; reflexivity. Qed.

Lemma same_documents_kept c c' : same_documents c c' -> counter_kept c c'.
Proof.
  intros [Hs Hf].
  unfold counter_kept, saved_not_ahead, saved_not_lowered, fired.
  rewrite Hs, Hf. split; [lia|].
  destruct (coordinator_state_file c); cbn; intros H; split; auto; lia.
Qed.

Lemma just_saved_kept c c' :
  just_saved c' -> fired c <= fired c' -> counter_kept c c'.
Proof.
  intros Hsaved Hle.
  unfold counter_kept, saved_not_ahead, saved_not_lowered, just_saved in *.
  rewrite Hsaved. split; [exact Hle|].
  destruct (coordinator_state_file c); cbn; intros H; split;
    auto; unfold fired in *; lia.
Qed.

Lemma log_trigger_fired now trigger_type trigger_result c :
  fired (_log_trigger now trigger_type trigger_result c) = fired c + 1
  /\ just_saved (_log_trigger now trigger_type trigger_result c).
Proof. split; reflexivity. Qed.

Lemma log_trigger_kept now trigger_type trigger_result c0 c :
  same_documents c c0 ->
  counter_kept c (_log_trigger now trigger_type trigger_result c0).
Proof.
  intros [Hs _]. apply just_saved_kept; [reflexivity|].
  unfold fired in *. cbn. rewrite Hs. lia.
Qed.

Lemma check_context_window_kept now conversation_text c0 c io :
  same_documents c c0 ->
  counter_kept c (check_context_window now conversation_text c0 io).1.2.
Proof.
  intros Hsame. unfold check_context_window.
  destruct (context_monitor c0) as [xm|];
    [|now apply same_documents_kept].
  destruct (negb _); [|now apply same_documents_kept].
  destruct (ContextMonitor.monitor_conversation _ _ _ _)
    as [[[[d|]|e] xm'] io'].
  - destruct (truthy _); cbn.
    + apply log_trigger_kept. destruct Hsame. split; assumption.
    + apply same_documents_kept. destruct Hsame. split; assumption.
  - apply same_documents_kept. destruct Hsame. split; assumption.
  - apply same_documents_kept. destruct Hsame. split; assumption.
Qed.

Lemma record_session_activity_documents now c :
  same_documents c (record_session_activity now c).
Proof.
  unfold record_session_activity.
  destruct (session_monitor c); split; reflexivity.
Qed.

Lemma update_activity_kept now conversation_text claude_message c io :
  counter_kept c
    (update_activity now conversation_text claude_message c io).1.2.
Proof.
  unfold update_activity.
  pose proof (record_session_activity_documents now c) as Hsame.
  destruct (credit_monitor _) as [cm|];
    [|now apply check_context_window_kept].
  destruct (negb _); [|now apply check_context_window_kept].
  destruct (CreditMonitor.monitor_session _ _ _) as [[[d|]|e] io'];
    try now apply check_context_window_kept.
  destruct (truthy _); [|now apply check_context_window_kept].
  now apply log_trigger_kept.
Qed.

Lemma coordination_step_kept now c io :
  counter_kept c (coordination_step now c io).1.
Proof.
  unfold coordination_step.
  destruct (session_monitor c) as [sm|].
  - destruct (SessionMonitor.check_session_thresholds now sm) as [r sm1].
    destruct (SessionMonitor.code_yellow_crossed r).
    + destruct (SessionMonitor.trigger_code_yellow now sm1 io)
        as [[d sm2] io'].
      apply just_saved_kept; [reflexivity|].
      unfold fired. cbn. lia.
    + apply just_saved_kept; [reflexivity|].
      unfold fired. cbn. lia.
  - apply just_saved_kept; [reflexivity|].
    unfold fired. cbn. lia.
Qed.

Lemma start_unified_monitoring_counter now sid c :
  fired (start_unified_monitoring now sid c).2 = 0
  /\ history (start_unified_monitoring now sid c).2 = []
  /\ just_saved (start_unified_monitoring now sid c).2.
Proof.
  unfold start_unified_monitoring, fired, history, just_saved.
  destruct (session_monitor c) as [sm|].
  - destruct (config_enabled (config c) "session_monitoring").
    + destruct (SessionMonitor.start_session _ _ _) as [d sm'].
      cbn [config with_session_monitor].
      destruct (config_enabled (config c) "unified_monitoring");
        repeat split; reflexivity.
    + destruct (config_enabled (config c) "unified_monitoring");
        repeat split; reflexivity.
  - destruct (config_enabled (config c) "unified_monitoring");
      repeat split; reflexivity.
Qed.

(** C6, as the code has it.  Every coordinator operation other than
    starting unified monitoring and resetting leaves
    [total_triggers_fired] where it was or higher, in memory and (when the
    saved document was not ahead of the one in memory, as it is from
    construction on) in the saved document; starting unified monitoring
    and resetting both set it to 0. *)
Theorem total_triggers_fired_monotone now op c io
        (Hsaved : saved_not_ahead c) :
  let c' := (run now op c io).1 in
  saved_not_ahead c'
  /\ if restarts op
     then fired c' = 0
          /\ (total_triggers_fired <$> coordinator_state_file c') = Some 0
     else fired c <= fired c' /\ saved_not_lowered c c'.
Proof.
  assert (Hkept : forall c', counter_kept c c' ->
                  saved_not_ahead c'
                  /\ fired c <= fired c' /\ saved_not_lowered c c').
  { intros c' [Hle Hs]. destruct (Hs Hsaved). auto. }
  destruct op as [sid | conversation_text claude_message
                  | trigger_type trigger_result | | | | | | ];
    cbn [run restarts fst].
  - destruct (start_unified_monitoring_counter now sid c)
      as (Hfired & _ & Hfile).
    unfold saved_not_ahead. rewrite Hfile, Hfired. cbn.
    split; [fold (fired (start_unified_monitoring now sid c).2); lia|].
    split; [reflexivity|].
    fold (fired (start_unified_monitoring now sid c).2).
    now rewrite Hfired.
  - pose proof (update_activity_kept
                  now conversation_text claude_message c io) as H.
    destruct (update_activity _ _ _ _ _) as [[r c'] io'].
    now apply Hkept.
  - apply Hkept, log_trigger_kept, same_documents_refl.
  - apply Hkept, coordination_step_kept.
  - apply Hkept, same_documents_kept. unfold start_coordination_thread.
    destruct (coordination_thread c); split; reflexivity.
  - apply Hkept, same_documents_kept. split; reflexivity.
  - apply Hkept, same_documents_kept, same_documents_refl.
  - apply Hkept, same_documents_kept. unfold stop_unified_monitoring.
    destruct (session_monitor _); split; reflexivity.
  - split; [|split]; try reflexivity.
    unfold saved_not_ahead, fired. cbn. lia.
Qed.
End TriggerCounter.

(** C6 at work: an activity update that fires the critical context
    trigger takes the counter from 0 to 1. *)
Lemma total_triggers_fired_monotone_witness :
  Operations.saved_not_ahead Sample.coordinator_after_trigger
  /\ Operations.fired Sample.coordinator
     <= Operations.fired Sample.coordinator_after_trigger
  /\ Operations.saved_not_lowered Sample.coordinator
                                  Sample.coordinator_after_trigger.
Proof.
  exact (total_triggers_fired_monotone
           3 (Operations.UpdateActivity "96% context" "")
           Sample.coordinator (MkIO [] 0) I).
Defined.

(** C6 does not hold of starting unified monitoring: a coordinator that
    has fired one trigger is back at 0, in memory and in the saved
    document, once unified monitoring is started again. *)
Lemma start_unified_monitoring_lowers_counter :
  let c := Sample.coordinator_after_trigger in
  let c' := (Operations.run 4 (Operations.StartUnifiedMonitoring None)
                            c (MkIO [] 1)).1 in
  Operations.fired c = 1
  /\ (Coordinator.total_triggers_fired
        <$> Coordinator.coordinator_state_file c) = Some 1
  /\ Operations.fired c' = 0
  /\ (Coordinator.total_triggers_fired
        <$> Coordinator.coordinator_state_file c') = Some 0.
Proof. vm_compute. auto. Qed.

(** ** Reset *)

Section Reset.
Context {World : Type}.

(** C7, as the code has it.  After a reset every one-shot flag is false
    and every counter is 0, in memory and in the saved document:
    [reset_monitoring] clears the context monitor, [reset_session] the
    session monitor, [reset_all_monitoring] both and the coordinator's
    [total_triggers_fired].  The next evaluation of the context monitor
    fires again: the critical trigger when the usage is at or above the
    critical threshold, the warning trigger when it is at or above the
    warning threshold and below the critical one.  [reset_session] also
    clears [session_start], so the duration reads 0.0 until a session is
    started; from then on code orange fires again for a duration at or
    above its threshold and below the limit, and code yellow for one at or
    above its threshold and below code orange and the limit. *)
Theorem reset_clears_and_rearms :
  (forall now (m : ContextMonitor.ContextWindowMonitor World),
      let m' := ContextMonitor.reset_monitoring now m in
      ContextMonitor.warning_triggered (ContextMonitor.monitor_state m') = false
      /\ ContextMonitor.critical_triggered (ContextMonitor.monitor_state m') = false
      /\ ContextMonitor.conversation_exchanges_since_base
           (ContextMonitor.monitor_state m') = 0
      /\ ContextMonitor.state_file m' = Some (ContextMonitor.monitor_state m'))
  /\ (forall (m : SessionMonitor.SessionDurationMonitor World),
        let m' := SessionMonitor.reset_session m in
        SessionMonitor.code_yellow_triggered (SessionMonitor.session_state m') = false
        /\ SessionMonitor.code_orange_triggered (SessionMonitor.session_state m') = false
        /\ SessionMonitor.total_exchanges (SessionMonitor.session_state m') = 0
        /\ SessionMonitor.emergency_backups_created
             (SessionMonitor.session_state m') = 0
        /\ SessionMonitor.session_start (SessionMonitor.session_state m') = None
        /\ SessionMonitor.session_file m' = Some (SessionMonitor.session_state m'))
  /\ (forall now (c : Coordinator.MonitoringCoordinator World),
        let c' := Coordinator.reset_all_monitoring now c in
        Coordinator.coordinator_state c' = Coordinator.default_state
        /\ Coordinator.coordinator_state_file c'
           = Some Coordinator.default_state
        /\ Coordinator.session_monitor c'
           = SessionMonitor.reset_session <$> Coordinator.session_monitor c
        /\ Coordinator.context_monitor c'
           = ContextMonitor.reset_monitoring now
               <$> Coordinator.context_monitor c)
  /\ (forall now now' (m : ContextMonitor.ContextWindowMonitor World) text,
        let m' := ContextMonitor.reset_monitoring now m in
        let r := (ContextMonitor.check_context_thresholds now' m' text).1 in
        ((ContextMonitor.critical_threshold m
          <= ContextMonitor.estimate_context_usage m' text)%Q ->
         ContextMonitor.critical_threshold_crossed r = true)
        /\ ((ContextMonitor.warning_threshold m
             <= ContextMonitor.estimate_context_usage m' text)%Q ->
            (ContextMonitor.estimate_context_usage m' text
             < ContextMonitor.critical_threshold m)%Q ->
            ContextMonitor.warning_threshold_crossed r = true))
  /\ (forall now (m : SessionMonitor.SessionDurationMonitor World),
        SessionMonitor.get_session_duration
          now (SessionMonitor.reset_session m) = 0%Q)
  /\ (forall start now (m : SessionMonitor.SessionDurationMonitor World) sid,
        let m' := (SessionMonitor.start_session
                     start (SessionMonitor.reset_session m) sid).2 in
        let r := (SessionMonitor.check_session_thresholds now m').1 in
        let duration := SessionMonitor.hours_of (now - start) in
        (duration < SessionMonitor.session_limit m)%Q ->
        ((SessionMonitor.code_orange_threshold m <= duration)%Q ->
         SessionMonitor.code_orange_crossed r = true)
        /\ ((SessionMonitor.code_yellow_threshold m <= duration)%Q ->
            (duration < SessionMonitor.code_orange_threshold m)%Q ->
            SessionMonitor.code_yellow_crossed r = true)).
Proof.
  split; [intros; repeat split; reflexivity|].
  split; [intros; repeat split; reflexivity|].
  split.
  { intros now c. unfold Coordinator.reset_all_monitoring,
      Coordinator.stop_unified_monitoring,
      Coordinator.stop_coordination_thread.
    cbn [Coordinator.session_monitor].
    destruct (Coordinator.session_monitor c) as [sm|] eqn:Hsm;
      unfold Coordinator.with_session_monitor;
      cbn [Coordinator.session_monitor Coordinator.context_monitor];
      destruct (Coordinator.context_monitor c) as [xm|] eqn:Hxm;
      repeat split; reflexivity. }
  split.
  { intros now now' m text m' r. subst r.
    destruct (check_context_cases now' m' text)
      as [ | Hnc | Hnc Hnw ]; subst m'.
    - split; intros; [assumption|].
      exfalso. eapply Qlt_not_le; eassumption.
    - split; [|intros; assumption].
      intros Hcrit. destruct Hnc as [Hnc | Hnc]; [contradiction|].
      discriminate Hnc.
    - split.
      + intros Hcrit. destruct Hnc as [Hnc | Hnc]; [contradiction|].
        discriminate Hnc.
      + intros Hwarn _. destruct Hnw as [Hnw | Hnw]; [contradiction|].
        discriminate Hnw. }
  split; [reflexivity|].
  intros start now m sid m' r duration Hlimit.
  assert (Hd : SessionMonitor.get_session_duration now m' = duration).
  { subst m'. unfold SessionMonitor.start_session.
    destruct (config_enabled _ _); reflexivity. }
  assert (Hth : SessionMonitor.session_limit m' = SessionMonitor.session_limit m
                /\ SessionMonitor.code_orange_threshold m'
                   = SessionMonitor.code_orange_threshold m
                /\ SessionMonitor.code_yellow_threshold m'
                   = SessionMonitor.code_yellow_threshold m
                /\ SessionMonitor.code_orange_triggered
                     (SessionMonitor.session_state m') = false
                /\ SessionMonitor.code_yellow_triggered
                     (SessionMonitor.session_state m') = false).
  { subst m'. unfold SessionMonitor.start_session.
    destruct (config_enabled _ _); repeat split; reflexivity. }
  destruct Hth as (Hl & Ho & Hy & Hof & Hyf).
  subst r.
  destruct (check_session_cases now m')
    as [Hu | ? Hu | ? Hno Hu | ? Hno Hny];
    rewrite ?Hd, ?Hl, ?Ho, ?Hy in *.
  - exfalso. exact (Qlt_not_le _ _ Hlimit Hu).
  - split; intros; [assumption|].
    exfalso. eapply Qlt_not_le; eassumption.
  - split; [|intros; assumption].
    intros Horange. destruct Hno as [Hno | Hno]; [contradiction|].
    congruence.
  - split.
    + intros Horange. destruct Hno as [Hno | Hno]; [contradiction|].
      congruence.
    + intros Hyellow _. destruct Hny as [Hny | Hny]; [contradiction|].
      congruence.
Qed.
End Reset.

(** C7 at work: the critical trigger has fired; after a reset, the same
    text fires it again. *)
Lemma reset_clears_and_rearms_witness :
  ContextMonitor.critical_triggered
    (ContextMonitor.monitor_state Sample.fired_context_monitor) = true
  /\ ContextMonitor.critical_threshold_crossed
       (ContextMonitor.check_context_thresholds
          4 Sample.fired_context_monitor "96% context").1 = false
  /\ ContextMonitor.critical_threshold_crossed
       (ContextMonitor.check_context_thresholds
          6 (ContextMonitor.reset_monitoring 5 Sample.fired_context_monitor)
          "96% context").1 = true.
Proof.
  destruct (@reset_clears_and_rearms Z) as (_ & _ & _ & Hcontext & _).
  destruct (Hcontext 5 6 Sample.fired_context_monitor "96% context")
    as [Hcritical _].
  split; [reflexivity|]. split; [reflexivity|].
  apply Hcritical. decide_numbers.
Defined.

(** C7 does not hold of the warning threshold when the usage is also at
    or above the critical threshold: right after a reset, a text that
    reports 96% is at or above the warning threshold (90%), yet the
    evaluation reports the critical crossing and not the warning one. *)
Lemma reset_then_critical_skips_warning :
  let m := ContextMonitor.reset_monitoring 5 Sample.fired_context_monitor in
  let r := (ContextMonitor.check_context_thresholds 6 m "96% context").1 in
  ContextMonitor.warning_triggered (ContextMonitor.monitor_state m) = false
  /\ Qle_bool (ContextMonitor.warning_threshold m)
              (ContextMonitor.current_usage r) = true
  /\ ContextMonitor.warning_threshold_crossed r = false
  /\ ContextMonitor.critical_threshold_crossed r = true.
Proof. vm_compute. auto. Qed.

(** ** Activity updates: the classifier comes first *)

Section ActivityOrder.
Context {World : Type}.
Implicit Types (c : Coordinator.MonitoringCoordinator World).

Import Coordinator.






End ActivityOrder.


(** ** The usage estimate and its floor *)

Section Matching.














Import ContextMonitor.



End Matching.

Section Estimate.
Context {World : Type}.
Implicit Types (m : ContextMonitor.ContextWindowMonitor World).

Import ContextMonitor.

End Estimate.



(** * Further properties *)

(** ** Decimal renderings and snapshot names *)

Section SnapshotNames.

Import PackageGenerator.

Lemma chars_app (a b : string) : chars (a +:+ b) = (chars a ++ chars b)%list.
Proof.
  unfold chars. induction a as [|c a IH]; cbn; [reflexivity|].
  now rewrite <- IH.
Qed.

Lemma chars_of_list (l : list ascii) : chars (string_of_list_ascii l) = l.
Proof. apply list_ascii_of_string_of_list_ascii. Qed.

Definition digit_step (acc : Z) (c : ascii) : Z :=
  10 * acc + (Z.of_nat (nat_of_ascii c) - 48).

Ltac digit_value :=
  unfold digit_step;
  match goal with
  | |- context [Z.of_nat (nat_of_ascii ?c)] =>
      let v := eval vm_compute in (Z.of_nat (nat_of_ascii c)) in
      change (Z.of_nat (nat_of_ascii c)) with v
  end; lia.

Lemma uint_digits (d : Decimal.uint) :
  Forall (fun c => is_digit c = true) (chars (NilEmpty.string_of_uint d)).
Proof. induction d; cbn; constructor; auto. Qed.

Lemma uint_value_acc (d : Decimal.uint) : forall p,
  fold_left digit_step (chars (NilEmpty.string_of_uint d)) (Z.pos p)
  = Z.pos (Pos.of_uint_acc d p).
Proof.
  induction d as [|d IHd|d IHd|d IHd|d IHd|d IHd|d IHd|d IHd|d IHd|d IHd|d IHd];
    intros p;
    cbn [NilEmpty.string_of_uint chars list_ascii_of_string fold_left
         Pos.of_uint_acc];
    [reflexivity|..];
    match goal with
    | |- fold_left _ _ ?a = Z.pos (Pos.of_uint_acc _ ?q) =>
        replace a with (Z.pos q);
        [apply IHd | digit_value]
    end.
Qed.

Lemma uint_value (d : Decimal.uint) :
  fold_left digit_step (chars (NilEmpty.string_of_uint d)) 0
  = Z.of_N (Pos.of_uint d).
Proof.
  induction d as [|d IHd|d IHd|d IHd|d IHd|d IHd|d IHd|d IHd|d IHd|d IHd|d IHd];
    cbn [NilEmpty.string_of_uint chars list_ascii_of_string fold_left
         Pos.of_uint Z.of_N];
    [reflexivity | exact IHd | ..];
    match goal with
    | |- fold_left _ _ ?a = Z.pos (Pos.of_uint_acc _ ?q) =>
        replace a with (Z.pos q);
        [apply uint_value_acc | digit_value]
    end.
Qed.

(** The rendering of a natural number: a non-empty string of digits that
    [int] reads back. *)
Lemma string_of_Z_digits (n : Z) :
  0 <= n ->
  chars (string_of_Z n) <> []
  /\ Forall (fun c => is_digit c = true) (chars (string_of_Z n))
  /\ int_of_digits (string_of_Z n) = n.
Proof.
  intros Hn. unfold string_of_Z, int_of_digits.
  change (fun acc c => 10 * acc + (Z.of_nat (nat_of_ascii c) - 48))
    with digit_step.
  destruct n as [|p|p]; [| |lia].
  - cbn. repeat split; [discriminate | repeat constructor].
  - cbn [Z.to_int NilZero.string_of_int].
    pose proof (DecimalPos.Unsigned.to_uint_nonnil p) as Hnil.
    assert (E : NilZero.string_of_uint (Pos.to_uint p)
                = NilEmpty.string_of_uint (Pos.to_uint p)).
    { destruct (Pos.to_uint p); [contradiction | reflexivity..]. }
    rewrite E. split; [|split].
    + destruct (Pos.to_uint p); [contradiction | discriminate..].
    + apply uint_digits.
    + rewrite uint_value, DecimalPos.Unsigned.of_to. reflexivity.
Qed.

Lemma leading_digits_run (ds : list ascii) c rest :
  Forall (fun c => is_digit c = true) ds ->
  is_digit c = false ->
  leading_digits (ds ++ c :: rest) = ds.
Proof.
  intros Hds Hc. induction Hds as [|d ds Hd _ IH]; cbn.
  - now rewrite Hc.
  - now rewrite Hd, IH.
Qed.

Lemma snapshot_id_chars (n : Z) title :
  chars (snapshot_id_of n title)
  = (chars "snapshot-" ++ chars (string_of_Z n)
     ++ "-"%char :: chars (slug title))%list.
Proof.
  unfold snapshot_id_of. rewrite !chars_app. reflexivity.
Qed.

Lemma snapshot_id_is_snapshot_name n title :
  is_snapshot_name (snapshot_id_of n title) = true.
Proof.
  unfold is_snapshot_name. rewrite snapshot_id_chars. reflexivity.
Qed.

(** The number of a snapshot reads back from the name of its directory. *)
Lemma snapshot_number_of_id n title :
  0 <= n -> snapshot_number_of (snapshot_id_of n title) = Some n.
Proof.
  intros Hn. unfold snapshot_number_of.
  rewrite snapshot_id_is_snapshot_name, snapshot_id_chars.
  destruct (string_of_Z_digits n Hn) as (Hne & Hds & Hval).
  change (drop 9 (chars "snapshot-" ++ ?l)) with l.
  rewrite (leading_digits_run _ _ _ Hds) by reflexivity.
  destruct (chars (string_of_Z n)) as [|c l] eqn:Hc; [contradiction|].
  rewrite <- Hc. unfold chars. rewrite string_of_list_ascii_of_string.
  now rewrite Hval.
Qed.
Lemma digits_value_nonneg (l : list ascii) : forall acc,
  Forall (fun c => is_digit c = true) l -> 0 <= acc ->
  0 <= fold_left digit_step l acc.
Proof.
  induction l as [|c l IH]; intros acc Hl Hacc; cbn; [exact Hacc|].
  apply Forall_cons in Hl as [Hc Hl]. apply IH; [exact Hl|].
  unfold digit_step, is_digit in *. cbn zeta in Hc.
  apply andb_true_iff in Hc as [Hlo _]. apply Nat.leb_le in Hlo. lia.
Qed.

Lemma leading_digits_digits (l : list ascii) :
  Forall (fun c => is_digit c = true) (leading_digits l).
Proof.
  induction l as [|c l IH]; cbn; [constructor|].
  destruct (is_digit c) eqn:Hc; constructor; auto.
Qed.

Lemma snapshot_number_of_nonneg name k :
  snapshot_number_of name = Some k -> 0 <= k /\ is_snapshot_name name = true.
Proof.
  unfold snapshot_number_of.
  destruct (is_snapshot_name name); [|discriminate].
  pose proof (leading_digits_digits (drop 9 (chars name))) as Hds.
  destruct (leading_digits _) as [|c l]; [discriminate|].
  intros [= <-]. split; [|reflexivity].
  unfold int_of_digits.
  change (String c (string_of_list_ascii l))
    with (string_of_list_ascii (c :: l)).
  rewrite chars_of_list.
  now apply (digits_value_nonneg (c :: l) 0).
Qed.

(** The numbers of the snapshot directories of a listing. *)
Definition snapshot_numbers (dirs : list string) : list Z :=
  omap snapshot_number_of (List.filter is_snapshot_name dirs).

Lemma snapshot_numbers_in dirs k :
  In k (snapshot_numbers dirs)
  <-> exists name, In name dirs /\ snapshot_number_of name = Some k.
Proof.
  unfold snapshot_numbers. rewrite <- list_elem_of_In, list_elem_of_omap.
  split.
  - intros (name & Hin & Hk). exists name. split; [|exact Hk].
    apply list_elem_of_In in Hin. now apply filter_In in Hin as [Hin _].
  - intros (name & Hin & Hk). exists name. split; [|exact Hk].
    apply list_elem_of_In, filter_In. split; [exact Hin|].
    now apply snapshot_number_of_nonneg in Hk.
Qed.

Lemma snapshot_numbers_app dirs dirs' :
  snapshot_numbers (dirs ++ dirs')
  = (snapshot_numbers dirs ++ snapshot_numbers dirs')%list.
Proof.
  unfold snapshot_numbers. now rewrite List.filter_app, omap_app.
Qed.

Lemma snapshot_numbers_single name k :
  snapshot_number_of name = Some k -> snapshot_numbers [name] = [k].
Proof.
  intros Hk. unfold snapshot_numbers. cbn [List.filter].
  destruct (snapshot_number_of_nonneg _ _ Hk) as [_ ->].
  cbn [omap list_omap]. now rewrite Hk.
Qed.

Lemma maximum_bounds numbers : forall n,
  n <= maximum n numbers
  /\ (forall k, In k numbers -> k <= maximum n numbers)
  /\ (maximum n numbers = n \/ In (maximum n numbers) numbers).
Proof.
  unfold maximum.
  induction numbers as [|m numbers IH]; intros n; cbn.
  - split; [lia|]. split; [intros k []|now left].
  - destruct (IH (Z.max n m)) as (Hle & Hall & Hin).
    split; [lia|]. split.
    + intros k [<- | Hk]; [lia | now apply Hall].
    + destruct Hin as [Heq | Hin]; [|now right; right].
      rewrite Heq. destruct (Z.max_spec n m) as [[_ ->] | [_ ->]];
        [right; now left | now left].
Qed.

(** The next number, from the numbers of the listing. *)
Lemma next_snapshot_number_spec dirs :
  let next := _get_next_snapshot_number dirs in
  1 <= next
  /\ (forall k, In k (snapshot_numbers dirs) -> k < next)
  /\ (next = 1 \/ In (next - 1) (snapshot_numbers dirs)).
Proof.
  cbn zeta. unfold _get_next_snapshot_number.
  fold (snapshot_numbers dirs).
  assert (Hnn : forall k, In k (snapshot_numbers dirs) -> 0 <= k).
  { intros k Hk. apply snapshot_numbers_in in Hk as (name & _ & Hk).
    now apply snapshot_number_of_nonneg in Hk. }
  assert (Hcase : match snapshot_numbers dirs with
                  | [] => 1
                  | n :: numbers => maximum n numbers + 1
                  end
                  = match List.filter is_snapshot_name dirs with
                    | [] => 1
                    | _ :: _ =>
                        match snapshot_numbers dirs with
                        | [] => 1
                        | n :: numbers => maximum n numbers + 1
                        end
                    end).
  { unfold snapshot_numbers.
    now destruct (List.filter is_snapshot_name dirs). }
  rewrite <- Hcase. clear Hcase.
  destruct (snapshot_numbers dirs) as [|n numbers].
  - split; [lia|]. split; [intros k []|now left].
  - destruct (maximum_bounds numbers n) as (Hle & Hall & Hin).
    pose proof (Hnn n (or_introl eq_refl)).
    split; [lia|]. split.
    + intros k [<- | Hk]; [lia|]. apply Hall in Hk. lia.
    + right. replace (maximum n numbers + 1 - 1) with (maximum n numbers)
        by lia.
      destruct Hin as [-> | Hin]; [now left | now right].
Qed.

(** A number that fits the three conditions is the next one. *)
Lemma next_snapshot_number_unique dirs next :
  1 <= next ->
  (forall k, In k (snapshot_numbers dirs) -> k < next) ->
  (next = 1 \/ In (next - 1) (snapshot_numbers dirs)) ->
  _get_next_snapshot_number dirs = next.
Proof.
  intros Hone Hall Hin.
  destruct (next_snapshot_number_spec dirs) as (Hone' & Hall' & Hin').
  destruct Hin as [-> | Hin]; destruct Hin' as [Heq | Hin'];
    try (apply Hall' in Hin); try (apply Hall in Hin'); lia.
Qed.

Lemma str_in_In name (l : list string) : str_in name l = true <-> In name l.
Proof.
  unfold str_in. rewrite existsb_exists. split.
  - intros (x & Hin & Heq). apply String.eqb_eq in Heq. now subst.
  - intros Hin. exists name. split; [exact Hin | apply String.eqb_refl].
Qed.

(** Making the directory of the next snapshot moves the next number up by
    one; the directory is a new one. *)
Lemma next_after_mkdir dirs title :
  let next := _get_next_snapshot_number dirs in
  let sid := snapshot_id_of next title in
  ~ In sid dirs
  /\ mkdir sid dirs = (dirs ++ [sid])%list
  /\ _get_next_snapshot_number (mkdir sid dirs) = next + 1.
Proof.
  cbn zeta.
  destruct (next_snapshot_number_spec dirs) as (Hone & Hall & Hin).
  assert (Hnum : snapshot_number_of
                   (snapshot_id_of (_get_next_snapshot_number dirs) title)
                 = Some (_get_next_snapshot_number dirs))
    by (apply snapshot_number_of_id; lia).
  assert (Hnew : ~ In (snapshot_id_of (_get_next_snapshot_number dirs) title)
                      dirs).
  { intros Hold.
    assert (Hk : In (_get_next_snapshot_number dirs) (snapshot_numbers dirs))
      by (apply snapshot_numbers_in; eauto).
    apply Hall in Hk. lia. }
  assert (Hmk : mkdir (snapshot_id_of (_get_next_snapshot_number dirs) title)
                      dirs
                = (dirs ++ [snapshot_id_of (_get_next_snapshot_number dirs)
                                           title])%list).
  { unfold mkdir. destruct (str_in _ dirs) eqn:Hin'; [|reflexivity].
    apply str_in_In in Hin'. contradiction. }
  split; [exact Hnew|]. split; [exact Hmk|].
  rewrite Hmk. apply next_snapshot_number_unique; [lia| |].
  - intros k Hk. rewrite snapshot_numbers_app in Hk.
    apply in_app_or in Hk as [Hk | Hk].
    + apply Hall in Hk. lia.
    + rewrite (snapshot_numbers_single _ _ Hnum) in Hk.
      destruct Hk as [<- | []]. lia.
  - right. rewrite snapshot_numbers_app. apply in_or_app. right.
    rewrite (snapshot_numbers_single _ _ Hnum). left. lia.
Qed.
End SnapshotNames.

(** ** The package generator: numbers, names and files *)

Section Generator.

Import PackageGenerator.

(** [count_from n k] is [n; n + 1; ...], [k] numbers in all. *)
Fixpoint count_from (n : Z) (k : nat) : list Z :=
  match k with
  | O => []
  | S k' => n :: count_from (n + 1) k'
  end.

(** X1. The next snapshot number is at least 1 and greater than the
    number of every snapshot directory of the listing; it is 1 when no
    directory name starts with "snapshot-", and otherwise either 1 or one
    more than the number of some directory. *)
Theorem next_snapshot_number_above dirs :
  let next := _get_next_snapshot_number dirs in
  1 <= next
  /\ (forall name k,
        In name dirs -> snapshot_number_of name = Some k -> k < next)
  /\ (Forall (fun name => is_snapshot_name name = false) dirs -> next = 1)
  /\ (next = 1
      \/ exists name,
           In name dirs /\ snapshot_number_of name = Some (next - 1)).
Proof.
  cbn zeta.
  destruct (next_snapshot_number_spec dirs) as (Hone & Hall & Hin).
  split; [exact Hone|]. split; [|split].
  - intros name k Hname Hk. apply Hall, snapshot_numbers_in. eauto.
  - intros Hnone. destruct Hin as [Hin | Hin]; [exact Hin|].
    apply snapshot_numbers_in in Hin as (name & Hname & Hk).
    apply snapshot_number_of_nonneg in Hk as [_ Hk].
    rewrite Forall_forall in Hnone.
    apply list_elem_of_In, Hnone in Hname. congruence.
  - destruct Hin as [Hin | Hin]; [now left | right].
    now apply snapshot_numbers_in.
Qed.

Lemma create_enhanced_package_result config t reason auto exchanges io :
  exists title lines,
    let next := _get_next_snapshot_number (snapshot_dirs (world io)) in
    let sid := snapshot_id_of next title in
    create_enhanced_package config t reason auto exchanges io
    = (PackageCreated sid next title (files_created_for config t)
                      (package_bytes (world io) t)
                      (snapshots_path (world io) +:+ "/" +:+ sid),
       MkIO lines
            (MkSite (mkdir sid (snapshot_dirs (world io)))
                    (snapshots_path (world io)) (time_of_day (world io))
                    (package_bytes (world io)))).
Proof.
  unfold create_enhanced_package.
  destruct (if negb auto then _prompt_user_title config (stdin io)
            else (None, stdin io)) as [user_title lines].
  now exists (default (_generate_auto_title t reason (time_of_day (world io)))
                      user_title), lines.
Qed.

(** X2. Successive package requests are numbered consecutively from the
    next number of the listing they start on (from 1 on an empty one);
    their directories are new and all different, and the next number
    afterwards has moved up by the number of requests. *)
Theorem consecutive_snapshot_numbers config requests : forall io,
  let next := _get_next_snapshot_number (snapshot_dirs (world io)) in
  let created := create_all config requests io in
  map snapshot_number created.1
  = map Some (count_from next (length requests))
  /\ NoDup (omap snapshot_id created.1)
  /\ (forall sid, In sid (omap snapshot_id created.1) ->
                  ~ In sid (snapshot_dirs (world io)))
  /\ _get_next_snapshot_number (snapshot_dirs (world created.2))
     = next + Z.of_nat (length requests).
Proof.
  induction requests as [|r requests IH]; intros io; cbn zeta.
  - cbn. split; [reflexivity|]. split; [constructor|].
    split; [intros sid []|lia].
  - cbn [create_all length count_from].
    destruct (create_enhanced_package_result
                config (package_type r) (trigger_reason r) (auto_created r)
                (conversation_exchanges r) io) as (title & lines & Hcreate).
    cbn zeta in Hcreate. rewrite Hcreate. clear Hcreate.
    destruct (next_after_mkdir (snapshot_dirs (world io)) title)
      as (Hnew & Hmk & Hnext).
    specialize (IH (MkIO lines
                      (MkSite (mkdir (snapshot_id_of
                                        (_get_next_snapshot_number
                                           (snapshot_dirs (world io))) title)
                                     (snapshot_dirs (world io)))
                              (snapshots_path (world io))
                              (time_of_day (world io))
                              (package_bytes (world io))))).
    cbn zeta in IH. cbn [world snapshot_dirs] in IH.
    rewrite Hnext in IH.
    destruct (create_all config requests _) as [results io2].
    cbn [fst snd] in *.
    destruct IH as (Hnumbers & Hdup & Hfresh & Hafter).
    cbn [map snapshot_number omap list_omap snapshot_id].
    split; [now rewrite Hnumbers|]. split; [|split].
    + constructor; [|exact Hdup].
      rewrite list_elem_of_In. intros Hin. apply Hfresh in Hin.
      apply Hin. rewrite Hmk. apply in_or_app. right. now left.
    + intros sid [<- | Hin]; [exact Hnew|].
      apply Hfresh in Hin. intros Hold. apply Hin.
      rewrite Hmk. apply in_or_app. now left.
    + rewrite Hafter. lia.
Qed.

(** X3. Whatever the tier, a package holds the handoff instructions, the
    session summary and, last, [metadata.json], and no file twice.  The
    conversation context is written exactly for the FULL and COMPLEX tiers
    when [conversation_export] is enabled, the extended metadata exactly
    for COMPLEX, and a LIGHT package holds the three common files only.
    The [conversation_export] entry of the result says whether the
    conversation context was written. *)
Theorem files_created_by_tier config t :
  let files := files_created_for config t in
  In "HANDOFF-INSTRUCTIONS.md" files
  /\ In "session-summary.md" files
  /\ last files = Some "metadata.json"
  /\ NoDup files
  /\ (In "conversation-context.md" files
      <-> t <> LIGHT /\ config_enabled config "conversation_export" = true)
  /\ (In "package-metadata-v2.7.json" files <-> t = COMPLEX)
  /\ (t = LIGHT ->
      files = ["HANDOFF-INSTRUCTIONS.md"; "session-summary.md";
               "metadata.json"])
  /\ (forall sid n title size location,
        package_dict t (PackageCreated sid n title files size location)
          !! "conversation_export"
        = Some (VBool (match t with
                       | LIGHT => false
                       | _ => config_enabled config "conversation_export"
                       end))).
Proof.
  cbn zeta. unfold files_created_for.
  destruct t; destruct (config_enabled config "conversation_export");
    cbn [app];
    (split; [cbn; tauto|]); (split; [cbn; tauto|]);
    (split; [reflexivity|]);
    (split; [repeat (constructor;
                     [rewrite list_elem_of_In; cbn;
                      intuition discriminate|]); constructor|]);
    (split; [cbn; split; [intuition discriminate
                         | intros [? ?]; intuition congruence]|]);
    (split; [cbn; split; [intuition discriminate
                         | intros ?; intuition congruence]|]);
    (split; [intros ?; first [reflexivity | discriminate]|]);
    intros; reflexivity.
Qed.
(** Neither a space, nor a parenthesis, nor an upper-case letter. *)
Definition plain_char (c : ascii) : bool :=
  negb (Ascii.eqb c " ") && negb (Ascii.eqb c "(") && negb (Ascii.eqb c ")")
  && Ascii.eqb (lower_char c) c.

Lemma slug_char_plain c : forallb plain_char (slug_char (lower_char c)) = true.
Proof. destruct c as [[] [] [] [] [] [] [] []]; reflexivity. Qed.

Lemma digit_plain c : is_digit c = true -> plain_char c = true.
Proof.
  destruct c as [[] [] [] [] [] [] [] []]; intros H;
    first [reflexivity | discriminate H].
Qed.

Lemma slug_plain title : forallb plain_char (chars (slug title)) = true.
Proof.
  unfold slug, lower. rewrite !chars_of_list.
  induction (chars title) as [|c l IH]; cbn [map flat_map]; [reflexivity|].
  rewrite forallb_app, slug_char_plain, IH. reflexivity.
Qed.

(** X4. The name of a snapshot directory is "snapshot-", the number, a
    dash and the title in lower case with its spaces turned into dashes
    and its parentheses dropped: it holds no space, no parenthesis and no
    upper-case letter, and the number reads back from it the way
    [_get_next_snapshot_number] reads it. *)
Theorem snapshot_id_well_formed n title (Hn : 0 <= n) :
  is_snapshot_name (snapshot_id_of n title) = true
  /\ snapshot_number_of (snapshot_id_of n title) = Some n
  /\ forallb plain_char (chars (snapshot_id_of n title)) = true.
Proof.
  split; [apply snapshot_id_is_snapshot_name|].
  split; [now apply snapshot_number_of_id|].
  rewrite snapshot_id_chars, !forallb_app.
  destruct (string_of_Z_digits n Hn) as (_ & Hds & _).
  apply andb_true_iff. split; [reflexivity|].
  apply andb_true_iff. split.
  - apply forallb_forall. intros c Hc.
    rewrite Forall_forall in Hds.
    apply digit_plain, Hds, list_elem_of_In, Hc.
  - cbn [forallb]. rewrite slug_plain. reflexivity.
Qed.
End Generator.

(** X4 at work: snapshot 12 with a title the user typed. *)
Lemma snapshot_id_well_formed_witness :
  PackageGenerator.snapshot_id_of 12 "Parser Rewrite (Part 2)"
  = "snapshot-12-parser-rewrite-part-2"
  /\ PackageGenerator.snapshot_number_of
       (PackageGenerator.snapshot_id_of 12 "Parser Rewrite (Part 2)")
     = Some 12.
Proof.
  split; [reflexivity|].
  apply (snapshot_id_well_formed 12 "Parser Rewrite (Part 2)"). lia.
Defined.

(** ** The context monitor: estimates, handlers and flags *)

Section ContextHandlers.
Context {World : Type}.
Implicit Types (m : ContextMonitor.ContextWindowMonitor World)
         (gen : EnhancedPackageGenerator World).

Import ContextMonitor.

Lemma ratio_nonneg (a b : Z) : 0 <= a -> 0 < b -> (0 <= inject_Z a / inject_Z b)%Q.
Proof.
  intros Ha Hb. destruct b as [|p|p]; try lia.
  unfold Qle, Qdiv, Qmult, Qinv, inject_Z. cbn. lia.
Qed.

Lemma isdigit_value_nonneg str : isdigit str = true -> 0 <= int_of_digits str.
Proof.
  unfold isdigit, int_of_digits. intros H.
  apply (digits_value_nonneg (chars str) 0); [|lia].
  destruct (chars str) as [|c l]; [discriminate|].
  apply Forall_forall. intros x Hx.
  rewrite forallb_forall in H. apply H, list_elem_of_In, Hx.
Qed.

Lemma percentage_of_bounds str q :
  isdigit str = true -> percentage_of str = Some q -> (0 <= q <= 1)%Q.
Proof.
  unfold percentage_of. intros Hd.
  apply isdigit_value_nonneg in Hd.
  destruct (int_of_digits str <=? 100) eqn:Hle; [|discriminate].
  apply Z.leb_le in Hle. intros [= <-].
  unfold Qle, Qdiv, Qmult, Qinv, inject_Z. cbn. lia.
Qed.

Lemma indicator_value_bounds f q :
  indicator_value f = Some q -> (0 <= q <= 1)%Q.
Proof.
  unfold indicator_value.
  destruct f as [str | l].
  - destruct (isdigit str) eqn:Hd; [|discriminate].
    now apply percentage_of_bounds.
  - destruct l as [|m0 rest]; [discriminate|].
    assert (Hpct : (if isdigit m0 then percentage_of m0 else None) = Some q ->
                   (0 <= q <= 1)%Q).
    { destruct (isdigit m0) eqn:Hd; [|discriminate].
      now apply percentage_of_bounds. }
    destruct rest as [|m1 [|m2 rest]]; try exact Hpct.
    destruct (isdigit m1) eqn:Hd1; [|exact Hpct].
    destruct (0 <? int_of_digits m1) eqn:Hpos; [|discriminate].
    apply Z.ltb_lt in Hpos. intros [= <-]. split.
    + apply Q.min_glb; [|discriminate].
      apply ratio_nonneg; [|exact Hpos].
      destruct (isdigit m0) eqn:Hd0; [now apply isdigit_value_nonneg | lia].
    + apply Q.le_min_r.
Qed.

Lemma explicit_indicator_bounds ps text q :
  explicit_indicator ps text = Some q -> (0 <= q <= 1)%Q.
Proof.
  induction ps as [|p ps IH]; cbn; [discriminate|].
  destruct (first_indicator (findall p text)) as [q'|] eqn:Hfirst; [|exact IH].
  intros [= <-]. clear IH.
  induction (findall p text) as [|f fs IHf]; cbn in Hfirst; [discriminate|].
  destruct (indicator_value f) as [q''|] eqn:Hv; [|now apply IHf].
  injection Hfirst as <-. now apply indicator_value_bounds in Hv.
Qed.

(** X5. With a positive capacity estimate, the usage estimate lies between
    0.0 and 1.0 for every text and every state of the monitor, negative or
    oversized saved figures included. *)
Theorem estimate_context_usage_bounds m text
        (Hcapacity : 0 < max_context_estimate m) :
  (0 <= estimate_context_usage m text <= 1)%Q.
Proof.
  unfold estimate_context_usage.
  destruct (explicit_indicator context_indicators text) as [q|] eqn:Hq.
  - now apply explicit_indicator_bounds in Hq.
  - split; [|apply Q.le_min_r].
    apply Q.min_glb; [|discriminate].
    eapply Qle_trans; [|apply Q.le_max_l].
    unfold length_estimate.
    destruct (max_context_estimate m) as [|p|p]; try lia.
    unfold Qle, Qdiv, Qmult, Qinv, inject_Z. cbn. lia.
Qed.

(** The critical handler leaves the monitor as it was. *)
Lemma handle_critical_trigger_monitor m io :
  (handle_critical_trigger m io).1.2 = m.
Proof.
  unfold handle_critical_trigger.
  destruct (generator m) as [gen|]; [|reflexivity].
  destruct (base_context_created (monitor_state m)).
  - unfold _create_delta_session.
    destruct (create_enhanced_package _ _ _ _ _ _) as [r io'].
    destruct (get_truthy _ _); [|reflexivity].
    destruct (package_dict COMPLEX r !! "snapshot_id") as [[]|]; reflexivity.
  - unfold _create_full_critical_backup.
    destruct (create_enhanced_package _ _ _ _ _ _) as [r io'].
    destruct (get_truthy _ _); reflexivity.
Qed.

(** What a base context leaves in the state. *)
Definition with_base_context (snapshot : pyval) (now : timestamp)
           (s : state) : state :=
  set_last_check (Some now)
    (set_conversation_exchanges_since_base 0 (set_base_context snapshot now s)).

Lemma create_base_context_monitor gen now m io :
  (_create_base_context gen now m io).1.2 = m
  \/ exists snapshot,
       monitor_state (_create_base_context gen now m io).1.2
       = with_base_context snapshot now (monitor_state m).
Proof.
  unfold _create_base_context.
  destruct (create_enhanced_package _ _ _ _ _ _) as [r io'].
  destruct (get_truthy _ _); [|now left].
  right. eexists. reflexivity.
Qed.

Lemma handle_warning_trigger_monitor now m auto_response io :
  (handle_warning_trigger now m auto_response io).1.2 = m
  \/ exists snapshot,
       monitor_state (handle_warning_trigger now m auto_response io).1.2
       = with_base_context snapshot now (monitor_state m).
Proof.
  unfold handle_warning_trigger.
  destruct (generator m) as [gen|]; [|now left].
  destruct (match auto_response with
            | Some r => if String.eqb r "" then read_choice io
                        else (Returned (lower r), io)
            | None => read_choice io
            end) as [[choice|e] io']; [|now left].
  destruct (str_in choice ["y"; "yes"]).
  - pose proof (create_base_context_monitor gen now m io') as H.
    destruct (_create_base_context gen now m io') as [[d m'] io''].
    exact H.
  - destruct (str_in choice ["n"; "no"]); now left.
Qed.
End ContextHandlers.

(** X5 at work: a fresh monitor and a text that claims 250% of the
    context. *)
Lemma estimate_context_usage_bounds_witness :
  (0 <= ContextMonitor.estimate_context_usage
          Sample.context_monitor "250% context used"
   <= 1)%Q.
Proof.
  apply (estimate_context_usage_bounds Sample.context_monitor
           "250% context used").
  reflexivity.
Defined.

Section ContextRuns.
Context {World : Type}.
Implicit Types (m : ContextMonitor.ContextWindowMonitor World)
         (gen : EnhancedPackageGenerator World).

Import ContextMonitor.

(** What one call of [monitor_conversation] leaves of the monitor: the
    monitor as it was when monitoring is disabled; otherwise the monitor
    the threshold check leaves, on which the warning handler may have
    recorded a base context. *)
Lemma monitor_conversation_monitor now m text io :
  let m' := (monitor_conversation now m text io).1.2 in
  let checked := check_context_thresholds
                   now (increment_exchange_count now m) text in
  (config_enabled (config m) "context_monitoring" = false /\ m' = m)
  \/ (config_enabled (config m) "context_monitoring" = true
      /\ (m' = checked.2
          \/ (warning_threshold_crossed checked.1 = true
              /\ exists snapshot,
                   monitor_state m'
                   = with_base_context snapshot now
                       (monitor_state checked.2)))).
Proof.
  cbn zeta. unfold monitor_conversation.
  destruct (config_enabled (config m) "context_monitoring");
    cbn [negb]; [right | now left].
  split; [reflexivity|].
  destruct (check_context_thresholds now (increment_exchange_count now m) text)
    as [r m2]; cbn [fst snd].
  destruct (critical_threshold_crossed r).
  - left. pose proof (handle_critical_trigger_monitor m2 io) as H.
    destruct (handle_critical_trigger m2 io) as [[d m3] io']. exact H.
  - destruct (warning_threshold_crossed r); [|now left].
    pose proof (handle_warning_trigger_monitor now m2 None io) as H.
    destruct (handle_warning_trigger now m2 None io) as [[[d|e] m3] io'];
      cbn [fst snd] in *;
      (destruct H as [-> | H]; [now left | right; now split]).
Qed.

(** The one-shot flags and the base-context mark are still set in [s'] if
    they were in [s]. *)
Definition flags_kept (s s' : state) : Prop :=
  Bool.le (warning_triggered s) (warning_triggered s')
  /\ Bool.le (critical_triggered s) (critical_triggered s')
  /\ Bool.le (base_context_created s) (base_context_created s').

Lemma bool_le_refl b : Bool.le b b.
Proof. now destruct b. Qed.

Lemma bool_le_trans a b c : Bool.le a b -> Bool.le b c -> Bool.le a c.
Proof. destruct a, b, c; cbn; auto; discriminate. Qed.

Lemma bool_le_true b : Bool.le b true.
Proof. now destruct b. Qed.

Lemma flags_kept_refl s : flags_kept s s.
Proof. repeat split; apply bool_le_refl. Qed.

Lemma flags_kept_trans s1 s2 s3 :
  flags_kept s1 s2 -> flags_kept s2 s3 -> flags_kept s1 s3.
Proof.
  intros (H1 & H2 & H3) (H1' & H2' & H3').
  repeat split; eapply bool_le_trans; eauto.
Qed.

Lemma check_context_flags_kept now m text :
  flags_kept (monitor_state m)
             (monitor_state (check_context_thresholds now m text).2).
Proof.
  destruct (check_context_cases now m text); rewrite Hs;
    repeat split; cbn;
    first [apply bool_le_refl | apply bool_le_true].
Qed.

Lemma monitor_conversation_flags_kept now m text io :
  flags_kept (monitor_state m)
             (monitor_state (monitor_conversation now m text io).1.2).
Proof.
  destruct (monitor_conversation_monitor now m text io)
    as [[_ ->] | [_ [-> | [_ [snapshot ->]]]]].
  - apply flags_kept_refl.
  - apply (check_context_flags_kept now (increment_exchange_count now m)).
  - eapply flags_kept_trans;
      [apply (check_context_flags_kept now (increment_exchange_count now m))|].
    repeat split; cbn; first [apply bool_le_refl | apply bool_le_true].
Qed.

(** X6. No sequence of calls of [monitor_conversation], whatever the texts
    and the answers typed at the prompts, clears a one-shot flag or the
    base-context mark: each of [warning_triggered], [critical_triggered]
    and [base_context_created] that was set before the run is set after
    it. *)
Theorem conversation_run_keeps_flags texts : forall m io,
  let s := monitor_state m in
  let s' := monitor_state (Runs.conversation_run texts m io).1 in
  Bool.le (warning_triggered s) (warning_triggered s')
  /\ Bool.le (critical_triggered s) (critical_triggered s')
  /\ Bool.le (base_context_created s) (base_context_created s').
Proof.
  induction texts as [|[now text] texts IH]; intros m io; cbn zeta.
  - apply flags_kept_refl.
  - cbn [Runs.conversation_run].
    pose proof (monitor_conversation_flags_kept now m text io) as Hstep.
    destruct (monitor_conversation now m text io) as [[o m1] io1].
    eapply flags_kept_trans; [exact Hstep | apply IH].
Qed.

(** X7. The base context is recorded only when the package was created:
    then the state holds the mark, the snapshot's name and the time, the
    exchange counter is back at 0, the document is saved and the result
    names the snapshot; the two one-shot flags are untouched.  When the
    generator reports a failure, its dictionary is returned as it is and
    the monitor does not change. *)
Theorem base_context_recorded_on_success gen now m io :
  let requested :=
    create_enhanced_package gen FULL "context-warning-10pct" false None io in
  let created := _create_base_context gen now m io in
  let s := monitor_state m in
  let s' := monitor_state created.1.2 in
  created.2 = requested.2
  /\ match requested.1 with
     | PackageCreated snapshot_id _ _ _ _ _ =>
         base_context_created s' = true
         /\ base_context_snapshot s' = VStr snapshot_id
         /\ base_context_timestamp s' = Some now
         /\ conversation_exchanges_since_base s' = 0
         /\ warning_triggered s' = warning_triggered s
         /\ critical_triggered s' = critical_triggered s
         /\ estimated_context_usage s' = estimated_context_usage s
         /\ state_file created.1.2 = Some s'
         /\ created.1.1 !! "success" = Some (VBool true)
         /\ created.1.1 !! "backup_type" = Some (VStr "base_context")
         /\ created.1.1 !! "base_context_snapshot" = Some (VStr snapshot_id)
     | PackageFailed error_msg =>
         created.1.2 = m
         /\ created.1.1
            = {[ "success" := VBool false; "error" := VStr error_msg ]}
     end.
Proof.
  cbn zeta. unfold _create_base_context.
  destruct (create_enhanced_package gen FULL "context-warning-10pct"
                                    false None io) as [r io'].
  destruct r as [sid num title files size location | msg]; cbn [fst snd].
  - change (get_truthy (package_dict FULL
                          (PackageCreated sid num title files size location))
                       "success") with true.
    cbn iota. repeat split; reflexivity.
  - change (get_truthy (package_dict FULL (PackageFailed msg)) "success")
      with false.
    cbn iota. repeat split; reflexivity.
Qed.
(** X8. Once both one-shot flags are set, [monitor_conversation] fires
    nothing more, whatever the text says: it returns no trigger, reads no
    input and does not call the generator; the flags stay set. *)
Theorem monitor_conversation_silent_once_fired now m text io
        (Hwarning : warning_triggered (monitor_state m) = true)
        (Hcritical : critical_triggered (monitor_state m) = true) :
  let called := monitor_conversation now m text io in
  called.1.1 = Returned None
  /\ called.2 = io
  /\ warning_triggered (monitor_state called.1.2) = true
  /\ critical_triggered (monitor_state called.1.2) = true.
Proof.
  cbn zeta. unfold monitor_conversation.
  destruct (config_enabled (config m) "context_monitoring"); cbn [negb];
    [|now repeat split].
  destruct (check_context_cases now (increment_exchange_count now m) text)
    as [ | | ]; try (cbn in Hflag; congruence).
  destruct (check_context_thresholds now (increment_exchange_count now m) text)
    as [r m2]; cbn [fst snd] in *.
  rewrite Hc, Hw. cbn [fst snd]. rewrite Hs. cbn.
  now repeat split.
Qed.

(** X9. At the warning prompt an answer other than yes creates no
    package: "n" or "no" (in any case, with blanks around) declines, any
    other answer is taken as no without asking again; the monitor and the
    generator's store are left as they were and one line of input is
    used.  With no input left the prompt raises [EOFError]. *)
Theorem warning_prompt_declined now m gen line rest w
        (Hgenerator : generator m = Some gen)
        (Hanswer : str_in (lower (strip line)) ["y"; "yes"] = false) :
  handle_warning_trigger now m None (MkIO (line :: rest) w)
  = (Returned
       (skipped (if str_in (lower (strip line)) ["n"; "no"]
                 then "User declined base context backup"
                 else "Invalid input, defaulted to no")),
     m, MkIO rest w)
  /\ handle_warning_trigger now m None (MkIO [] w)
     = (Raised "EOFError", m, MkIO [] w).
Proof.
  unfold handle_warning_trigger, read_choice. rewrite Hgenerator.
  cbn [input stdin world]. rewrite Hanswer.
  split; [|reflexivity].
  now destruct (str_in (lower (strip line)) ["n"; "no"]).
Qed.

(** X10. The critical handler asks a generator for a COMPLEX package made
    by the monitor itself: a delta session over the exchanges since the
    base context, and never fewer than 3, when a base context exists, a
    full backup otherwise.  A created package is returned with its kind
    (and, for a delta, the base snapshot and the exchanges covered); a
    failure is returned as the generator reported it.  The handler leaves
    the monitor as it was: the exchange counter is not reset. *)
Theorem critical_handler_request gen m io
        (Hgenerator : generator m = Some gen) :
  let s := monitor_state m in
  let delta_exchanges := Z.max (conversation_exchanges_since_base s) 3 in
  let requested :=
    if base_context_created s
    then create_enhanced_package gen COMPLEX "context-critical-5pct-delta"
                                 true (Some delta_exchanges) io
    else create_enhanced_package gen COMPLEX "context-critical-5pct-full"
                                 true None io in
  let handled := handle_critical_trigger m io in
  3 <= delta_exchanges
  /\ handled.1.2 = m
  /\ stdin handled.2 = stdin requested.2
  /\ match requested.1 with
     | PackageCreated snapshot_id _ _ _ _ _ =>
         handled.1.1 !! "success" = Some (VBool true)
         /\ handled.1.1 !! "snapshot_id" = Some (VStr snapshot_id)
         /\ if base_context_created s
            then handled.1.1 !! "backup_type" = Some (VStr "delta_session")
                 /\ handled.1.1 !! "delta_exchanges"
                    = Some (VInt delta_exchanges)
                 /\ handled.1.1 !! "base_context_snapshot"
                    = Some (base_context_snapshot s)
            else handled.1.1 !! "backup_type" = Some (VStr "full_critical")
     | PackageFailed error_msg =>
         handled.1.1
         = {[ "success" := VBool false; "error" := VStr error_msg ]}
     end.
Proof.
  cbn zeta. split; [lia|]. split; [apply handle_critical_trigger_monitor|].
  unfold handle_critical_trigger. rewrite Hgenerator.
  destruct (base_context_created (monitor_state m)).
  - unfold _create_delta_session.
    destruct (create_enhanced_package gen COMPLEX _ _ _ io) as [r io'].
    destruct r as [sid num title files size location | msg]; cbn [fst snd].
    + change (get_truthy (package_dict COMPLEX
                            (PackageCreated sid num title files size location))
                         "success") with true.
      cbn iota.
      change (package_dict COMPLEX
                (PackageCreated sid num title files size location)
                !! "snapshot_id") with (Some (VStr sid)).
      cbn iota. cbn [fst snd stdin]. repeat split; reflexivity.
    + change (get_truthy (package_dict COMPLEX (PackageFailed msg)) "success")
        with false.
      cbn iota. split; reflexivity.
  - unfold _create_full_critical_backup.
    destruct (create_enhanced_package gen COMPLEX _ _ _ io) as [r io'].
    destruct r as [sid num title files size location | msg]; cbn [fst snd].
    + change (get_truthy (package_dict COMPLEX
                            (PackageCreated sid num title files size location))
                         "success") with true.
      cbn iota. repeat split; reflexivity.
    + change (get_truthy (package_dict COMPLEX (PackageFailed msg)) "success")
        with false.
      cbn iota. split; reflexivity.
Qed.

(** X11. A call of [monitor_conversation] with monitoring enabled counts
    one exchange; the counter goes back to 0 only in a call that crosses
    the warning threshold and gets its base context created.  With
    monitoring disabled the call changes nothing, reads nothing and
    returns no trigger. *)
Theorem monitor_conversation_counts_exchange now m text io :
  let called := monitor_conversation now m text io in
  let s := monitor_state m in
  let s' := monitor_state called.1.2 in
  if config_enabled (config m) "context_monitoring"
  then conversation_exchanges_since_base s'
       = conversation_exchanges_since_base s + 1
       \/ (conversation_exchanges_since_base s' = 0
           /\ base_context_created s' = true
           /\ warning_triggered s = false
           /\ warning_triggered s' = true)
  else called = (Returned None, m, io).
Proof.
  cbn zeta.
  destruct (monitor_conversation_monitor now m text io)
    as [[Hoff Hm] | [Hon Hm]]; rewrite ?Hoff, ?Hon.
  - unfold monitor_conversation. now rewrite Hoff.
  - destruct (check_context_cases now (increment_exchange_count now m) text)
      as [ | | ];
      (destruct Hm as [-> | [Hcrossed [snapshot ->]]];
       [left; rewrite Hs; reflexivity
       | try congruence; right; rewrite Hs; cbn in Hflag; now repeat split]).
Qed.
End ContextRuns.

(** X8 at work: a monitor whose two flags are set reads a text that
    reports 99%. *)
Lemma monitor_conversation_silent_once_fired_witness :
  let m :=
    (ContextMonitor.check_context_thresholds
       4 Sample.fired_context_monitor "92% context").2 in
  (ContextMonitor.monitor_conversation 5 m "99% context" Sample.answers).1.1
  = Returned None
  /\ (ContextMonitor.monitor_conversation 5 m "99% context" Sample.answers).2
     = Sample.answers.
Proof.
  cbv zeta.
  destruct (monitor_conversation_silent_once_fired
              5 (ContextMonitor.check_context_thresholds
                   4 Sample.fired_context_monitor "92% context").2
              "99% context" Sample.answers eq_refl eq_refl)
    as (Hnone & Hio & _).
  split; [exact Hnone | exact Hio].
Defined.

(** X9 at work: the answer " No " declines; the answer "maybe" is taken as
    no. *)
Lemma warning_prompt_declined_witness :
  ContextMonitor.handle_warning_trigger
    3 Sample.context_monitor None (MkIO [" No "; "2"] 0)
  = (Returned (ContextMonitor.skipped "User declined base context backup"),
     Sample.context_monitor, MkIO ["2"] 0).
Proof.
  exact (proj1 (warning_prompt_declined
                  3 Sample.context_monitor Sample.generator " No " ["2"] 0
                  eq_refl eq_refl)).
Defined.

(** X10 at work: no base context, so the critical handler asks for a full
    backup. *)
Lemma critical_handler_request_witness :
  (ContextMonitor.handle_critical_trigger
     Sample.fired_context_monitor (MkIO [] 0)).1.1 !! "backup_type"
  = Some (VStr "full_critical").
Proof.
  destruct (critical_handler_request
              Sample.generator Sample.fired_context_monitor (MkIO [] 0)
              eq_refl) as (_ & _ & _ & Hresult).
  exact (proj2 (proj2 Hresult)).
Defined.

(** ** The credit monitor: detection and prompts *)

Section CreditPrompts.
Context {World : Type}.
Implicit Types (gen : EnhancedPackageGenerator World)
         (w : CreditMonitor.warning_info).

Import CreditMonitor.

Definition warning_types : list string :=
  ["daily_limit"; "upgrade_suggestion"; "low_credits"; "session_pause";
   "general_limit"].

Lemma classify_warning_type_known message :
  In (_classify_warning_type message) warning_types.
Proof.
  unfold _classify_warning_type, warning_types.
  repeat match goal with
         | |- context [if ?b then _ else _] => destruct b
         end; cbn; tauto.
Qed.

Lemma matching_patterns_length ps text :
  (length (matching_patterns ps text) <= length ps)%nat.
Proof.
  unfold matching_patterns. rewrite length_map. apply length_filter.
Qed.

Lemma matching_patterns_nil ps text :
  matching_patterns ps text = [] ->
  Forall (fun p => search p text = None) ps.
Proof.
  unfold matching_patterns. intros H.
  apply Forall_forall. intros p Hp.
  destruct (search p text) as [found|] eqn:Hs; [|reflexivity].
  assert (Hin : pat_source p
                ∈ map pat_source
                    (filter (fun p => is_Some (search p text)) ps)).
  { apply list_elem_of_fmap. exists p. split; [reflexivity|].
    apply list_elem_of_filter. split; [|exact Hp]. rewrite Hs. eauto. }
  rewrite H in Hin. now apply not_elem_of_nil in Hin.
Qed.

(** X12. A message is reported as a credit warning exactly when one of
    the nine patterns is found in its lower-cased text.  The report then
    lists the patterns found, in the order of the pattern list, keeps the
    message as it came, gives one of the five warning types, and its
    confidence is the share of the patterns found: above 0 and at most
    1. *)
Theorem detection_report message :
  match detect_credit_warning message with
  | NotDetected =>
      Forall (fun p => search p (lower message) = None) credit_patterns
  | Detected w =>
      patterns_matched w = matching_patterns credit_patterns (lower message)
      /\ patterns_matched w <> []
      /\ original_message w = message
      /\ In (warning_type w) warning_types
      /\ resume_time w = _extract_resume_time message
      /\ confidence w
         = (inject_Z (Z.of_nat (length (patterns_matched w))) / 9)%Q
      /\ (0 < confidence w <= 1)%Q
  end.
Proof.
  unfold detect_credit_warning.
  pose proof (matching_patterns_length credit_patterns (lower message)) as Hlen.
  destruct (matching_patterns credit_patterns (lower message))
    as [|src srcs] eqn:Hm.
  - now apply matching_patterns_nil.
  - cbn [patterns_matched original_message warning_type resume_time
         confidence].
    split; [reflexivity|]. split; [discriminate|]. split; [reflexivity|].
    split; [apply classify_warning_type_known|]. split; [reflexivity|].
    split; [reflexivity|].
    change (length credit_patterns) with 9%nat in *.
    change (Z.of_nat 9) with 9.
    unfold Qlt, Qle, Qdiv, Qmult, Qinv, inject_Z.
    cbn [Qnum Qden length] in *. lia.
Qed.

(** An answer that is neither yes nor no. *)
Definition unclear (line : string) : Prop :=
  str_in (lower (strip line)) ["y"; "yes"] = false
  /\ str_in (lower (strip line)) ["n"; "no"] = false.

(** A package choice that is none of 1, 2 and 3. *)
Definition no_choice (line : string) : Prop :=
  String.eqb (strip line) "1" = false
  /\ String.eqb (strip line) "2" = false
  /\ String.eqb (strip line) "3" = false.

Lemma ask_backup_unclear gen w unclear_lines lines wd :
  Forall unclear unclear_lines ->
  ask_backup gen w (unclear_lines ++ lines) wd = ask_backup gen w lines wd.
Proof.
  induction 1 as [|line rest [Hy Hn] _ IH]; cbn [app]; [reflexivity|].
  cbn [ask_backup]. now rewrite Hy, Hn.
Qed.

Lemma show_backup_options_no_choice gen w bad_lines lines wd :
  Forall no_choice bad_lines ->
  _show_backup_options gen w (bad_lines ++ lines) wd
  = _show_backup_options gen w lines wd.
Proof.
  induction 1 as [|line rest (H1 & H2 & H3) _ IH]; cbn [app]; [reflexivity|].
  cbn [_show_backup_options]. now rewrite H1, H2, H3.
Qed.

(** The tier a choice stands for. *)
Definition tier_of_choice (t : PackageType) : string :=
  match t with LIGHT => "1" | FULL => "2" | COMPLEX => "3" end.

(** X13. With the prompt enabled and a generator at hand, the backup
    prompt asks again after every answer that is neither yes nor no, and
    the package menu after every choice that is none of 1, 2 and 3: such
    lines are read and dropped.  A no returns the "skipped" result and
    leaves the rest of the input; a yes followed by a choice runs the
    backup of the chosen tier on the input that is left; running out of
    input at either question raises [EOFError]. *)
Theorem backup_prompt_asks_again (m : CreditMonitor World) gen w
        unclear_lines bad_choices rest wd
        (Henabled : config_enabled (config m) "credit_auto_trigger" = true)
        (Hgenerator : generator m = Some gen)
        (Hunclear : Forall unclear unclear_lines)
        (Hbad : Forall no_choice bad_choices) :
  trigger_backup_prompt m w (MkIO (unclear_lines ++ "n" :: rest) wd)
  = (Returned (skipped "User chose to skip backup"), MkIO rest wd)
  /\ (forall t,
        trigger_backup_prompt
          m w (MkIO (unclear_lines ++ "yes"
                       :: bad_choices ++ tier_of_choice t :: rest) wd)
        = let '(d, io) :=
            _execute_threshold_backup gen (PackageType_value t) w
                                      (MkIO rest wd) in
          (Returned d, io))
  /\ trigger_backup_prompt m w (MkIO unclear_lines wd)
     = (Raised "EOFError", MkIO [] wd)
  /\ trigger_backup_prompt
       m w (MkIO (unclear_lines ++ "y" :: bad_choices) wd)
     = (Raised "EOFError", MkIO [] wd).
Proof.
  unfold trigger_backup_prompt. rewrite Henabled, Hgenerator.
  cbn [negb stdin world].
  split; [|split; [|split]].
  - rewrite ask_backup_unclear by exact Hunclear. reflexivity.
  - intros t. rewrite ask_backup_unclear by exact Hunclear.
    change (ask_backup gen w
              ("yes" :: bad_choices ++ tier_of_choice t :: rest) wd)
      with (_show_backup_options gen w
              (bad_choices ++ tier_of_choice t :: rest) wd).
    rewrite show_backup_options_no_choice by exact Hbad.
    now destruct t.
  - rewrite <- (app_nil_r unclear_lines).
    rewrite ask_backup_unclear by exact Hunclear. reflexivity.
  - rewrite ask_backup_unclear by exact Hunclear.
    change (ask_backup gen w ("y" :: bad_choices) wd)
      with (_show_backup_options gen w bad_choices wd).
    rewrite <- (app_nil_r bad_choices).
    rewrite show_backup_options_no_choice by exact Hbad. reflexivity.
Qed.

(** X14. A threshold backup asks the generator for a package of the
    chosen tier (FULL when the tier's name is not a known one), made by
    the monitor itself, with the reason "threshold-" followed by the
    warning type and no exchange count.  Whatever the generator answers,
    its answer is returned with three entries added: the mark
    [threshold_triggered], the title "Threshold backup", followed by the
    resume time in parentheses when there is one, and the warning report;
    a failure keeps its error message. *)
Theorem threshold_backup_request gen package_type w io :
  let tier :=
    if String.eqb package_type "light" then LIGHT
    else if String.eqb package_type "complex" then COMPLEX
    else FULL in
  let requested :=
    create_enhanced_package gen tier ("threshold-" +:+ warning_type w)
                            true None io in
  let done := _execute_threshold_backup gen package_type w io in
  let title :=
    match resume_time w with
    | Some t => if String.eqb t "" then "Threshold backup"
                else "Threshold backup (resume " +:+ t +:+ ")"
    | None => "Threshold backup"
    end in
  stdin done.2 = stdin requested.2
  /\ done.1 !! "threshold_triggered" = Some (VBool true)
  /\ done.1 !! "backup_title" = Some (VStr title)
  /\ done.1 !! "warning_info" = Some (VDict (warning_info_dict w))
  /\ match requested.1 with
     | PackageCreated snapshot_id _ _ _ _ _ =>
         done.1 !! "success" = Some (VBool true)
         /\ done.1 !! "snapshot_id" = Some (VStr snapshot_id)
         /\ done.1 !! "package_type" = Some (VStr (PackageType_value tier))
     | PackageFailed error_msg =>
         done.1 !! "success" = Some (VBool false)
         /\ done.1 !! "error" = Some (VStr error_msg)
     end.
Proof.
  cbn zeta. unfold _execute_threshold_backup, _generate_threshold_title.
  assert (Htier :
            (if String.eqb package_type "light" then LIGHT
             else if String.eqb package_type "full" then FULL
             else if String.eqb package_type "complex" then COMPLEX
             else FULL)
            = (if String.eqb package_type "light" then LIGHT
               else if String.eqb package_type "complex" then COMPLEX
               else FULL)).
  { destruct (String.eqb package_type "light"); [reflexivity|].
    destruct (String.eqb package_type "full") eqn:Hfull; [|reflexivity].
    apply String.eqb_eq in Hfull. now subst. }
  rewrite Htier. clear Htier.
  set (tier := if String.eqb package_type "light" then LIGHT
               else if String.eqb package_type "complex" then COMPLEX
               else FULL).
  destruct (create_enhanced_package gen tier _ true None io) as [r io'].
  assert (Htitle :
            "Threshold backup"
            +:+ match resume_time w with
                | Some t => if String.eqb t "" then ""
                            else " (resume " +:+ t +:+ ")"
                | None => ""
                end
            = match resume_time w with
              | Some t => if String.eqb t "" then "Threshold backup"
                          else "Threshold backup (resume " +:+ t +:+ ")"
              | None => "Threshold backup"
              end).
  { destruct (resume_time w) as [t|]; [|reflexivity].
    now destruct (String.eqb t ""). }
  rewrite Htitle. clear Htitle. cbn [fst snd].
  split.
  { destruct (package_dict tier r !! "snapshot_id") as [[| | | |sid| |]|];
      try reflexivity.
    now destruct (String.eqb sid ""). }
  destruct r as [sid num title files size location | msg];
    repeat split; reflexivity.
Qed.
End CreditPrompts.

(** X13 at work: two unclear answers, then a no. *)
Lemma backup_prompt_asks_again_witness :
  CreditMonitor.trigger_backup_prompt
    (CreditMonitor.init None (Some Sample.generator)) Sample.some_warning
    (MkIO ["maybe"; ""; "n"; "later"] 0)
  = (Returned (CreditMonitor.skipped "User chose to skip backup"),
     MkIO ["later"] 0).
Proof.
  refine (proj1 (backup_prompt_asks_again
                   (CreditMonitor.init None (Some Sample.generator))
                   Sample.generator Sample.some_warning
                   ["maybe"; ""] ["4"; "full"] ["later"] 0
                   eq_refl eq_refl _ _));
    repeat (constructor || split); reflexivity.
Defined.

(** ** The session monitor: time left, checks and runs *)

Section SessionRuns.
Context {World : Type}.
Implicit Types (m : SessionMonitor.SessionDurationMonitor World)
         (gen : EnhancedPackageGenerator World).

Import SessionMonitor.

Lemma hours_of_mono (a b : Z) : a <= b -> (hours_of a <= hours_of b)%Q.
Proof.
  intros H. unfold hours_of, Qle, Qdiv, Qmult, Qinv, inject_Z. cbn. lia.
Qed.

Lemma get_session_duration_mono now now' m :
  now <= now' ->
  (get_session_duration now m <= get_session_duration now' m)%Q.
Proof.
  intros H. unfold get_session_duration.
  destruct (session_start (session_state m)); [|apply Qle_refl].
  apply hours_of_mono. lia.
Qed.

(** X15. The time remaining is never negative: it is the limit less the
    duration while the duration is within the limit and 0.0 from the limit
    on; and it does not grow as the clock advances. *)
Theorem time_remaining_bounds now now' m :
  let duration := get_session_duration now m in
  let remaining := get_time_remaining now m in
  (0 <= remaining)%Q
  /\ ((session_limit m <= duration)%Q -> (remaining == 0)%Q)
  /\ ((duration <= session_limit m)%Q ->
      (remaining == session_limit m - duration)%Q)
  /\ (now <= now' -> (get_time_remaining now' m <= remaining)%Q).
Proof.
  cbn zeta. unfold get_time_remaining.
  split; [apply Q.le_max_l|]. split; [|split].
  - intros H. apply Q.max_l.
    apply (Qplus_le_r _ _ (get_session_duration now m)). ring_simplify.
    exact H.
  - intros H. apply Q.max_r.
    apply (Qplus_le_r _ _ (get_session_duration now m)). ring_simplify.
    exact H.
  - intros H. apply Q.max_le_compat_l.
    apply Qplus_le_r, Qopp_le_compat. now apply get_session_duration_mono.
Qed.

(** X16. A duration check reports at most one of the three crossings, and
    the limit exactly when the duration has reached it.  It may set the
    flag of the crossing it reports, which it then saves, and changes
    nothing else: not the start of the session, not its name, not the
    counters, not the other flag. *)
Theorem session_check_reports_one now m :
  let checked := check_session_thresholds now m in
  let r := checked.1 in
  let s := session_state m in
  let s' := session_state checked.2 in
  (session_limit_exceeded r = true
   <-> (session_limit m <= get_session_duration now m)%Q)
  /\ code_orange_crossed r && code_yellow_crossed r = false
  /\ session_limit_exceeded r && code_orange_crossed r = false
  /\ session_limit_exceeded r && code_yellow_crossed r = false
  /\ session_start s' = session_start s
  /\ session_id s' = session_id s
  /\ last_activity s' = last_activity s
  /\ total_exchanges s' = total_exchanges s
  /\ emergency_backups_created s' = emergency_backups_created s
  /\ code_orange_triggered s'
     = code_orange_triggered s || code_orange_crossed r
  /\ code_yellow_triggered s'
     = code_yellow_triggered s || code_yellow_crossed r
  /\ (code_orange_crossed r || code_yellow_crossed r = true ->
      session_file checked.2 = Some s').
Proof.
  cbn zeta.
  destruct (check_session_cases now m); rewrite Hl, Ho, Hy, Hs; cbn.
  - repeat split; auto using orb_false_r; try discriminate.
  - rewrite Hflag.
    repeat split; auto using orb_false_r; try discriminate; contradiction.
  - rewrite Hflag.
    repeat split; auto using orb_false_r; try discriminate; contradiction.
  - repeat split; auto using orb_false_r; try discriminate; contradiction.
Qed.

(** What [trigger_code_yellow] leaves of the monitor: the monitor as it
    was, or the monitor with one more emergency backup, saved. *)
Lemma trigger_code_yellow_monitor now m io :
  (trigger_code_yellow now m io).1.2 = m
  \/ (trigger_code_yellow now m io).1.2
     = _save_session_state
         (with_state
            (set_emergency_backups_created
               (emergency_backups_created (session_state m) + 1)
               (session_state m)) m).
Proof.
  unfold trigger_code_yellow.
  destruct (generator m) as [gen|]; [|now left].
  destruct (create_enhanced_package _ _ _ _ _ _) as [r io'].
  destruct (get_truthy _ _); [|now left].
  destruct (package_dict COMPLEX r !! "snapshot_id") as [[| | | |sid| |]|];
    try now left.
  now right.
Qed.

(** Nothing cleared, moved or lowered from [s] to [s']. *)
Definition session_kept (s s' : state) : Prop :=
  Bool.le (code_yellow_triggered s) (code_yellow_triggered s')
  /\ Bool.le (code_orange_triggered s) (code_orange_triggered s')
  /\ session_start s' = session_start s
  /\ session_id s' = session_id s
  /\ total_exchanges s <= total_exchanges s'
  /\ emergency_backups_created s <= emergency_backups_created s'.

Lemma session_kept_refl s : session_kept s s.
Proof. repeat split; first [apply bool_le_refl | lia]. Qed.

Lemma session_kept_trans s1 s2 s3 :
  session_kept s1 s2 -> session_kept s2 s3 -> session_kept s1 s3.
Proof.
  intros (Hy & Ho & Hs & Hi & Ht & He) (Hy' & Ho' & Hs' & Hi' & Ht' & He').
  repeat split; try (eapply bool_le_trans; eassumption);
    try congruence; lia.
Qed.

Lemma check_session_kept now m :
  session_kept (session_state m)
               (session_state (check_session_thresholds now m).2).
Proof.
  destruct (check_session_cases now m); rewrite Hs;
    repeat split; cbn;
    first [apply bool_le_refl | apply bool_le_true | lia].
Qed.

Lemma trigger_code_yellow_kept now m io :
  session_kept (session_state m)
               (session_state (trigger_code_yellow now m io).1.2).
Proof.
  destruct (trigger_code_yellow_monitor now m io) as [-> | ->].
  - apply session_kept_refl.
  - repeat split; cbn; first [apply bool_le_refl | lia].
Qed.

Lemma session_step_kept now op m io :
  session_kept (session_state m)
               (session_state (Runs.session_step now op m io).1).
Proof.
  destruct op; cbn [Runs.session_step fst].
  - apply check_session_kept.
  - unfold monitoring_step.
    destruct (config_enabled (config m) "session_monitoring");
      [|apply session_kept_refl].
    pose proof (check_session_kept now m) as Hcheck.
    destruct (check_session_thresholds now m) as [r m1]; cbn [snd] in Hcheck.
    destruct (code_yellow_crossed r); [|exact Hcheck].
    destruct (config_enabled (config m1) "auto_code_yellow");
      [|exact Hcheck].
    pose proof (trigger_code_yellow_kept now m1 io) as Htrigger.
    destruct (trigger_code_yellow now m1 io) as [[d m2] io'].
    eapply session_kept_trans; eassumption.
  - repeat split; cbn; first [apply bool_le_refl | lia].
  - pose proof (trigger_code_yellow_kept now m io) as Htrigger.
    destruct (trigger_code_yellow now m io) as [[d m2] io']. exact Htrigger.
Qed.

(** X17. While a session runs, nothing the monitor does (threshold
    checks, turns of its polling loop, activity updates, Code Yellow
    backups, in any order and at any times) clears a one-shot flag, moves
    the start of the session, renames it or lowers a counter. *)
Theorem session_run_keeps_session ops : forall m io,
  let s := session_state m in
  let s' := session_state (Runs.session_run ops m io).1 in
  Bool.le (code_yellow_triggered s) (code_yellow_triggered s')
  /\ Bool.le (code_orange_triggered s) (code_orange_triggered s')
  /\ session_start s' = session_start s
  /\ session_id s' = session_id s
  /\ total_exchanges s <= total_exchanges s'
  /\ emergency_backups_created s <= emergency_backups_created s'.
Proof.
  induction ops as [|[now op] ops IH]; intros m io; cbn zeta.
  - apply session_kept_refl.
  - cbn [Runs.session_run].
    pose proof (session_step_kept now op m io) as Hstep.
    destruct (Runs.session_step now op m io) as [m1 io1].
    eapply session_kept_trans; [exact Hstep | apply IH].
Qed.
End SessionRuns.

(** ** The session monitor: Code Yellow *)

Section CodeYellow.
Context {World : Type}.
Implicit Types (m : SessionMonitor.SessionDurationMonitor World)
         (gen : EnhancedPackageGenerator World).

Import SessionMonitor.

(** X18. A Code Yellow backup asks the generator for one complex package,
    created automatically with ten exchanges of conversation.  When the
    package is created the backup is counted, the document saved, the
    snapshot's metadata rewritten under the title with the duration to one
    decimal, the emergency file written and the result marked; when the
    generator reports a failure its dictionary is returned as it is and
    the monitor does not change.  Either way the one-shot flags, the start
    of the session and the exchange counter are as before. *)
Theorem code_yellow_backup_recorded gen now m0 io :
  let m := MkMonitor (config m0) (session_state m0) (session_file m0)
                     (session_limit m0) (code_yellow_threshold m0)
                     (code_orange_threshold m0) (monitoring_thread m0)
                     (stop_monitoring m0) (Some gen) in
  let requested :=
    create_enhanced_package gen COMPLEX "code-yellow-session-limit" true
                            (Some 10) io in
  let triggered := trigger_code_yellow now m io in
  let backup_title :=
    "Code Yellow (Session " +:+ format_1f (get_session_duration now m)
      +:+ "h)" in
  let s := session_state m in
  let s' := session_state triggered.1.2 in
  code_yellow_triggered s' = code_yellow_triggered s
  /\ code_orange_triggered s' = code_orange_triggered s
  /\ session_start s' = session_start s
  /\ total_exchanges s' = total_exchanges s
  /\ stdin triggered.2 = stdin requested.2
  /\ match requested.1 with
     | PackageCreated snapshot_id _ _ _ _ _ =>
         emergency_backups_created s' = emergency_backups_created s + 1
         /\ session_file triggered.1.2 = Some s'
         /\ (exists metadata : dict,
               metadata !! "title" = Some (VStr backup_title)
               /\ metadata !! "total_exchanges"
                  = Some (VInt (total_exchanges s))
               /\ world triggered.2
                  = write_emergency_file gen snapshot_id
                      (update_metadata gen snapshot_id metadata
                                       (world requested.2)))
         /\ triggered.1.1 !! "success" = Some (VBool true)
         /\ triggered.1.1 !! "snapshot_id" = Some (VStr snapshot_id)
         /\ triggered.1.1 !! "code_yellow_triggered" = Some (VBool true)
         /\ triggered.1.1 !! "backup_title" = Some (VStr backup_title)
     | PackageFailed error_msg =>
         triggered.1.2 = m
         /\ world triggered.2 = world requested.2
         /\ triggered.1.1
            = {[ "success" := VBool false; "error" := VStr error_msg ]}
     end.
Proof.
  cbn zeta. unfold trigger_code_yellow. cbn [generator].
  destruct (create_enhanced_package gen COMPLEX "code-yellow-session-limit"
                                    true (Some 10) io) as [r io'].
  destruct r as [sid num title files size location | msg]; cbn [fst snd].
  - change (get_truthy (package_dict COMPLEX
                          (PackageCreated sid num title files size location))
                       "success") with true.
    cbn iota.
    change (package_dict COMPLEX
              (PackageCreated sid num title files size location)
              !! "snapshot_id") with (Some (VStr sid)).
    cbn iota. cbn [fst snd stdin world].
    repeat split; try reflexivity.
    eexists. split; [|split; [|reflexivity]]; reflexivity.
  - change (get_truthy (package_dict COMPLEX (PackageFailed msg)) "success")
      with false.
    cbn iota. repeat split; reflexivity.
Qed.

Lemma check_session_duration_kept now now' m :
  get_session_duration now' (check_session_thresholds now m).2
  = get_session_duration now' m.
Proof. destruct (check_session_cases now m); rewrite Hs; reflexivity. Qed.

Lemma check_session_config now m :
  config (check_session_thresholds now m).2 = config m.
Proof. destruct (check_session_cases now m); rewrite Hs; reflexivity. Qed.

Lemma check_session_generator now m :
  generator (check_session_thresholds now m).2 = generator m.
Proof. destruct (check_session_cases now m); rewrite Hs; reflexivity. Qed.

(** With the flag set, a turn of the polling loop makes no backup. *)
Lemma monitoring_step_after_yellow now m io :
  code_yellow_triggered (session_state m) = true ->
  (monitoring_step now m io).2 = io.
Proof.
  intros Hflag. unfold monitoring_step.
  destruct (config_enabled (config m) "session_monitoring"); [|reflexivity].
  destruct (check_session_cases now m); try congruence;
    destruct (check_session_thresholds now m) as [r m1]; cbn [fst snd] in *;
    rewrite Hy; reflexivity.
Qed.

Lemma polls_after_yellow ops : forall m io,
  code_yellow_triggered (session_state m) = true ->
  (Runs.session_run (map (fun t => (t, Runs.Poll)) ops) m io).2 = io.
Proof.
  induction ops as [|t ops IH]; intros m io Hflag; [reflexivity|].
  cbn [map Runs.session_run Runs.session_step].
  pose proof (monitoring_step_after_yellow t m io Hflag) as Hio.
  pose proof (session_step_kept t Runs.Poll m io) as Hkept.
  cbn [Runs.session_step] in Hkept.
  destruct (monitoring_step t m io) as [m1 io1]; cbn [fst snd] in *.
  subst io1. apply IH.
  destruct Hkept as [Hkept _]. rewrite Hflag in Hkept.
  destruct (code_yellow_triggered (session_state m1)); [reflexivity|].
  now cbn in Hkept.
Qed.

(** X19. With [auto_code_yellow] switched off, the turn of the polling
    loop that sees Code Yellow crossed uses the one-shot flag up and makes
    no backup; as the flag stays set until the session is started again or
    reset, no later turn of the loop makes one either. *)
Theorem code_yellow_without_auto now m io
        (Hmonitoring : config_enabled (config m) "session_monitoring" = true)
        (Hauto : config_enabled (config m) "auto_code_yellow" = false)
        (Hcrossed :
           code_yellow_crossed (check_session_thresholds now m).1 = true) :
  let polled := monitoring_step now m io in
  polled.2 = io
  /\ code_yellow_triggered (session_state polled.1) = true
  /\ emergency_backups_created (session_state polled.1)
     = emergency_backups_created (session_state m)
  /\ forall ops io',
       (Runs.session_run (map (fun t => (t, Runs.Poll)) ops) polled.1 io').2
       = io'.
Proof.
  cbn zeta.
  assert (Hstep : monitoring_step now m io
                  = ((check_session_thresholds now m).2, io)).
  { unfold monitoring_step. rewrite Hmonitoring.
    pose proof (check_session_config now m) as Hconfig.
    destruct (check_session_thresholds now m) as [r m1];
      cbn [fst snd] in *.
    now rewrite Hcrossed, Hconfig, Hauto. }
  rewrite Hstep. cbn [fst snd].
  assert (Hflag : code_yellow_triggered
                    (session_state (check_session_thresholds now m).2)
                  = true
                  /\ emergency_backups_created
                       (session_state (check_session_thresholds now m).2)
                     = emergency_backups_created (session_state m)).
  { destruct (check_session_cases now m); try congruence.
    rewrite Hs. split; reflexivity. }
  destruct Hflag as [Hflag Hbackups].
  split; [reflexivity|]. split; [exact Hflag|]. split; [exact Hbackups|].
  intros ops io'. now apply polls_after_yellow.
Qed.

(** The durations from Code Orange up to the limit. *)
Definition orange_band now m : Prop :=
  (code_orange_threshold m <= get_session_duration now m)%Q
  /\ (get_session_duration now m < session_limit m)%Q.

(** X20. Code Orange comes before Code Yellow: when the first check of a
    session is made with the duration already past both thresholds and
    short of the limit, it reports Code Orange alone, the next one reports
    Code Yellow, and the one after that reports nothing. *)
Theorem code_orange_before_code_yellow now1 now2 now3 m
        (Horange : code_orange_triggered (session_state m) = false)
        (Hyellow : code_yellow_triggered (session_state m) = false)
        (Horder : (code_yellow_threshold m <= code_orange_threshold m)%Q)
        (Hfirst : orange_band now1 m)
        (Hsecond : orange_band now2 m)
        (Hthird : orange_band now3 m) :
  let first := check_session_thresholds now1 m in
  let second := check_session_thresholds now2 first.2 in
  let third := check_session_thresholds now3 second.2 in
  action_required first.1 = Some "code_orange"
  /\ code_yellow_crossed first.1 = false
  /\ action_required second.1 = Some "code_yellow"
  /\ code_orange_crossed second.1 = false
  /\ action_required third.1 = None
  /\ code_orange_crossed third.1 = false
  /\ code_yellow_crossed third.1 = false.
Proof.
  cbn zeta.
  destruct Hfirst as [Ho1 Hl1], Hsecond as [Ho2 Hl2], Hthird as [Ho3 Hl3].
  assert (Hcheck : forall now (m' : SessionDurationMonitor World),
            session_limit m' = session_limit m ->
            code_orange_threshold m' = code_orange_threshold m ->
            code_yellow_threshold m' = code_yellow_threshold m ->
            get_session_duration now m' = get_session_duration now m ->
            (code_orange_threshold m <= get_session_duration now m)%Q ->
            (get_session_duration now m < session_limit m)%Q ->
            check_session_thresholds now m'
            = let s := session_state m' in
              let duration := get_session_duration now m' in
              let time_remaining := get_time_remaining now m' in
              if negb (code_orange_triggered s) then
                (MkCheck duration time_remaining (time_remaining * 60)%Q
                         true false false (Some "code_orange")
                         (Some CodeOrangeMessage),
                 _save_session_state
                   (with_state (set_code_orange_triggered true s) m'))
              else if negb (code_yellow_triggered s) then
                (MkCheck duration time_remaining (time_remaining * 60)%Q
                         false true false (Some "code_yellow")
                         (Some CodeYellowMessage),
                 _save_session_state
                   (with_state (set_code_yellow_triggered true s) m'))
              else
                (MkCheck duration time_remaining (time_remaining * 60)%Q
                         false false false None None, m')).
  { intros now m' El Eo Ey Ed Ho Hl. unfold check_session_thresholds.
    rewrite El, Eo, Ey, Ed.
    assert (Qle_bool (session_limit m) (get_session_duration now m) = false)
      as ->.
    { destruct (Qle_bool _ _) eqn:E; [|reflexivity].
      apply Qle_bool_iff in E. exfalso. exact (Qlt_not_le _ _ Hl E). }
    assert (Qle_bool (code_orange_threshold m) (get_session_duration now m)
            = true) as -> by now apply Qle_bool_iff.
    assert (Qle_bool (code_yellow_threshold m) (get_session_duration now m)
            = true) as ->.
    { apply Qle_bool_iff. eapply Qle_trans; eassumption. }
    reflexivity. }
  rewrite (Hcheck now1 m) by auto. cbn zeta. rewrite Horange. cbn [negb fst snd].
  rewrite (Hcheck now2) by auto. cbn. rewrite Hyellow. cbn [negb fst snd].
  rewrite (Hcheck now3) by auto. cbn. repeat split; reflexivity.
Qed.
End CodeYellow.

(** X19 at work: a session 4h40m old polled with [auto_code_yellow] off. *)
Lemma code_yellow_without_auto_witness :
  (SessionMonitor.monitoring_step
     (4 * Sample.hour + 40 * Sample.minute)
     (SessionMonitor.start_session
        0 (SessionMonitor.init (Some {[ "auto_code_yellow" := VBool false ]})
                               None (Some Sample.generator))
        (Some "work")).2
     (MkIO [] 0)).2 = MkIO [] 0.
Proof.
  refine (proj1 (code_yellow_without_auto
                   (4 * Sample.hour + 40 * Sample.minute)
                   (SessionMonitor.start_session
                      0 (SessionMonitor.init
                           (Some {[ "auto_code_yellow" := VBool false ]})
                           None (Some Sample.generator))
                      (Some "work")).2
                   (MkIO [] 0) _ _ _)); reflexivity.
Defined.

(** X20 at work: a session first checked 4h50m after its start. *)
Lemma code_orange_before_code_yellow_witness :
  SessionMonitor.action_required
    (SessionMonitor.check_session_thresholds
       (4 * Sample.hour + 50 * Sample.minute) Sample.started_session).1
  = Some "code_orange".
Proof.
  refine (proj1 (code_orange_before_code_yellow
                   (4 * Sample.hour + 50 * Sample.minute)
                   (4 * Sample.hour + 51 * Sample.minute)
                   (4 * Sample.hour + 52 * Sample.minute)
                   Sample.started_session _ _ _ _ _ _));
    first [reflexivity | decide_numbers | split; decide_numbers].
Defined.

(** ** The coordinator: what is logged, and when *)

Section CoordinatorLog.
Context {World : Type}.
Implicit Types (c : Coordinator.MonitoringCoordinator World).

Import Coordinator Operations.

Lemma last_n_snoc {A} (n : nat) (l : list A) (x : A) :
  last_n (S n) (l ++ [x]) = (last_n n l ++ [x])%list.
Proof.
  unfold last_n. rewrite length_app. cbn [length].
  replace (length l + 1 - S n)%nat with (length l - n)%nat by lia.
  apply drop_app_le. lia.
Qed.

Lemma log_trigger_last now trigger_type trigger_result c :
  last (history (_log_trigger now trigger_type trigger_result c))
  = Some (event_of (now, trigger_type, trigger_result)).
Proof. rewrite log_trigger_history, last_n_snoc. apply last_snoc. Qed.

(** From [c] to [c'] exactly the trigger [e] was logged. *)
Definition logged (e : timestamp * string * dict) c c' : Prop :=
  fired c' = fired c + 1
  /\ history c' = last_n 10 (history c ++ [event_of e])
  /\ just_saved c'.

Lemma log_trigger_logged now trigger_type trigger_result c0 c :
  coordinator_state c0 = coordinator_state c ->
  logged (now, trigger_type, trigger_result) c
         (_log_trigger now trigger_type trigger_result c0).
Proof.
  intros Hs. split; [|split].
  - unfold fired. cbn. now rewrite Hs.
  - rewrite log_trigger_history. unfold history. now rewrite Hs.
  - reflexivity.
Qed.

Lemma check_context_window_logged now conversation_text c0 c io :
  same_documents c c0 ->
  let checked := check_context_window now conversation_text c0 io in
  match checked.1.1 with
  | None => same_documents c checked.1.2
  | Some d =>
      truthy (VDict d) = true /\ logged (now, "context_window", d) c checked.1.2
  end.
Proof.
  intros Hsame. cbn zeta. unfold check_context_window.
  destruct (context_monitor c0) as [xm|]; [|exact Hsame].
  destruct (negb _); [|exact Hsame].
  destruct (ContextMonitor.monitor_conversation _ _ _ _)
    as [[[[d|]|e] xm'] io']; cbn [fst snd]; try exact Hsame.
  destruct (truthy (VDict d)) eqn:Htruthy; cbn [fst snd]; [|exact Hsame].
  split; [exact Htruthy|]. apply log_trigger_logged. apply Hsame.
Qed.

(** X21. An activity update returns a trigger exactly when it logs one:
    when it returns nothing the coordinator's document is as it was, in
    memory and on disk; when it returns a result, that result is a
    non-empty dictionary, the counter went up by one, the document was
    saved, and the newest event of the history holds this very result
    under the time of the update, as a credit warning or as a context
    window trigger. *)
Theorem update_activity_logs_its_result
        now conversation_text claude_message c io :
  let updated :=
    update_activity now conversation_text claude_message c io in
  match updated.1.1 with
  | None =>
      coordinator_state updated.1.2 = coordinator_state c
      /\ coordinator_state_file updated.1.2 = coordinator_state_file c
  | Some d =>
      truthy (VDict d) = true
      /\ fired updated.1.2 = fired c + 1
      /\ coordinator_state_file updated.1.2
         = Some (coordinator_state updated.1.2)
      /\ exists trigger_type,
           (trigger_type = "credit_warning"
            \/ trigger_type = "context_window")
           /\ last (history updated.1.2)
              = Some (MkEvent now trigger_type d
                              (default (VBool false) (d !! "success")))
  end.
Proof.
  cbn zeta.
  assert (Hcontext : forall c0 io0, same_documents c c0 ->
            let checked := check_context_window now conversation_text c0 io0 in
            match checked.1.1 with
            | None =>
                coordinator_state checked.1.2 = coordinator_state c
                /\ coordinator_state_file checked.1.2
                   = coordinator_state_file c
            | Some d =>
                truthy (VDict d) = true
                /\ fired checked.1.2 = fired c + 1
                /\ coordinator_state_file checked.1.2
                   = Some (coordinator_state checked.1.2)
                /\ exists trigger_type,
                     (trigger_type = "credit_warning"
                      \/ trigger_type = "context_window")
                     /\ last (history checked.1.2)
                        = Some (MkEvent now trigger_type d
                                  (default (VBool false) (d !! "success")))
            end).
  { intros c0 io0 Hsame. cbn zeta.
    pose proof (check_context_window_logged
                  now conversation_text c0 c io0 Hsame) as H.
    cbn zeta in H.
    destruct (check_context_window now conversation_text c0 io0).1.1
      as [d|]; [|exact H].
    destruct H as (Htruthy & Hfired & Hhistory & Hsaved).
    repeat split; auto.
    exists "context_window". split; [now right|].
    rewrite Hhistory, last_n_snoc. apply last_snoc. }
  unfold update_activity.
  pose proof (record_session_activity_documents now c) as Hsame.
  destruct (credit_monitor _) as [cm|]; [|now apply Hcontext].
  destruct (negb _); [|now apply Hcontext].
  destruct (CreditMonitor.monitor_session _ _ _) as [[[d|]|e] io'];
    try now apply Hcontext.
  destruct (truthy (VDict d)) eqn:Htruthy; [|now apply Hcontext].
  cbn [fst snd].
  destruct (log_trigger_logged now "credit_warning" d
              (record_session_activity now c) c (proj1 Hsame))
    as (Hfired & Hhistory & Hsaved).
  repeat split; auto.
  exists "credit_warning". split; [now left|].
  rewrite Hhistory, last_n_snoc. apply last_snoc.
Qed.

Lemma check_context_window_monitors now conversation_text c io :
  session_monitor (check_context_window now conversation_text c io).1.2
  = session_monitor c
  /\ credit_monitor (check_context_window now conversation_text c io).1.2
     = credit_monitor c
  /\ config (check_context_window now conversation_text c io).1.2
     = config c.
Proof.
  unfold check_context_window.
  destruct (context_monitor c) as [xm|]; [|now repeat split].
  destruct (negb _); [|now repeat split].
  destruct (ContextMonitor.monitor_conversation _ _ _ _)
    as [[[[d|]|e] xm'] io']; cbn [fst snd]; try now repeat split.
  destruct (truthy (VDict d)); now repeat split.
Qed.

(** X22. Every activity update is recorded by the session monitor, once,
    whether or not a trigger fires: the exchange counter goes up by one
    and the time of the last activity is that of the update; the session's
    start, name, flags and backups are not touched.  The credit monitor
    and the configuration are as before. *)
Theorem update_activity_records_exchange
        now conversation_text claude_message c io :
  let updated :=
    update_activity now conversation_text claude_message c io in
  session_monitor updated.1.2
  = SessionMonitor.update_activity now <$> session_monitor c
  /\ credit_monitor updated.1.2 = credit_monitor c
  /\ config updated.1.2 = config c
  /\ forall sm sm',
       session_monitor c = Some sm ->
       session_monitor updated.1.2 = Some sm' ->
       let s := SessionMonitor.session_state sm in
       let s' := SessionMonitor.session_state sm' in
       SessionMonitor.total_exchanges s' = SessionMonitor.total_exchanges s + 1
       /\ SessionMonitor.last_activity s' = Some now
       /\ SessionMonitor.session_file sm' = Some s'
       /\ SessionMonitor.session_start s' = SessionMonitor.session_start s
       /\ SessionMonitor.session_id s' = SessionMonitor.session_id s
       /\ SessionMonitor.code_yellow_triggered s'
          = SessionMonitor.code_yellow_triggered s
       /\ SessionMonitor.code_orange_triggered s'
          = SessionMonitor.code_orange_triggered s
       /\ SessionMonitor.emergency_backups_created s'
          = SessionMonitor.emergency_backups_created s.
Proof.
  cbn zeta.
  assert (Hrecorded :
            session_monitor (record_session_activity now c)
            = SessionMonitor.update_activity now <$> session_monitor c
            /\ credit_monitor (record_session_activity now c)
               = credit_monitor c
            /\ config (record_session_activity now c) = config c).
  { unfold record_session_activity.
    destruct (session_monitor c) eqn:E; cbn; rewrite ?E; now repeat split. }
  assert (Hmonitors :
            session_monitor
              (update_activity now conversation_text claude_message c io).1.2
            = SessionMonitor.update_activity now <$> session_monitor c
            /\ credit_monitor
                 (update_activity now conversation_text claude_message c io).1.2
               = credit_monitor c
            /\ config
                 (update_activity now conversation_text claude_message c io).1.2
               = config c).
  { destruct Hrecorded as (Hs & Hc & Hg).
    pose proof (fun io0 => check_context_window_monitors
                  now conversation_text (record_session_activity now c) io0)
      as Hcontext.
    rewrite <- Hs, <- Hc, <- Hg.
    unfold update_activity.
    destruct (credit_monitor (record_session_activity now c)) as [cm|]
      eqn:Hcm; [|now apply Hcontext].
    destruct (negb _); [|now apply Hcontext].
    destruct (CreditMonitor.monitor_session _ _ _) as [[[d|]|e] io'];
      try now apply Hcontext.
    destruct (truthy (VDict d)); [|now apply Hcontext].
    cbn. rewrite Hcm. now repeat split. }
  destruct Hmonitors as (Hs & Hc & Hg).
  split; [exact Hs|]. split; [exact Hc|]. split; [exact Hg|].
  intros sm sm' Hsm Hsm'. rewrite Hs, Hsm in Hsm'. cbn in Hsm'.
  injection Hsm' as <-. now repeat split.
Qed.

(** X23. The newest event apart, the coordinator's own loop works the
    same way: one turn of it stamps the time of the check and saves the
    document; it logs a trigger exactly when the session monitor reports
    Code Yellow crossed, and then whether the backup succeeded or not
    (the event records the result the backup returned, and a backup that
    could not be made for want of a generator is counted all the same);
    otherwise counter, history and store are as before. *)
Theorem coordination_step_logs_code_yellow now c io :
  let stepped := coordination_step now c io in
  last_coordination_check (coordinator_state stepped.1) = Some now
  /\ coordinator_state_file stepped.1 = Some (coordinator_state stepped.1)
  /\ match session_monitor c with
     | None =>
         fired stepped.1 = fired c /\ history stepped.1 = history c
         /\ stepped.2 = io
     | Some sm =>
         let checked := SessionMonitor.check_session_thresholds now sm in
         if SessionMonitor.code_yellow_crossed checked.1 then
           let backup := SessionMonitor.trigger_code_yellow now checked.2 io in
           fired stepped.1 = fired c + 1
           /\ last (history stepped.1)
              = Some (MkEvent now "code_yellow" backup.1.1
                        (default (VBool false) (backup.1.1 !! "success")))
           /\ session_monitor stepped.1 = Some backup.1.2
           /\ stepped.2 = backup.2
           /\ (SessionMonitor.generator sm = None ->
               event_success <$> last (history stepped.1)
               = Some (VBool false))
         else
           fired stepped.1 = fired c /\ history stepped.1 = history c
           /\ session_monitor stepped.1 = Some checked.2
           /\ stepped.2 = io
     end.
Proof.
  cbn zeta. unfold coordination_step.
  destruct (session_monitor c) as [sm|] eqn:Hsm;
    [|now repeat split].
  pose proof (check_session_generator now sm) as Hkept.
  destruct (SessionMonitor.check_session_thresholds now sm) as [r sm1]
    eqn:Hchecked.
  cbn [fst snd].
  destruct (SessionMonitor.code_yellow_crossed r) eqn:Hcrossed;
    [|now repeat split].
  destruct (SessionMonitor.trigger_code_yellow now sm1 io)
    as [[d sm2] io'] eqn:Hbackup.
  cbn [fst snd].
  assert (Hlast : last (history
                          (_log_trigger now "code_yellow" d
                             (with_session_monitor (Some sm2) c)))
                  = Some (MkEvent now "code_yellow" d
                            (default (VBool false) (d !! "success")))).
  { apply log_trigger_last. }
  unfold history in *. cbn in Hlast |- *.
  repeat split; auto.
  intros Hgen.
  assert (Hgen1 : SessionMonitor.generator sm1 = None).
  { cbn [snd] in Hkept. now rewrite Hkept. }
  unfold SessionMonitor.trigger_code_yellow in Hbackup.
  rewrite Hgen1 in Hbackup. injection Hbackup as <- _ _.
  unfold fired. cbn in Hlast |- *. rewrite Hlast. reflexivity.
Qed.

(** The history holds as many events as were counted, up to ten. *)
Definition counted c : Prop :=
  Z.of_nat (length (history c)) = Z.min (fired c) 10.

Lemma counted_same c c' :
  coordinator_state c' = coordinator_state c -> counted c -> counted c'.
Proof. unfold counted, history, fired. now intros ->. Qed.

Lemma counted_logged e c c' : logged e c c' -> counted c -> counted c'.
Proof.
  unfold counted. intros (Hfired & Hhistory & _) Hc.
  rewrite Hhistory, Hfired, last_n_length, length_app. cbn [length]. lia.
Qed.

Lemma counted_run now op c io : counted c -> counted (run now op c io).1.
Proof.
  intros Hc.
  destruct op as [sid | conversation_text claude_message
                  | trigger_type trigger_result | | | | | | ];
    cbn [run fst].
  - destruct (start_unified_monitoring_counter now sid c) as (Hf & Hh & _).
    unfold counted. rewrite Hf, Hh. reflexivity.
  - pose proof (record_session_activity_documents now c) as Hsame.
    unfold update_activity.
    assert (Hcontext : forall io0,
              counted (check_context_window
                         now conversation_text
                         (record_session_activity now c) io0).1.2).
    { intros io0.
      pose proof (check_context_window_logged
                    now conversation_text (record_session_activity now c)
                    c io0 Hsame) as H.
      cbn zeta in H.
      destruct (check_context_window _ _ _ _) as [[[d|] c1] io1];
        cbn [fst snd] in *.
      - destruct H as [_ H]. eapply counted_logged; eassumption.
      - eapply counted_same; [apply H | exact Hc]. }
    destruct (credit_monitor _) as [cm|].
    2:{ specialize (Hcontext io).
        destruct (check_context_window _ _ _ _) as [[o c1] io1].
        exact Hcontext. }
    destruct (negb _).
    2:{ specialize (Hcontext io).
        destruct (check_context_window _ _ _ _) as [[o c1] io1].
        exact Hcontext. }
    destruct (CreditMonitor.monitor_session _ _ _) as [[[d|]|e] io'].
    + destruct (truthy (VDict d)).
      * cbn [fst snd].
        eapply counted_logged; [|exact Hc].
        apply log_trigger_logged, Hsame.
      * specialize (Hcontext io').
        destruct (check_context_window _ _ _ _) as [[o c1] io1].
        exact Hcontext.
    + specialize (Hcontext io').
      destruct (check_context_window _ _ _ _) as [[o c1] io1].
      exact Hcontext.
    + specialize (Hcontext io').
      destruct (check_context_window _ _ _ _) as [[o c1] io1].
      exact Hcontext.
  - eapply counted_logged; [|exact Hc]. now apply log_trigger_logged.
  - unfold coordination_step.
    destruct (session_monitor c) as [sm|].
    + destruct (SessionMonitor.check_session_thresholds now sm) as [r sm1].
      destruct (SessionMonitor.code_yellow_crossed r).
      * destruct (SessionMonitor.trigger_code_yellow now sm1 io)
          as [[d sm2] io'].
        cbn [fst].
        assert (Hl : counted (_log_trigger now "code_yellow" d
                                (with_session_monitor (Some sm2) c))).
        { eapply counted_logged; [|exact Hc].
          now apply log_trigger_logged. }
        exact Hl.
      * exact Hc.
    + exact Hc.
  - eapply counted_same; [|exact Hc]. unfold start_coordination_thread.
    now destruct (coordination_thread c).
  - exact Hc.
  - exact Hc.
  - eapply counted_same; [|exact Hc]. unfold stop_unified_monitoring.
    now destruct (session_monitor _).
  - reflexivity.
Qed.

(** X24. The counter and the history move together.  When the history
    holds as many events as [total_triggers_fired] counts, ten at most (as
    it does on a fresh installation, after a start and after a reset), it
    still does after any sequence of coordinator operations; so the
    counter is never negative, and fewer than ten events in the history
    means that exactly that many triggers fired since the run began. *)
Theorem history_counts_triggers ops : forall c io
        (Hcounted : Z.of_nat (length (history c)) = Z.min (fired c) 10),
  let c' := (Runs.coordinator_run ops c io).1 in
  Z.of_nat (length (history c')) = Z.min (fired c') 10
  /\ 0 <= fired c'
  /\ ((length (history c') < 10)%nat ->
      fired c' = Z.of_nat (length (history c'))).
Proof.
  induction ops as [|[now op] ops IH]; intros c io Hcounted; cbn zeta.
  - cbn [Runs.coordinator_run fst]. lia.
  - cbn [Runs.coordinator_run].
    pose proof (counted_run now op c io Hcounted) as Hstep.
    destruct (run now op c io) as [c1 io1]. cbn [fst] in Hstep.
    apply IH, Hstep.
Qed.

(** X25. Starting unified monitoring names the run once and hands the
    same name to the session monitor: the name is the one given, or
    "unified-" with the time when none (or an empty one) is given; it is
    reported, kept in the coordinator's document and, when session
    monitoring is on, it is the name of the freshly started session,
    whose flags are clear and whose counters are 0. *)
Theorem start_unified_monitoring_names_session now sid c :
  let started := start_unified_monitoring now sid c in
  let name :=
    match sid with
    | Some (String a given) => String a given
    | _ => "unified-" +:+ string_of_Z now
    end in
  started.1 !! "session_id" = Some (VStr name)
  /\ session_id (coordinator_state started.2) = Some name
  /\ coordinator_started (coordinator_state started.2) = Some now
  /\ match session_monitor c with
     | None => session_monitor started.2 = None
     | Some sm =>
         if config_enabled (config c) "session_monitoring" then
           exists sm',
             session_monitor started.2 = Some sm'
             /\ SessionMonitor.session_id (SessionMonitor.session_state sm')
                = Some name
             /\ is_Some (SessionMonitor.session_start
                           (SessionMonitor.session_state sm'))
             /\ SessionMonitor.code_yellow_triggered
                  (SessionMonitor.session_state sm') = false
             /\ SessionMonitor.code_orange_triggered
                  (SessionMonitor.session_state sm') = false
             /\ SessionMonitor.total_exchanges
                  (SessionMonitor.session_state sm') = 0
             /\ SessionMonitor.emergency_backups_created
                  (SessionMonitor.session_state sm') = 0
             /\ SessionMonitor.session_file sm'
                = Some (SessionMonitor.session_state sm')
         else session_monitor started.2 = Some sm
     end.
Proof.
  cbn zeta.
  set (name := match sid with
               | Some (String a given) => String a given
               | _ => "unified-" +:+ string_of_Z now
               end).
  assert (Hname : match sid with
                  | Some s => if String.eqb s ""
                              then "unified-" +:+ string_of_Z now else s
                  | None => "unified-" +:+ string_of_Z now
                  end = name).
  { subst name. destruct sid as [[|a given]|]; reflexivity. }
  assert (Hnonempty : String.eqb name "" = false).
  { subst name. destruct sid as [[|a given]|]; reflexivity. }
  unfold start_unified_monitoring. rewrite Hname.
  destruct (session_monitor c) as [sm|] eqn:Hsm.
  - destruct (config_enabled (config c) "session_monitoring") eqn:Hon.
    + unfold SessionMonitor.start_session. rewrite Hnonempty.
      cbn [config with_session_monitor credit_monitor context_monitor].
      destruct (config_enabled (config c) "unified_monitoring");
        (split; [reflexivity|]); (split; [reflexivity|]);
        (split; [reflexivity|]);
        cbn [snd];
        match goal with
        | |- exists sm', session_monitor ?x = Some sm' /\ _ =>
            assert (exists sm', session_monitor x = Some sm') as [sm' E]
        end.
      all: try (unfold start_coordination_thread;
                destruct (coordination_thread _); cbn; eauto; fail).
      all: try (cbn; eauto; fail).
      all: exists sm'; split; [exact E|].
      all: revert E; unfold start_coordination_thread;
        try destruct (coordination_thread _); cbn;
        destruct (config_enabled (SessionMonitor.config sm)
                                 "session_monitoring");
        unfold SessionMonitor.start_monitoring_thread; cbn;
        try destruct (SessionMonitor.monitoring_thread sm); cbn;
        intros [= <-]; cbn; repeat split; eauto.
    + rewrite <- Hsm.
      destruct (config_enabled (config c) "unified_monitoring");
        repeat split; try reflexivity.
      unfold start_coordination_thread.
      now destruct (coordination_thread c).
  - rewrite <- Hsm.
    destruct (config_enabled (config c) "unified_monitoring");
      repeat split; try reflexivity.
    unfold start_coordination_thread.
    now destruct (coordination_thread c).
Qed.
End CoordinatorLog.
